(** * Smart Safety Band backend: telemetry ingestion, emergency detection,
      retention, history, statistics and location sharing (server.js)

    The Express handlers of [server.js] are embedded as functions in a small
    state-and-exception monad over a model of the three MongoDB collections.

    - A JavaScript Number is an IEEE 754 binary64 value: [float].
    - A Date is its epoch-millisecond value: [Z].
    - Request fields that may be missing are [option]s ([None] = undefined).
    - A Mongoose collection is the list of its documents in insertion order.
    - Every asynchronous database call may reject; which calls reject is an
      input of the model ([Env.faults], keyed by the source's call site).
    - Informational [console.log] output is not modelled; [console.error]
      lines are. *)

From Stdlib Require Import PrimFloat.
From stdpp Require Import gmap strings list sorting.

Open Scope Z_scope.

(** ** JavaScript values *)

Abbreviation number := float.

Module JS.

(** ToBoolean on a Number: [0], [-0] and [NaN] are falsy. *)
Definition truthy (x : number) : bool :=
  negb (PrimFloat.is_zero x || PrimFloat.is_nan x).

(** ToBoolean on a possibly undefined Number. *)
Definition truthy_opt (v : option number) : bool :=
  match v with
  | Some x => truthy x
  | None => false
  end.

(** [v || 0] for a possibly undefined Number [v]. *)
Definition or_zero (v : option number) : number :=
  match v with
  | Some x => if truthy x then x else 0%float
  | None => 0%float
  end.

(** ToBoolean on a possibly undefined String: [""] is falsy. *)
Definition truthy_str (v : option string) : bool :=
  match v with
  | Some s => negb (String.eqb s "")
  | None => false
  end.

(** ToBoolean on a possibly undefined Boolean. *)
Definition truthy_bool (v : option bool) : bool :=
  match v with
  | Some b => b
  | None => false
  end.

(** ToBoolean on a possibly undefined epoch-millisecond number. *)
Definition truthy_ms (v : option Z) : bool :=
  match v with
  | Some t => negb (t =? 0)
  | None => false
  end.

Definition two52 : number := 4503599627370496%float.

(** [parseInt(x)] for a Number [x]: the integer part of [x], [NaN] for
    [NaN] and the infinities.  JavaScript goes through [String(x)], so this
    is the result for [1e-6 <= |x| < 1e21] and for zero; outside that range
    [String(x)] is in exponent notation and only its leading digits are
    read, which the model does not follow. *)
Definition parseInt (x : number) : number :=
  if PrimFloat.is_infinity x then PrimFloat.nan
  else
    let a := PrimFloat.abs x in
    if (a <? two52)%float then
      let r := (a + two52 - two52)%float in
      let f := if (a <? r)%float then (r - 1)%float else r in
      if (x <? 0)%float then (- f)%float else f
    else x.

(** [parseFloat(x)] for a truthy Number [x] is [x]. *)
Definition parseFloat (x : number) : number := x.

(** [v ? f(v) : undefined] for a possibly undefined Number [v]. *)
Definition if_truthy (f : number -> number) (v : option number)
  : option number :=
  match v with
  | Some x => if truthy x then Some (f x) else None
  | None => None
  end.

(** The values stored in the schema-less [metadata] of an activity. *)
#[warnings="-register-all"]
Inductive value :=
| Undefined
| Null
| Num (n : number)
| Str (s : string)
| Date (t : Z)
| Obj (fields : list (string * value)).

Definition of_num (v : option number) : value :=
  match v with
  | Some x => Num x
  | None => Undefined
  end.

End JS.

(** ** Schemas *)

Definition ObjectId := nat.

Record Contact := {
  contact_id : string;
  contact_name : string;
  contact_phone : string;
  contact_relationship : string
}.

Module User.
Record t := {
  _id : ObjectId;
  name : string;
  email : string;
  phone : string;
  emergencyContacts : list Contact
}.
End User.

(** [activitySchema.type], enum ['sync', 'location', 'emergency', 'system']. *)
Inductive ActivityType := Ty_sync | Ty_location | Ty_emergency | Ty_system.

(** [activitySchema.status], enum ['success', 'warning', 'error', 'normal']. *)
Inductive ActivityStatus := St_success | St_warning | St_error | St_normal.

#[global] Instance ActivityType_eq_dec : EqDecision ActivityType.
Proof. solve_decision. Defined.

Definition type_name (t : ActivityType) : string :=
  match t with
  | Ty_sync => "sync"
  | Ty_location => "location"
  | Ty_emergency => "emergency"
  | Ty_system => "system"
  end.

Definition type_eqb (a b : ActivityType) : bool :=
  match a, b with
  | Ty_sync, Ty_sync | Ty_location, Ty_location
  | Ty_emergency, Ty_emergency | Ty_system, Ty_system => true
  | _, _ => false
  end.

Definition status_eqb (a b : ActivityStatus) : bool :=
  match a, b with
  | St_success, St_success | St_warning, St_warning
  | St_error, St_error | St_normal, St_normal => true
  | _, _ => false
  end.

(** The message templates of the activities written by the two ingest
    routes; the interpolated number is kept, its formatting is not. *)
Inductive Message :=
| Msg_potential_fall (totalAcceleration : number)
    (* `Potential fall detected! Total acceleration: ${...}g` *)
| Msg_rapid_movement (totalRotation : number)
    (* `Rapid movement detected! Total rotation: ${...}°/s` *)
| Msg_esp32_received       (* 'ESP32 sensor data received' *)
| Msg_emergency_button     (* 'Emergency button pressed on device' *)
| Msg_fall_by_device       (* 'Fall detected by device sensors' *)
| Msg_heart_rate (heartRate : number)
    (* `Abnormal heart rate detected: ${heartRate} BPM` *)
| Msg_temperature (temperature : number)
    (* `Abnormal body temperature: ${temperature}°C` *)
| Msg_low_battery (batteryLevel : number)
    (* `Low battery warning: ${batteryLevel}%` *)
| Msg_text (s : string).

(** An activity document; its [_id] is never read and is left out. *)
Module Activity.
Record t := {
  userId : ObjectId;
  type : ActivityType;
  message : Message;
  status : ActivityStatus;
  metadata : JS.value;
  createdAt : Z
}.
End Activity.

Module Vec3.
Record t := { x : option number; y : option number; z : option number }.
End Vec3.

Module Location.
Record t := {
  latitude : option number;
  longitude : option number;
  accuracy : option number
}.
End Location.

Module SensorData.
Record t := {
  _id : ObjectId;
  userId : ObjectId;
  deviceId : string;
  heartRate : option number;
  temperature : option number;
  accelerometer : option Vec3.t;
  gyroscope : option Vec3.t;
  location : option Location.t;
  batteryLevel : option number;
  emergencyTriggered : bool;
  fallDetected : bool;
  timestamp : Z;
  createdAt : Z
}.

(** A [min]/[max] validator of the schema; it is skipped for an undefined
    value. *)
Definition in_range (lo hi : number) (v : option number) : bool :=
  match v with
  | Some n => (lo <=? n)%float && (n <=? hi)%float
  | None => true
  end.

(** [sensorDataSchema]: heartRate 0..300, temperature -50..100,
    batteryLevel 0..100. *)
Definition validate (d : t) : option string :=
  if negb (in_range 0 300 (heartRate d)) then Some "heartRate"
  else if negb (in_range (-50) 100 (temperature d)) then Some "temperature"
  else if negb (in_range 0 100 (batteryLevel d)) then Some "batteryLevel"
  else None.
End SensorData.

Definition js_of_vec3 (v : option Vec3.t) : JS.value :=
  match v with
  | Some v => JS.Obj [("x", JS.of_num (Vec3.x v)); ("y", JS.of_num (Vec3.y v));
                      ("z", JS.of_num (Vec3.z v))]
  | None => JS.Undefined
  end.

Definition js_of_location (l : option Location.t) : JS.value :=
  match l with
  | Some l => JS.Obj [("latitude", JS.of_num (Location.latitude l));
                      ("longitude", JS.of_num (Location.longitude l));
                      ("accuracy", JS.of_num (Location.accuracy l))]
  | None => JS.Undefined
  end.

(** ** The world: database, console, outgoing SMS *)

Inductive Exn :=
| DbError (call : string)            (* a rejected database call *)
| ValidationError (path : string)    (* a Mongoose validator failed *)
| ReferenceError (identifier : string)
| SmsError (to : string).

Record World := {
  users : list User.t;
  activities : list Activity.t;
  sensorData : list SensorData.t;
  next_id : ObjectId;
  console : list (string * option Exn);
  sms_sent : list (string * string)      (* (to, sid) of accepted messages *)
}.

(** The outcome of a request to [twilioClient.messages.create]. *)
Inductive SmsResult := Sms_sid (sid : string) | Sms_rejected.

Record Env := {
  now : Z;                                   (* Date.now() *)
  faults : string -> bool;                   (* call sites that reject *)
  twilioClient : option (string -> SmsResult)  (* null when not configured *)
}.

Definition no_faults : string -> bool := fun _ => false.

(** ** State and exceptions *)

Inductive Outcome (A : Type) :=
| Returned (a : A)
| Thrown (e : Exn).
Arguments Returned {A} a.
Arguments Thrown {A} e.

Definition M (A : Type) : Type := World -> Outcome A * World.

Definition ret {A} (a : A) : M A := fun w => (Returned a, w).

Definition throw {A} (e : Exn) : M A := fun w => (Thrown e, w).

Definition bind {A B} (c : M A) (k : A -> M B) : M B :=
  fun w =>
    match c w with
    | (Returned a, w') => k a w'
    | (Thrown e, w') => (Thrown e, w')
    end.

(** [try { c } catch (e) { h e }]: the effects of [c] up to the throw stay. *)
Definition try_catch {A} (c : M A) (h : Exn -> M A) : M A :=
  fun w =>
    match c w with
    | (Returned a, w') => (Returned a, w')
    | (Thrown e, w') => h e w'
    end.

Declare Scope js_scope.
Delimit Scope js_scope with js.
Notation "'let*' v ':=' c 'in' k" := (bind c (fun v => k))
  (at level 10, v name, c at level 200, k at level 200, only parsing)
  : js_scope.
Notation "'let*' ' p ':=' c 'in' k" :=
  (bind c (fun v => match v with p => k end))
  (at level 10, p pattern, c at level 200, k at level 200, only parsing)
  : js_scope.
Open Scope js_scope.

Definition console_error (label : string) (e : option Exn) : M unit :=
  fun w =>
    (Returned tt,
     {| users := users w; activities := activities w;
        sensorData := sensorData w; next_id := next_id w;
        console := console w ++ [(label, e)];
        sms_sent := sms_sent w |}).

(** A database call at call site [call]: rejects when the environment says
    so, otherwise runs [c]. *)
Definition db_call {A} (env : Env) (call : string) (c : M A) : M A :=
  if faults env call then throw (DbError call) else c.

(** ** Collections *)

Definition with_users (us : list User.t) (w : World) : World :=
  {| users := us; activities := activities w; sensorData := sensorData w;
     next_id := next_id w; console := console w;
     sms_sent := sms_sent w |}.

Definition with_activities (acts : list Activity.t) (w : World) : World :=
  {| users := users w; activities := acts; sensorData := sensorData w;
     next_id := next_id w; console := console w;
     sms_sent := sms_sent w |}.

Definition with_sensorData (ds : list SensorData.t) (w : World) : World :=
  {| users := users w; activities := activities w; sensorData := ds;
     next_id := next_id w; console := console w;
     sms_sent := sms_sent w |}.

(** [new Model({...})] draws a fresh [_id]. *)
Definition new_ObjectId : M ObjectId :=
  fun w =>
    (Returned (next_id w),
     {| users := users w; activities := activities w;
        sensorData := sensorData w; next_id := S (next_id w);
        console := console w; sms_sent := sms_sent w |}).

Definition User_findOne (env : Env) (call : string) (p : User.t -> bool)
  : M (option User.t) :=
  db_call env call (fun w => (Returned (List.find p (users w)), w)).

Definition User_findById (env : Env) (call : string) (id : ObjectId)
  : M (option User.t) :=
  User_findOne env call (fun u => Nat.eqb (User._id u) id).

Definition User_save (env : Env) (call : string) (u : User.t) : M unit :=
  db_call env call (fun w => (Returned tt, with_users (users w ++ [u]) w)).

(** [doc.save()] on a SensorData document: the schema validators run first,
    then the insert. *)
Definition SensorData_save (env : Env) (call : string) (d : SensorData.t)
  : M SensorData.t :=
  match SensorData.validate d with
  | Some path => throw (ValidationError path)
  | None =>
    db_call env call
      (fun w => (Returned d, with_sensorData (sensorData w ++ [d]) w))
  end.

(** [doc.save()] on an Activity document built by the handlers below; all
    required paths are set and the enums are respected by construction. *)
Definition Activity_save (env : Env) (call : string) (a : Activity.t)
  : M unit :=
  db_call env call
    (fun w => (Returned tt, with_activities (activities w ++ [a]) w)).

(** ** POST /receive *)

Module Receive.

(** The JSON body.  Readings are the Numbers the device sends; a body that
    carries a string or another JSON value in their place is outside the
    model.  [timestamp] is an integer of epoch milliseconds. *)
Record body := {
  accelerometer : option Vec3.t;
  gyroscope : option Vec3.t;
  latitude : option number;
  longitude : option number;
  timestamp : option Z;
  heartRate : option number;
  temperature : option number;
  batteryLevel : option number
}.

Record analysis := {
  totalAcceleration : number;     (* rendered with toFixed(2) + 'g' *)
  totalRotation : number;         (* rendered with toFixed(2) + '°/s' *)
  fallDetected : bool;
  emergencyTriggered : bool;
  a_location : option (number * number);
  a_heartRate : option number;
  a_temperature : option number;
  a_batteryLevel : option number
}.

Inductive response :=
| Status200 (dataId : ObjectId) (a : analysis) (timestamp : Z)
    (* status: 'success', message: 'ESP32 data received and saved successfully' *)
| Status500 (error : Exn).
    (* status: 'error', message: 'Failed to process ESP32 data' *)

Definition demo_email : string := "rahul.sharma@smartsafetyband.com".

(** The demo user created when none exists (the bcrypt hash of the
    password is left out). *)
Definition demo_user (id : ObjectId) : User.t :=
  {| User._id := id;
     User.name := "Rahul Sharma";
     User.email := demo_email;
     User.phone := "+91 98765 43210";
     User.emergencyContacts :=
       [ {| contact_id := "1"; contact_name := "Sunita Sharma";
            contact_phone := "+91 98765 43211";
            contact_relationship := "Mother" |};
         {| contact_id := "2"; contact_name := "Amit Kumar";
            contact_phone := "+91 87654 32109";
            contact_relationship := "Friend" |};
         {| contact_id := "3"; contact_name := "Emergency Services";
            contact_phone := "112";
            contact_relationship := "Emergency" |} ] |}.

(** [v?.axis || 0] *)
Definition axis (v : option Vec3.t) (proj : Vec3.t -> option number)
  : number :=
  JS.or_zero (v ≫= proj).

Definition magnitude (a b c : number) : number :=
  PrimFloat.sqrt (a * a + b * b + c * c)%float.

Definition full_vec (a b c : number) : Vec3.t :=
  {| Vec3.x := Some a; Vec3.y := Some b; Vec3.z := Some c |}.

Definition js_vec (a b c : number) : JS.value :=
  JS.Obj [("x", JS.Num a); ("y", JS.Num b); ("z", JS.Num c)].

(** [latitude && longitude ? { latitude, longitude } : null] *)
Definition js_location (b : body) : JS.value :=
  if JS.truthy_opt (latitude b) && JS.truthy_opt (longitude b)
  then JS.Obj [("latitude", JS.of_num (latitude b));
               ("longitude", JS.of_num (longitude b))]
  else JS.Null.

(** [timestamp ? new Date(parseInt(timestamp)) : new Date()] *)
Definition sample_time (env : Env) (b : body) : Z :=
  match timestamp b with
  | Some t => if JS.truthy_ms (Some t) then t else now env
  | None => now env
  end.

Definition handler (env : Env) (b : body) : M response :=
  try_catch
    (let accX := axis (accelerometer b) Vec3.x in
     let accY := axis (accelerometer b) Vec3.y in
     let accZ := axis (accelerometer b) Vec3.z in
     let gyroX := axis (gyroscope b) Vec3.x in
     let gyroY := axis (gyroscope b) Vec3.y in
     let gyroZ := axis (gyroscope b) Vec3.z in
     let totalAcceleration := magnitude accX accY accZ in
     let totalRotation := magnitude gyroX gyroY gyroZ in
     let* found :=
       User_findOne env "User.findOne"
         (fun u => String.eqb (User.email u) demo_email) in
     let* user :=
       match found with
       | Some u => ret u
       | None =>
         (* Create demo user if doesn't exist *)
         let* id := new_ObjectId in
         let user := demo_user id in
         let* _ := User_save env "user.save" user in
         ret user
       end in
     (* Create sensor data entry *)
     let* id := new_ObjectId in
     let sensorData :=
       {| SensorData._id := id;
          SensorData.userId := User._id user;
          SensorData.deviceId := "ESP32_001";
          SensorData.accelerometer := Some (full_vec accX accY accZ);
          SensorData.gyroscope := Some (full_vec gyroX gyroY gyroZ);
          SensorData.location :=
            if JS.truthy_opt (latitude b) && JS.truthy_opt (longitude b)
            then Some {| Location.latitude :=
                           option_map JS.parseFloat (latitude b);
                         Location.longitude :=
                           option_map JS.parseFloat (longitude b);
                         Location.accuracy := Some 10%float |}
            else None;
          SensorData.heartRate := JS.if_truthy JS.parseInt (heartRate b);
          SensorData.temperature :=
            JS.if_truthy JS.parseFloat (temperature b);
          SensorData.batteryLevel :=
            JS.if_truthy JS.parseInt (batteryLevel b);
          SensorData.emergencyTriggered := false;
          SensorData.fallDetected := false;
          SensorData.timestamp := sample_time env b;
          SensorData.createdAt := now env |} in
     let* savedSensorData :=
       try_catch (SensorData_save env "sensorData.save" sensorData)
         (fun saveError =>
            let* _ := console_error "ERROR SAVING SENSOR DATA"
                        (Some saveError) in
            throw saveError) in
     (* Simple fall detection algorithm *)
     let* fallDetected :=
       (if (15 <? totalAcceleration)%float || (totalAcceleration <? 2)%float
        then
          let fallActivity :=
            {| Activity.userId := User._id user;
               Activity.type := Ty_emergency;
               Activity.message := Msg_potential_fall totalAcceleration;
               Activity.status := St_warning;
               Activity.metadata :=
                 JS.Obj [("deviceId", JS.Str "ESP32_001");
                         ("accelerometer", js_vec accX accY accZ);
                         ("gyroscope", js_vec gyroX gyroY gyroZ);
                         ("location", js_location b);
                         ("totalAcceleration", JS.Num totalAcceleration);
                         ("timestamp", JS.Date (sample_time env b))];
               Activity.createdAt := now env |} in
          let* _ := Activity_save env "fallActivity.save" fallActivity in
          ret true
        else ret false) in
     (* Check for rapid rotation (potential emergency) *)
     let* emergencyTriggered :=
       (if (200 <? totalRotation)%float
        then
          let emergencyActivity :=
            {| Activity.userId := User._id user;
               Activity.type := Ty_emergency;
               Activity.message := Msg_rapid_movement totalRotation;
               Activity.status := St_error;
               Activity.metadata :=
                 JS.Obj [("deviceId", JS.Str "ESP32_001");
                         ("accelerometer", js_vec accX accY accZ);
                         ("gyroscope", js_vec gyroX gyroY gyroZ);
                         ("location", js_location b);
                         ("totalRotation", JS.Num totalRotation);
                         ("timestamp", JS.Date (sample_time env b))];
               Activity.createdAt := now env |} in
          let* _ := Activity_save env "emergencyActivity.save"
                      emergencyActivity in
          ret true
        else ret false) in
     (* Create sync activity *)
     let syncActivity :=
       {| Activity.userId := User._id user;
          Activity.type := Ty_sync;
          Activity.message := Msg_esp32_received;
          Activity.status := St_success;
          Activity.metadata :=
            JS.Obj [("deviceId", JS.Str "ESP32_001");
                    ("accelerometer", js_vec accX accY accZ);
                    ("gyroscope", js_vec gyroX gyroY gyroZ);
                    ("location", js_location b);
                    ("heartRate", JS.of_num (heartRate b));
                    ("temperature", JS.of_num (temperature b));
                    ("batteryLevel", JS.of_num (batteryLevel b));
                    ("timestamp", JS.Date (sample_time env b))];
          Activity.createdAt := now env |} in
     let* _ :=
       try_catch (Activity_save env "syncActivity.save" syncActivity)
         (fun activityError =>
            console_error "Error creating activity record"
              (Some activityError)) in
     ret (Status200 (SensorData._id savedSensorData)
            {| totalAcceleration := totalAcceleration;
               totalRotation := totalRotation;
               fallDetected := fallDetected;
               emergencyTriggered := emergencyTriggered;
               a_location :=
                 match latitude b, longitude b with
                 | Some la, Some lo =>
                   if JS.truthy la && JS.truthy lo then Some (la, lo)
                   else None
                 | _, _ => None
                 end;
               a_heartRate := JS.if_truthy (fun h => h) (heartRate b);
               a_temperature := JS.if_truthy (fun t => t) (temperature b);
               a_batteryLevel := JS.if_truthy (fun l => l) (batteryLevel b)
            |}
            (now env)))
    (fun error =>
       let* _ := console_error "ESP32 data processing error" (Some error) in
       ret (Status500 error)).

End Receive.

(** ** POST /api/sensor/data *)

Module SensorIngest.

(** The JSON body, typed as for POST /receive; [userId] is a well-formed
    ObjectId when present. *)
Record body := {
  deviceId : option string;
  userId : option ObjectId;
  heartRate : option number;
  temperature : option number;
  accelerometer : option Vec3.t;
  gyroscope : option Vec3.t;
  location : option Location.t;
  batteryLevel : option number;
  emergencyTriggered : option bool;
  fallDetected : option bool;
  timestamp : option Z
}.

Inductive response :=
| Status400        (* message: 'Device ID is required' *)
| Status404        (* message: 'User not found for this device' *)
| Status201 (dataId : ObjectId) (activitiesTriggered : list string)
    (timestamp : Z)  (* message: 'Sensor data received successfully' *)
| Status500.       (* message: 'Failed to process sensor data' *)

(** [v && p(v)] as the condition of an [if]: the value when the branch
    is taken. *)
Definition guard (v : option number) (p : number -> bool)
  : option number :=
  match v with
  | Some n => if JS.truthy n && p n then Some n else None
  | None => None
  end.

Definition handler (env : Env) (b : body) : M response :=
  try_catch
    ((* Validate required fields *)
     if negb (JS.truthy_str (deviceId b)) then ret Status400
     else
     let deviceId := default "" (deviceId b) in
     (* Find user by deviceId or userId *)
     let* user :=
       match userId b with
       | Some id => User_findById env "User.findById" id
       | None =>
         User_findOne env "User.findOne"
           (fun u => String.eqb (User.phone u) deviceId)
       end in
     match user with
     | None => ret Status404
     | Some user =>
     let* id := new_ObjectId in
     let sensorData :=
       {| SensorData._id := id;
          SensorData.userId := User._id user;
          SensorData.deviceId := deviceId;
          SensorData.heartRate := heartRate b;
          SensorData.temperature := temperature b;
          SensorData.accelerometer := accelerometer b;
          SensorData.gyroscope := gyroscope b;
          SensorData.location := location b;
          SensorData.batteryLevel := batteryLevel b;
          SensorData.emergencyTriggered :=
            default false (emergencyTriggered b);
          SensorData.fallDetected := default false (fallDetected b);
          SensorData.timestamp :=
            match timestamp b with
            | Some t => if JS.truthy_ms (Some t) then t else now env
            | None => now env
            end;
          SensorData.createdAt := now env |} in
     let* _ := SensorData_save env "sensorData.save" sensorData in
     (* Check for emergency conditions and create activities *)
     let activities : list string := [] in
     let* activities :=
       if JS.truthy_bool (emergencyTriggered b) then
         let emergencyActivity :=
           {| Activity.userId := User._id user;
              Activity.type := Ty_emergency;
              Activity.message := Msg_emergency_button;
              Activity.status := St_error;
              Activity.metadata :=
                JS.Obj [("deviceId", JS.Str deviceId);
                        ("location", js_of_location (location b));
                        ("timestamp",
                         JS.Date (SensorData.timestamp sensorData))];
              Activity.createdAt := now env |} in
         let* _ := Activity_save env "emergencyActivity.save"
                     emergencyActivity in
         ret (activities ++ ["emergency_triggered"])
       else ret activities in
     let* activities :=
       if JS.truthy_bool (fallDetected b) then
         let fallActivity :=
           {| Activity.userId := User._id user;
              Activity.type := Ty_emergency;
              Activity.message := Msg_fall_by_device;
              Activity.status := St_warning;
              Activity.metadata :=
                JS.Obj [("deviceId", JS.Str deviceId);
                        ("accelerometer", js_of_vec3 (accelerometer b));
                        ("gyroscope", js_of_vec3 (gyroscope b));
                        ("location", js_of_location (location b));
                        ("timestamp",
                         JS.Date (SensorData.timestamp sensorData))];
              Activity.createdAt := now env |} in
         let* _ := Activity_save env "fallActivity.save" fallActivity in
         ret (activities ++ ["fall_detected"])
       else ret activities in
     (* Check for abnormal vital signs *)
     let* activities :=
       match guard (heartRate b)
               (fun heartRate =>
                  (120 <? heartRate)%float || (heartRate <? 50)%float) with
       | Some heartRate =>
         let vitalActivity :=
           {| Activity.userId := User._id user;
              Activity.type := Ty_system;
              Activity.message := Msg_heart_rate heartRate;
              Activity.status :=
                if (150 <? heartRate)%float then St_error else St_warning;
              Activity.metadata :=
                JS.Obj [("deviceId", JS.Str deviceId);
                        ("heartRate", JS.Num heartRate);
                        ("timestamp",
                         JS.Date (SensorData.timestamp sensorData))];
              Activity.createdAt := now env |} in
         let* _ := Activity_save env "vitalActivity.save" vitalActivity in
         ret (activities ++ ["abnormal_vitals"])
       | None => ret activities
       end in
     let* activities :=
       match guard (temperature b)
               (fun temperature =>
                  (38 <? temperature)%float || (temperature <? 35)%float)
       with
       | Some temperature =>
         let tempActivity :=
           {| Activity.userId := User._id user;
              Activity.type := Ty_system;
              Activity.message := Msg_temperature temperature;
              Activity.status := St_warning;
              Activity.metadata :=
                JS.Obj [("deviceId", JS.Str deviceId);
                        ("temperature", JS.Num temperature);
                        ("timestamp",
                         JS.Date (SensorData.timestamp sensorData))];
              Activity.createdAt := now env |} in
         let* _ := Activity_save env "tempActivity.save" tempActivity in
         ret (activities ++ ["abnormal_temperature"])
       | None => ret activities
       end in
     (* Low battery warning *)
     let* activities :=
       match guard (batteryLevel b)
               (fun batteryLevel => (batteryLevel <? 20)%float) with
       | Some batteryLevel =>
         let batteryActivity :=
           {| Activity.userId := User._id user;
              Activity.type := Ty_system;
              Activity.message := Msg_low_battery batteryLevel;
              Activity.status :=
                if (batteryLevel <? 10)%float then St_error
                else St_warning;
              Activity.metadata :=
                JS.Obj [("deviceId", JS.Str deviceId);
                        ("batteryLevel", JS.Num batteryLevel);
                        ("timestamp",
                         JS.Date (SensorData.timestamp sensorData))];
              Activity.createdAt := now env |} in
         let* _ := Activity_save env "batteryActivity.save"
                     batteryActivity in
         ret (activities ++ ["low_battery"])
       | None => ret activities
       end in
     ret (Status201 (SensorData._id sensorData) activities
            (SensorData.timestamp sensorData))
     end)
    (fun error =>
       let* _ := console_error "Sensor data error" (Some error) in
       ret Status500).

End SensorIngest.

(** ** Queries on the SensorData collection *)

(** [a] comes before [b] under [.sort({ createdAt: -1 })]. *)
Definition newer_first (a b : SensorData.t) : Prop :=
  SensorData.createdAt b <= SensorData.createdAt a.

#[global] Instance newer_first_dec : RelDecision newer_first.
Proof. intros a b. unfold newer_first. apply Z.le_dec. Defined.

(** [SensorData.find(q).sort({ createdAt: -1 }).limit(n).skip(k)]: the
    matching documents, newest first, without the first [k], cut to [n]
    documents; a limit of [0] means no limit in MongoDB. *)
Definition find_sort_limit_skip (q : SensorData.t -> bool) (n k : nat)
    (docs : list SensorData.t) : list SensorData.t :=
  let sorted := merge_sort newer_first (List.filter q docs) in
  let skipped := drop k sorted in
  if Nat.eqb n 0 then skipped else take n skipped.

Definition SensorData_find (env : Env) (call : string)
    (q : SensorData.t -> bool) (n k : nat) : M (list SensorData.t) :=
  db_call env call
    (fun w => (Returned (find_sort_limit_skip q n k (sensorData w)), w)).

Definition SensorData_countDocuments (env : Env) (call : string)
    (q : SensorData.t -> bool) : M nat :=
  db_call env call
    (fun w => (Returned (length (List.filter q (sensorData w))), w)).

(** [SensorData.findOne(q).sort({ createdAt: -1 })] *)
Definition SensorData_findOne_latest (env : Env) (call : string)
    (q : SensorData.t -> bool) : M (option SensorData.t) :=
  db_call env call
    (fun w =>
       (Returned (head (merge_sort newer_first (List.filter q (sensorData w)))),
        w)).

(** [SensorData.deleteMany(q)], returning [deletedCount]. *)
Definition SensorData_deleteMany (env : Env) (call : string)
    (q : SensorData.t -> bool) : M nat :=
  db_call env call
    (fun w =>
       (Returned (length (List.filter q (sensorData w))),
        with_sensorData (List.filter (fun d => negb (q d)) (sensorData w)) w)).

(** ** GET /api/sensor/history *)

Module History.

(** The query string; [limit] and [skip] are given as the non-negative
    integers [parseInt] reads from them, the dates as epoch milliseconds. *)
Record query := {
  limit : option nat;
  skip : option nat;
  startDate : option Z;
  endDate : option Z
}.

Inductive response :=
| Status200 (data : list SensorData.t) (total : nat) (hasMore : bool)
| Status500.       (* message: 'Server error' *)

Definition is_set (d : option Z) : bool :=
  match d with Some _ => true | None => false end.

(** The Mongo query object built from the request. *)
Definition mongo_query (uid : ObjectId) (q : query) (d : SensorData.t)
  : bool :=
  Nat.eqb (SensorData.userId d) uid
  && (if is_set (startDate q) || is_set (endDate q) then
        match startDate q with
        | Some s => s <=? SensorData.createdAt d     (* $gte *)
        | None => true
        end
        && match endDate q with
           | Some e => SensorData.createdAt d <=? e  (* $lte *)
           | None => true
           end
      else true).

Definition handler (env : Env) (uid : ObjectId) (q : query) : M response :=
  try_catch
    (let limit := default 50%nat (limit q) in
     let skip := default 0%nat (skip q) in
     let query := mongo_query uid q in
     let* sensorData :=
       SensorData_find env "SensorData.find" query limit skip in
     let* total :=
       SensorData_countDocuments env "SensorData.countDocuments" query in
     ret (Status200 sensorData total (skip + limit <? total)%nat))
    (fun error =>
       let* _ := console_error "GET /api/sensor/history" (Some error) in
       ret Status500).

End History.

(** ** GET /api/activities/stats *)

Module Stats.

Inductive response :=
| Status200 (formattedStats : gmap string nat)
| Status500.       (* message: 'Server error' *)

(** One more document of type [t] in the [$group] accumulator
    [{ _id: '$type', count: { $sum: 1 } }]. *)
Fixpoint bump (t : ActivityType) (groups : list (ActivityType * nat))
  : list (ActivityType * nat) :=
  match groups with
  | [] => [(t, 1%nat)]
  | (t', n) :: rest =>
    if type_eqb t t' then (t', S n) :: rest else (t', n) :: bump t rest
  end.

Definition group_by_type (docs : list Activity.t)
  : list (ActivityType * nat) :=
  foldl (fun groups a => bump (Activity.type a) groups) [] docs.

Definition of_user (uid : ObjectId) (a : Activity.t) : bool :=
  Nat.eqb (Activity.userId a) uid.

Definition handler (env : Env) (uid : ObjectId) : M response :=
  try_catch
    (let* stats :=
       db_call env "Activity.aggregate"
         (fun w =>
            (Returned
               (group_by_type (List.filter (of_user uid) (activities w))),
             w)) in
     let* all :=
       db_call env "Activity.countDocuments"
         (fun w =>
            (Returned (length (List.filter (of_user uid) (activities w))),
             w)) in
     let formattedStats : gmap string nat :=
       <["all" := all]> (<["sync" := 0%nat]> (<["location" := 0%nat]>
         (<["emergency" := 0%nat]> (<["system" := 0%nat]> ∅)))) in
     (* stats.forEach(stat => { formattedStats[stat._id] = stat.count }) *)
     let formattedStats :=
       foldl (fun m stat => <[type_name (fst stat) := snd stat]> m)
         formattedStats stats in
     ret (Status200 formattedStats))
    (fun error =>
       let* _ := console_error "GET /api/activities/stats" (Some error) in
       ret Status500).

End Stats.

(** ** Retention: cleanupOldSensorData and its timer *)

Definition cleanupOldSensorData (env : Env) : M unit :=
  try_catch
    (let thirtyMinutesAgo := now env - 30 * 60 * 1000 in
     let* deletedCount :=
       SensorData_deleteMany env "SensorData.deleteMany"
         (fun d => SensorData.createdAt d <? thirtyMinutesAgo) in
     ret tt)
    (fun error =>
       console_error "Error cleaning up sensor data" (Some error)).

(** [setInterval(cleanupOldSensorData, 5 * 60 * 1000)] *)
Definition cleanup_interval : Z := 5 * 60 * 1000.

(** The nominal time of the [k]-th run (from 0) of a callback registered
    with [setInterval(f, ms)] at time [start]. *)
Definition setInterval_tick (start ms : Z) (k : nat) : Z :=
  start + (Z.of_nat k + 1) * ms.

(** The [k]-th sweep of a server whose timer was set at [start]. *)
Definition sweep (start : Z) (k : nat) (env : Env) : M unit :=
  cleanupOldSensorData
    {| now := setInterval_tick start cleanup_interval k;
       faults := faults env; twilioClient := twilioClient env |}.

(** ** POST /api/emergency/share-location *)

Module ShareLocation.

Record sent := {
  sent_contact : string;
  sent_phone : string;
  messageSid : string      (* status: 'sent' *)
}.

Record failed_send := {
  failed_contact : string;
  failed_phone : string;
  failed_error : Exn
}.

Record summary := {
  totalContacts : nat;
  successful : nat;
  failed : nat
}.

Inductive response :=
| Status503                 (* 'SMS service is not configured...' *)
| Status404_user            (* 'User not found' *)
| Status404_location        (* 'No location data available' *)
| Status200 (location : option number * option number)
    (results : list sent) (errors : list failed_send) (s : summary)
    (* 'Emergency location sharing completed' *)
| Status500 (error : Exn).  (* 'Failed to send emergency SMS' *)

Fixpoint startsWith (s p : string) : bool :=
  match p, s with
  | EmptyString, _ => true
  | String c p', String d s' => Ascii.eqb c d && startsWith s' p'
  | String _ _, EmptyString => false
  end.

Fixpoint drop_chars (n : nat) (s : string) : string :=
  match n, s with
  | O, _ => s
  | S n', String _ s' => drop_chars n' s'
  | S _, EmptyString => EmptyString
  end.

Definition is_digit (c : Ascii.ascii) : bool :=
  let n := Ascii.nat_of_ascii c in (48 <=? n)%nat && (n <=? 57)%nat.

(** [s.replace(/\D/g, '')] *)
Fixpoint digits_only (s : string) : string :=
  match s with
  | EmptyString => EmptyString
  | String c s' =>
    if is_digit c then String c (digits_only s') else digits_only s'
  end.

(** [s.replace(/^\+?91/, '+91')] *)
Definition replace_leading_91 (s : string) : string :=
  if startsWith s "+91" then String.append "+91" (drop_chars 3 s)
  else if startsWith s "91" then String.append "+91" (drop_chars 2 s)
  else s.

(** Format phone number (ensure it has country code). *)
Definition format_phone (phone : string) : string :=
  if negb (startsWith phone "+") then
    let phoneNumber := replace_leading_91 phone in
    if negb (startsWith phoneNumber "+91")
    then String.append "+91" (digits_only phoneNumber)
    else phoneNumber
  else phone.

(** [twilioClient.messages.create({ body, from, to })] *)
Definition messages_create (client : string -> SmsResult) (to : string)
  : M string :=
  match client to with
  | Sms_sid sid =>
    fun w =>
      (Returned sid,
       {| users := users w; activities := activities w;
          sensorData := sensorData w; next_id := next_id w;
          console := console w;
          sms_sent := sms_sent w ++ [(to, sid)] |})
  | Sms_rejected => throw (SmsError to)
  end.

(** The body of [for (const contact of user.emergencyContacts)]. *)
Fixpoint send_all (client : string -> SmsResult) (contacts : list Contact)
    (results : list sent) (errors : list failed_send)
  : M (list sent * list failed_send) :=
  match contacts with
  | [] => ret (results, errors)
  | contact :: rest =>
    let* '(results, errors) :=
      try_catch
        (let phoneNumber := format_phone (contact_phone contact) in
         let* sid := messages_create client phoneNumber in
         ret (results ++ [ {| sent_contact := contact_name contact;
                              sent_phone := phoneNumber;
                              messageSid := sid |} ], errors))
        (fun smsError =>
           let* _ := console_error "Failed to send SMS" (Some smsError) in
           ret (results,
                errors ++ [ {| failed_contact := contact_name contact;
                               failed_phone := contact_phone contact;
                               failed_error := smsError |} ])) in
    send_all client rest results errors
  end.

(** [new SyncActivity({...})]: no binding named [SyncActivity] exists in
    server.js (the models are [User], [Activity] and [SensorData]), so
    evaluating the expression throws a ReferenceError. *)
Definition new_SyncActivity : M Activity.t :=
  throw (ReferenceError "SyncActivity").

Definition handler (env : Env) (uid : ObjectId) : M response :=
  try_catch
    ((* Check if Twilio is configured *)
     match twilioClient env with
     | None => ret Status503
     | Some client =>
     (* Get user with emergency contacts *)
     let* user := User_findById env "User.findById" uid in
     match user with
     | None => ret Status404_user
     | Some user =>
     (* Get latest sensor data for location *)
     let* latestSensorData :=
       SensorData_findOne_latest env "SensorData.findOne"
         (fun d => Nat.eqb (SensorData.userId d) uid) in
     match latestSensorData ≫= SensorData.location with
     | None => ret Status404_location
     | Some location =>
     let latitude := Location.latitude location in
     let longitude := Location.longitude location in
     (* Send SMS to all emergency contacts *)
     let* '(results, errors) :=
       send_all client (User.emergencyContacts user) [] [] in
     (* Log emergency action *)
     let* emergencyLog := new_SyncActivity in
     let* _ := Activity_save env "emergencyLog.save" emergencyLog in
     ret (Status200 (latitude, longitude) results errors
            {| totalContacts := length (User.emergencyContacts user);
               successful := length results;
               failed := length errors |})
     end end end)
    (fun error =>
       let* _ := console_error "Emergency SMS error" (Some error) in
       ret (Status500 error)).

End ShareLocation.


(** ** GET /api/sensor/latest *)

Module Latest.

Inductive response :=
| Status200 (latestData : SensorData.t)
| Status404        (* message: 'No sensor data found' *)
| Status500.       (* message: 'Server error' *)

Definition handler (env : Env) (uid : ObjectId) : M response :=
  try_catch
    (let* latestData :=
       SensorData_findOne_latest env "SensorData.findOne"
         (fun d => Nat.eqb (SensorData.userId d) uid) in
     match latestData with
     | None => ret Status404
     | Some latestData => ret (Status200 latestData)
     end)
    (fun error =>
       let* _ := console_error "GET /api/sensor/latest" (Some error) in
       ret Status500).

End Latest.

(** ** Queries on the Activity collection *)

(** [a] comes before [b] under [.sort({ createdAt: -1 })]. *)
Definition newer_activity_first (a b : Activity.t) : Prop :=
  Activity.createdAt b <= Activity.createdAt a.

#[global] Instance newer_activity_first_dec : RelDecision newer_activity_first.
Proof. intros a b. unfold newer_activity_first. apply Z.le_dec. Defined.

(** [Activity.find(q).sort({ createdAt: -1 }).limit(n).skip(k)], as
    [find_sort_limit_skip] on the SensorData collection. *)
Definition Activity_find_sort_limit_skip (q : Activity.t -> bool) (n k : nat)
    (docs : list Activity.t) : list Activity.t :=
  let sorted := merge_sort newer_activity_first (List.filter q docs) in
  let skipped := drop k sorted in
  if Nat.eqb n 0 then skipped else take n skipped.

Definition Activity_find (env : Env) (call : string)
    (q : Activity.t -> bool) (n k : nat) : M (list Activity.t) :=
  db_call env call
    (fun w =>
       (Returned (Activity_find_sort_limit_skip q n k (activities w)), w)).

Definition Activity_countDocuments (env : Env) (call : string)
    (q : Activity.t -> bool) : M nat :=
  db_call env call
    (fun w => (Returned (length (List.filter q (activities w))), w)).

(** ** GET /api/activities *)

Module ActivityList.

(** The query string; [limit] and [skip] as in [History.query]. *)
Record query := {
  type : option string;
  limit : option nat;
  skip : option nat
}.

Inductive response :=
| Status200 (activities : list Activity.t) (total : nat) (hasMore : bool)
| Status500.       (* message: 'Server error' *)

(** [{ userId }], with [type] added when [type && type !== 'all']. *)
Definition mongo_query (uid : ObjectId) (q : query) (a : Activity.t) : bool :=
  Nat.eqb (Activity.userId a) uid
  && match type q with
     | Some t =>
       if JS.truthy_str (Some t) && negb (String.eqb t "all")
       then String.eqb (type_name (Activity.type a)) t
       else true
     | None => true
     end.

Definition handler (env : Env) (uid : ObjectId) (q : query) : M response :=
  try_catch
    (let limit := default 20%nat (limit q) in
     let skip := default 0%nat (skip q) in
     let query := mongo_query uid q in
     let* activities := Activity_find env "Activity.find" query limit skip in
     let* total :=
       Activity_countDocuments env "Activity.countDocuments" query in
     ret (Status200 activities total (skip + limit <? total)%nat))
    (fun error =>
       let* _ := console_error "GET /api/activities" (Some error) in
       ret Status500).

End ActivityList.

(** ** POST /api/activities *)

Module ActivityCreate.

(** The JSON body; [type], [message] and [status] are strings when
    present. *)
Record body := {
  type : option string;
  message : option string;
  status : option string;
  metadata : option JS.value
}.

Inductive response :=
| Status201 (activity : Activity.t)
| Status500.       (* message: 'Server error' *)

(** [enum: ['sync', 'location', 'emergency', 'system']] *)
Definition type_of_string (s : string) : option ActivityType :=
  if String.eqb s "sync" then Some Ty_sync
  else if String.eqb s "location" then Some Ty_location
  else if String.eqb s "emergency" then Some Ty_emergency
  else if String.eqb s "system" then Some Ty_system
  else None.

(** [enum: ['success', 'warning', 'error', 'normal']] *)
Definition status_of_string (s : string) : option ActivityStatus :=
  if String.eqb s "success" then Some St_success
  else if String.eqb s "warning" then Some St_warning
  else if String.eqb s "error" then Some St_error
  else if String.eqb s "normal" then Some St_normal
  else None.

(** [new Activity({ userId, type, message, status, metadata })] under
    [activitySchema]: [type] is required and in its enum, [message] is
    required (an empty string does not count), [status] is in its enum.
    The document, or the first path that fails validation. *)
Definition new_Activity (env : Env) (uid : ObjectId) (type : option string)
    (message : option string) (status : string) (metadata : JS.value)
  : Activity.t + string :=
  match type ≫= type_of_string with
  | None => inr "type"
  | Some ty =>
    if negb (JS.truthy_str message) then inr "message"
    else
      match status_of_string status with
      | None => inr "status"
      | Some st =>
        inl {| Activity.userId := uid;
               Activity.type := ty;
               Activity.message := Msg_text (default "" message);
               Activity.status := st;
               Activity.metadata := metadata;
               Activity.createdAt := now env |}
      end
  end.

Definition handler (env : Env) (uid : ObjectId) (b : body) : M response :=
  try_catch
    ((* const { type, message, status = 'normal', metadata = {} } = req.body *)
     let status := default "normal" (status b) in
     let metadata := default (JS.Obj []) (metadata b) in
     match new_Activity env uid (type b) (message b) status metadata with
     | inr path => throw (ValidationError path)   (* activity.save() rejects *)
     | inl activity =>
       let* _ := Activity_save env "activity.save" activity in
       ret (Status201 activity)
     end)
    (fun error =>
       let* _ := console_error "POST /api/activities" (Some error) in
       ret Status500).

End ActivityCreate.

(** ** seedSensorData and POST /api/sensor/seed *)

Module Seed.

Record result := {
  count : nat;                       (* success: true *)
  records : list SensorData.t
}.

Inductive response :=
| Status200 (r : result)           (* message: 'Successfully seeded sensor data' *)
| Status500 (error : Exn).

(** [Model.insertMany(docs)]: every document is validated, then all are
    inserted together. *)
Definition SensorData_insertMany (env : Env) (call : string)
    (docs : list SensorData.t) : M (list SensorData.t) :=
  match list_find (fun d => is_Some (SensorData.validate d)) docs with
  | Some (_, d) =>
    throw (ValidationError (default "" (SensorData.validate d)))
  | None =>
    db_call env call
      (fun w => (Returned docs, with_sensorData (sensorData w ++ docs) w))
  end.

Definition Activity_insertMany (env : Env) (call : string)
    (docs : list Activity.t) : M unit :=
  db_call env call
    (fun w => (Returned tt, with_activities (activities w ++ docs) w)).

Definition vec (a b c : number) : Vec3.t :=
  {| Vec3.x := Some a; Vec3.y := Some b; Vec3.z := Some c |}.

Definition loc (la lo acc : number) : Location.t :=
  {| Location.latitude := Some la; Location.longitude := Some lo;
     Location.accuracy := Some acc |}.

(** The two sample records, 5 and 2 minutes old. *)
#[warnings="-inexact-float"]
Definition sampleData (env : Env) (owner id1 id2 : ObjectId)
  : list SensorData.t :=
  [ {| SensorData._id := id1;
       SensorData.userId := owner;
       SensorData.deviceId := "ESP32_001";
       SensorData.accelerometer := Some (vec 1.2 (-0.8) 9.6);
       SensorData.gyroscope := Some (vec 15.3 (-8.7) 12.1);
       SensorData.location := Some (loc 28.6139 77.2090 8);
       SensorData.heartRate := Some 72%float;
       SensorData.temperature := Some 36.8%float;
       SensorData.batteryLevel := Some 85%float;
       SensorData.emergencyTriggered := false;
       SensorData.fallDetected := false;
       SensorData.timestamp := now env - 5 * 60 * 1000;
       SensorData.createdAt := now env - 5 * 60 * 1000 |};
    {| SensorData._id := id2;
       SensorData.userId := owner;
       SensorData.deviceId := "ESP32_001";
       SensorData.accelerometer := Some (vec 0.9 (-1.1) 9.8);
       SensorData.gyroscope := Some (vec 8.2 (-12.5) 6.8);
       SensorData.location := Some (loc 28.6141 77.2088 12);
       SensorData.heartRate := Some 75%float;
       SensorData.temperature := Some 36.9%float;
       SensorData.batteryLevel := Some 84%float;
       SensorData.emergencyTriggered := false;
       SensorData.fallDetected := false;
       SensorData.timestamp := now env - 2 * 60 * 1000;
       SensorData.createdAt := now env - 2 * 60 * 1000 |} ].

(** The sync activity that mirrors sample [d]. *)
Definition activity_for (label : string) (d : SensorData.t) : Activity.t :=
  {| Activity.userId := SensorData.userId d;
     Activity.type := Ty_sync;
     Activity.message := Msg_text label;
     Activity.status := St_success;
     Activity.metadata :=
       JS.Obj [("deviceId", JS.Str "ESP32_001");
               ("accelerometer", js_of_vec3 (SensorData.accelerometer d));
               ("gyroscope", js_of_vec3 (SensorData.gyroscope d));
               ("location", js_of_location (SensorData.location d));
               ("timestamp", JS.Date (SensorData.timestamp d))];
     Activity.createdAt := SensorData.createdAt d |}.

Definition seedSensorData (env : Env) : M result :=
  try_catch
    ((* Find or create demo user *)
     let* found :=
       User_findOne env "User.findOne"
         (fun u => String.eqb (User.email u) Receive.demo_email) in
     let* user :=
       match found with
       | Some u => ret u
       | None =>
         let* id := new_ObjectId in
         let user := Receive.demo_user id in
         let* _ := User_save env "user.save" user in
         ret user
       end in
     (* Clear existing sensor data *)
     let* _ :=
       SensorData_deleteMany env "SensorData.deleteMany" (fun _ => true) in
     (* Create 2 sample sensor records *)
     let* id1 := new_ObjectId in
     let* id2 := new_ObjectId in
     let sampleData := sampleData env (User._id user) id1 id2 in
     let* savedData :=
       SensorData_insertMany env "SensorData.insertMany" sampleData in
     (* Create corresponding activities *)
     let activities :=
       zip_with activity_for
         ["ESP32 sensor data received (Sample 1)";
          "ESP32 sensor data received (Sample 2)"] sampleData in
     let* _ := Activity_insertMany env "Activity.insertMany" activities in
     ret {| count := length savedData; records := savedData |})
    (fun error =>
       let* _ := console_error "Error seeding sensor data" (Some error) in
       throw error).

Definition handler (env : Env) : M response :=
  try_catch
    (let* result := seedSensorData env in
     ret (Status200 result))
    (fun error =>
       let* _ := console_error "Seed endpoint error" (Some error) in
       ret (Status500 error)).

End Seed.

(** ** POST /api/emergency/share-location-test *)

Module ShareLocationTest.

Record simulated := {
  sim_contact : string;
  sim_phone : string;
  sim_messageSid : string    (* status: 'simulated' *)
}.

Inductive response :=
| Status404_user            (* 'User not found' *)
| Status404_location        (* 'No location data available' *)
| Status200 (location : option number * option number)
    (results : list simulated) (errors : list ShareLocation.failed_send)
    (s : ShareLocation.summary)          (* testMode: true *)
| Status500 (error : Exn).  (* 'Failed to send test emergency SMS' *)

(** The loop over the contacts; [random] gives the text drawn from
    [Math.random().toString(36).substr(2, 32)] at each turn.  Nothing in
    its [try] block can throw, so [errors] stays as it is. *)
Fixpoint simulate_all (random : nat -> string) (turn : nat)
    (contacts : list Contact) (results : list simulated)
  : list simulated :=
  match contacts with
  | [] => results
  | contact :: rest =>
    let phoneNumber := ShareLocation.format_phone (contact_phone contact) in
    let mockMessageSid := String.append "SM" (random turn) in
    simulate_all random (S turn) rest
      (results ++ [ {| sim_contact := contact_name contact;
                       sim_phone := phoneNumber;
                       sim_messageSid := mockMessageSid |} ])
  end.

Definition handler (env : Env) (random : nat -> string) (uid : ObjectId)
  : M response :=
  try_catch
    ((* Get user with emergency contacts *)
     let* user := User_findById env "User.findById" uid in
     match user with
     | None => ret Status404_user
     | Some user =>
     (* Get latest sensor data for location *)
     let* latestSensorData :=
       SensorData_findOne_latest env "SensorData.findOne"
         (fun d => Nat.eqb (SensorData.userId d) uid) in
     match latestSensorData ≫= SensorData.location with
     | None => ret Status404_location
     | Some location =>
     let latitude := Location.latitude location in
     let longitude := Location.longitude location in
     (* Simulate SMS sending to all emergency contacts *)
     let results :=
       simulate_all random 0 (User.emergencyContacts user) [] in
     let errors : list ShareLocation.failed_send := [] in
     (* Log emergency action *)
     let* emergencyLog := ShareLocation.new_SyncActivity in
     let* _ := Activity_save env "emergencyLog.save" emergencyLog in
     ret (Status200 (latitude, longitude) results errors
            {| ShareLocation.totalContacts :=
                 length (User.emergencyContacts user);
               ShareLocation.successful := length results;
               ShareLocation.failed := length errors |})
     end end)
    (fun error =>
       let* _ := console_error "Test emergency SMS error" (Some error) in
       ret (Status500 error)).

End ShareLocationTest.

(** ** WhatsAppService *)

Module WhatsApp.

(** [this.connectionState] *)
Inductive ConnectionState :=
| disconnected | qr_generated | connected | error.

(** The fields of the service; [sock] tells whether [this.sock] is set. *)
Record service := {
  sock : bool;
  isConnected : bool;
  qrCode : option string;
  connectionState : ConnectionState
}.

(** [constructor()] *)
Definition constructor : service :=
  {| sock := false; isConnected := false; qrCode := None;
     connectionState := disconnected |}.

(** [initialize()]: [ok] tells whether the auth state and the socket could
    be made.  The result is the value returned. *)
Definition initialize (ok : bool) (s : service) : service * bool :=
  if ok then
    ({| sock := true; isConnected := isConnected s; qrCode := qrCode s;
        connectionState := connectionState s |}, true)
  else
    ({| sock := sock s; isConnected := isConnected s; qrCode := qrCode s;
        connectionState := error |}, false).

Inductive connection := close | open | connecting.

(** [lastDisconnect?.error]: a Boom error with its status code, or any
    other value. *)
Inductive disconnect_error := Boom (statusCode : Z) | other_error.

Record update := {
  u_connection : option connection;
  u_lastDisconnect : option disconnect_error;
  u_qr : option string
}.

(** The 'connection.update' listener; [loggedOut] is
    [DisconnectReason.loggedOut].  The boolean tells whether a reconnect
    ([setTimeout(() => this.initialize(), 5000)]) was scheduled. *)
Definition on_connection_update (loggedOut : Z) (s : service) (u : update)
  : service * bool :=
  let s1 :=
    if JS.truthy_str (u_qr u) then
      {| sock := sock s; isConnected := isConnected s; qrCode := u_qr u;
         connectionState := qr_generated |}
    else s in
  match u_connection u with
  | Some close =>
    let shouldReconnect :=
      match u_lastDisconnect u with
      | Some (Boom statusCode) => negb (statusCode =? loggedOut)
      | _ => true
      end in
    ({| sock := sock s1; isConnected := false; qrCode := qrCode s1;
        connectionState := disconnected |}, shouldReconnect)
  | Some open =>
    ({| sock := sock s1; isConnected := true; qrCode := None;
        connectionState := connected |}, false)
  | _ => (s1, false)
  end.

(** [disconnect()]; [logout_ok] tells whether [this.sock.logout()]
    resolves (when it rejects, the fields stay as they are). *)
Definition disconnect (logout_ok : bool) (s : service) : service :=
  if sock s && logout_ok then
    {| sock := false; isConnected := false; qrCode := qrCode s;
       connectionState := disconnected |}
  else s.

(** [getConnectionStatus()] *)
Definition getConnectionStatus (s : service)
  : bool * ConnectionState * option string :=
  (isConnected s, connectionState s, qrCode s).

(** The JID a phone number is sent to: its digits, with 91 in front when
    there are exactly ten of them and they do not start with 91. *)
Definition jid_of (phoneNumber : string) : string :=
  let formattedNumber := ShareLocation.digits_only phoneNumber in
  let formattedNumber :=
    if negb (ShareLocation.startsWith formattedNumber "91")
       && Nat.eqb (String.length formattedNumber) 10
    then String.append "91" formattedNumber
    else formattedNumber in
  String.append formattedNumber "@s.whatsapp.net".

Inductive payload :=
| Text (message : string)
| LocationPin (latitude longitude : number).

Inductive send_result :=
| Success (messageId : string) (timestamp : Z)
| NotConnected            (* Error('WhatsApp is not connected') *)
| SendError.              (* the socket's error, thrown again *)

(** [sendMessage(phoneNumber, message)]; [socket] is
    [this.sock.sendMessage], answering with the key id and the timestamp
    or failing.  The list holds what was handed to the socket. *)
Definition sendMessage (s : service)
    (socket : string -> payload -> option (string * Z))
    (phoneNumber message : string)
  : send_result * list (string * payload) :=
  if negb (isConnected s) || negb (sock s) then (NotConnected, [])
  else
    let jid := jid_of phoneNumber in
    match socket jid (Text message) with
    | Some (id, ts) => (Success id ts, [(jid, Text message)])
    | None => (SendError, [])
    end.

(** [sendLocationMessage(phoneNumber, latitude, longitude, message = '')] *)
Definition sendLocationMessage (s : service)
    (socket : string -> payload -> option (string * Z))
    (phoneNumber : string) (latitude longitude : number) (message : string)
  : send_result * list (string * payload) :=
  if negb (isConnected s) || negb (sock s) then (NotConnected, [])
  else
    let jid := jid_of phoneNumber in
    match socket jid (LocationPin latitude longitude) with
    | Some (id, ts) =>
      let pin := (jid, LocationPin latitude longitude) in
      (* Send additional text message if provided *)
      if negb (String.eqb message "") then
        match socket jid (Text message) with
        | Some _ => (Success id ts, [pin; (jid, Text message)])
        | None => (SendError, [pin])
        end
      else (Success id ts, [pin])
    | None => (SendError, [])
    end.

(** What can happen to the service, in any order. *)
Inductive event :=
| Initialize (ok : bool)
| ConnectionUpdate (u : update)
| Disconnect (logout_ok : bool).

Definition step (loggedOut : Z) (s : service) (e : event) : service :=
  match e with
  | Initialize ok => (initialize ok s).1
  | ConnectionUpdate u => (on_connection_update loggedOut s u).1
  | Disconnect ok => disconnect ok s
  end.

Definition run (loggedOut : Z) (events : list event) : service :=
  foldl (step loggedOut) constructor events.

End WhatsApp.

(** * Vocabulary of the statements *)

Definition count_status (s : ActivityStatus) (acts : list Activity.t) : nat :=
  length (List.filter (fun a => status_eqb (Activity.status a) s) acts).

Definition count_type (t : ActivityType) (acts : list Activity.t) : nat :=
  length (List.filter (fun a => type_eqb (Activity.type a) t) acts).

Definition headline (a : Activity.t)
  : ActivityType * ActivityStatus * Message :=
  (Activity.type a, Activity.status a, Activity.message a).

(** Every run of [c] only appends activities, and each one satisfies [P]. *)
Definition writes {A} (P : Activity.t -> Prop) (c : M A) : Prop :=
  forall w r w',
    c w = (r, w') ->
    exists written,
      activities w' = activities w ++ written /\ Forall P written.

(** A request that turned [w] into [w'] wrote exactly one sync record. *)
Definition one_sync_written (w w' : World) : Prop :=
  count_type Ty_sync (activities w') = S (count_type Ty_sync (activities w)).

Definition acceleration_of (b : Receive.body) : number :=
  Receive.magnitude (Receive.axis (Receive.accelerometer b) Vec3.x)
    (Receive.axis (Receive.accelerometer b) Vec3.y)
    (Receive.axis (Receive.accelerometer b) Vec3.z).

Definition rotation_of (b : Receive.body) : number :=
  Receive.magnitude (Receive.axis (Receive.gyroscope b) Vec3.x)
    (Receive.axis (Receive.gyroscope b) Vec3.y)
    (Receive.axis (Receive.gyroscope b) Vec3.z).

(** The rules of the handler, read off its [if]s in order: the name pushed
    on [activities] and the type, status and message of the record saved. *)
Definition triggered (b : SensorIngest.body)
  : list (string * (ActivityType * ActivityStatus * Message)) :=
  (if JS.truthy_bool (SensorIngest.emergencyTriggered b)
   then [("emergency_triggered", (Ty_emergency, St_error, Msg_emergency_button))]
   else [])
  ++ (if JS.truthy_bool (SensorIngest.fallDetected b)
      then [("fall_detected", (Ty_emergency, St_warning, Msg_fall_by_device))]
      else [])
  ++ match SensorIngest.guard (SensorIngest.heartRate b)
             (fun h => (120 <? h)%float || (h <? 50)%float) with
     | Some h =>
       [("abnormal_vitals",
         (Ty_system, if (150 <? h)%float then St_error else St_warning,
          Msg_heart_rate h))]
     | None => []
     end
  ++ match SensorIngest.guard (SensorIngest.temperature b)
             (fun t => (38 <? t)%float || (t <? 35)%float) with
     | Some t =>
       [("abnormal_temperature", (Ty_system, St_warning, Msg_temperature t))]
     | None => []
     end
  ++ match SensorIngest.guard (SensorIngest.batteryLevel b)
             (fun l => (l <? 20)%float) with
     | Some l =>
       [("low_battery",
         (Ty_system, if (l <? 10)%float then St_error else St_warning,
          Msg_low_battery l))]
     | None => []
     end.

(** Severity of a signal as the rules table of the specification gives it:
    fall is a warning; the emergency button an error; abnormal vitals a
    warning, an error above 150; abnormal temperature a warning; low
    battery a warning, an error below 10.  Signals go by the names the
    handler reports in [activitiesTriggered]. *)
Definition spec_severity (b : SensorIngest.body) (signal : string)
  : option ActivityStatus :=
  if String.eqb signal "fall_detected" then Some St_warning
  else if String.eqb signal "emergency_triggered" then Some St_error
  else if String.eqb signal "abnormal_vitals" then
    match SensorIngest.heartRate b with
    | Some h => Some (if (150 <? h)%float then St_error else St_warning)
    | None => None
    end
  else if String.eqb signal "abnormal_temperature" then Some St_warning
  else if String.eqb signal "low_battery" then
    match SensorIngest.batteryLevel b with
    | Some l => Some (if (l <? 10)%float then St_error else St_warning)
    | None => None
    end
  else None.

(** The type under which the handler files the record of a signal. *)
Definition record_type (signal : string) : ActivityType :=
  if String.eqb signal "emergency_triggered" || String.eqb signal "fall_detected"
  then Ty_emergency
  else Ty_system.

(** Signal by signal, one record, of type [ty signal] and of the status
    the specification gives the signal. *)
Definition one_record_per_signal (ty : string -> ActivityType)
    (b : SensorIngest.body) (signals : list string)
    (written : list Activity.t) : Prop :=
  Forall2
    (fun signal a =>
       Activity.type a = ty signal
       /\ Some (Activity.status a) = spec_severity b signal)
    signals written.

Definition is_heart_rate_record
    (h : ActivityType * ActivityStatus * Message) : bool :=
  match h.2 with Msg_heart_rate _ => true | _ => false end.

Definition is_temperature_record
    (h : ActivityType * ActivityStatus * Message) : bool :=
  match h.2 with Msg_temperature _ => true | _ => false end.

Definition is_battery_record
    (h : ActivityType * ActivityStatus * Message) : bool :=
  match h.2 with Msg_low_battery _ => true | _ => false end.

(** The count the [$group] accumulator holds for type [t]. *)
Fixpoint group_count (t : ActivityType) (groups : list (ActivityType * nat))
  : nat :=
  match groups with
  | [] => 0%nat
  | (t', n) :: rest => if type_eqb t t' then n else group_count t rest
  end.

(** * Example data *)

Definition quiet_env : Env :=
  {| now := 1700000000000; faults := no_faults; twilioClient := None |}.

(** An environment in which exactly the call site [call] rejects. *)
Definition failing (call : string) : Env :=
  {| now := 1700000000000; faults := String.eqb call; twilioClient := None |}.

(** Twilio is configured; delivery to the second contact of user 7 is
    rejected, every other message is accepted. *)
Definition second_contact_fails : Env :=
  {| now := now quiet_env;
     faults := no_faults;
     twilioClient :=
       Some (fun to => if String.eqb to "+91 98765 00000" then Sms_rejected
                       else Sms_sid (String.append "SM" to)) |}.

Definition empty_world : World :=
  {| users := []; activities := []; sensorData := []; next_id := 0%nat;
     console := []; sms_sent := [] |}.

(** A registered user with the device "band-7". *)
Definition asha : User.t :=
  {| User._id := 7%nat; User.name := "Asha"; User.email := "asha@example.org";
     User.phone := "band-7";
     User.emergencyContacts :=
       [ {| contact_id := "1"; contact_name := "Ravi";
            contact_phone := "9876543210"; contact_relationship := "Brother" |};
         {| contact_id := "2"; contact_name := "Meera";
            contact_phone := "+91 98765 00000";
            contact_relationship := "Mother" |};
         {| contact_id := "3"; contact_name := "Dev";
            contact_phone := "91-9123456780";
            contact_relationship := "Friend" |} ] |}.

Definition asha_world : World :=
  {| users := [asha]; activities := []; sensorData := []; next_id := 100%nat;
     console := []; sms_sent := [] |}.

(** The fall example of the specification: accelerometer (0, 0, 20). *)
Definition body_z20 : Receive.body :=
  {| Receive.accelerometer :=
       Some {| Vec3.x := Some 0%float; Vec3.y := Some 0%float;
               Vec3.z := Some 20%float |};
     Receive.gyroscope := None;
     Receive.latitude := None; Receive.longitude := None;
     Receive.timestamp := None; Receive.heartRate := None;
     Receive.temperature := None; Receive.batteryLevel := None |}.

(** The rapid-motion example of the specification, gyroscope (150, 150, 0),
    at an acceleration inside the normal range. *)
Definition body_spin : Receive.body :=
  {| Receive.accelerometer :=
       Some {| Vec3.x := Some 0%float; Vec3.y := Some 0%float;
               Vec3.z := Some 10%float |};
     Receive.gyroscope :=
       Some {| Vec3.x := Some 150%float; Vec3.y := Some 150%float;
               Vec3.z := Some 0%float |};
     Receive.latitude := None; Receive.longitude := None;
     Receive.timestamp := None; Receive.heartRate := None;
     Receive.temperature := None; Receive.batteryLevel := None |}.

(** A sample of device "band-7" carrying only a heart rate. *)
Definition body_heartRate (h : number) : SensorIngest.body :=
  {| SensorIngest.deviceId := Some "band-7";
     SensorIngest.userId := None;
     SensorIngest.heartRate := Some h;
     SensorIngest.temperature := None;
     SensorIngest.accelerometer := None;
     SensorIngest.gyroscope := None;
     SensorIngest.location := None;
     SensorIngest.batteryLevel := None;
     SensorIngest.emergencyTriggered := None;
     SensorIngest.fallDetected := None;
     SensorIngest.timestamp := None |}.

(** A sample of device "band-7" whose three scalar readings are all 0. *)
Definition body_all_zero : SensorIngest.body :=
  {| SensorIngest.deviceId := Some "band-7";
     SensorIngest.userId := None;
     SensorIngest.heartRate := Some 0%float;
     SensorIngest.temperature := Some 0%float;
     SensorIngest.accelerometer := None;
     SensorIngest.gyroscope := None;
     SensorIngest.location := None;
     SensorIngest.batteryLevel := Some 0%float;
     SensorIngest.emergencyTriggered := None;
     SensorIngest.fallDetected := None;
     SensorIngest.timestamp := None |}.

Definition minutes (n : Z) : Z := n * 60 * 1000.

(** A stored sample of user 7 created at [t], with a location. *)
Definition sample_at (id : ObjectId) (t : Z) : SensorData.t :=
  {| SensorData._id := id; SensorData.userId := 7%nat;
     SensorData.deviceId := "band-7";
     SensorData.heartRate := Some 72%float;
     SensorData.temperature := None;
     SensorData.accelerometer := None; SensorData.gyroscope := None;
     SensorData.location :=
       Some {| Location.latitude := Some 12.5%float;
               Location.longitude := Some 77.25%float;
               Location.accuracy := Some 10%float |};
     SensorData.batteryLevel := None;
     SensorData.emergencyTriggered := false;
     SensorData.fallDetected := false;
     SensorData.timestamp := t; SensorData.createdAt := t |}.

(** Two samples, created 31 and 29 minutes before [quiet_env]'s clock. *)
Definition two_samples_world : World :=
  with_sensorData
    [ sample_at 1%nat (now quiet_env - minutes 31);
      sample_at 2%nat (now quiet_env - minutes 29) ]
    asha_world.

(** [n] samples of user 7, created one minute apart. *)
Definition samples (n : nat) : list SensorData.t :=
  (fun i => sample_at i (now quiet_env - minutes (Z.of_nat i))) <$> seq 0 n.

Definition history_world : World := with_sensorData (samples 25) asha_world.

Definition page (limit skip : nat) : History.query :=
  {| History.limit := Some limit; History.skip := Some skip;
     History.startDate := None; History.endDate := None |}.

(** User 7 with one stored sample that carries a location. *)
Definition located_world : World :=
  with_sensorData [ sample_at 1%nat (now quiet_env - minutes 1) ] asha_world.

Definition activity_of (uid : ObjectId) (t : ActivityType) : Activity.t :=
  {| Activity.userId := uid; Activity.type := t;
     Activity.message := Msg_text "seed"; Activity.status := St_normal;
     Activity.metadata := JS.Obj []; Activity.createdAt := 0 |}.

(** User 7 has 3 sync and 2 emergency records; user 8 has one record. *)
Definition stats_world : World :=
  with_activities
    [ activity_of 7%nat Ty_sync; activity_of 7%nat Ty_emergency;
      activity_of 8%nat Ty_location; activity_of 7%nat Ty_sync;
      activity_of 7%nat Ty_emergency; activity_of 7%nat Ty_sync ]
    asha_world.

(** * Further vocabulary and example data *)

Definition is_demo_user (u : User.t) : bool :=
  String.eqb (User.email u) Receive.demo_email.

(** The sample POST /receive builds from body [b] for [owner]. *)
Definition receive_sample (env : Env) (b : Receive.body) (owner id : ObjectId)
  : SensorData.t :=
  {| SensorData._id := id;
     SensorData.userId := owner;
     SensorData.deviceId := "ESP32_001";
     SensorData.accelerometer :=
       Some (Receive.full_vec
               (Receive.axis (Receive.accelerometer b) Vec3.x)
               (Receive.axis (Receive.accelerometer b) Vec3.y)
               (Receive.axis (Receive.accelerometer b) Vec3.z));
     SensorData.gyroscope :=
       Some (Receive.full_vec
               (Receive.axis (Receive.gyroscope b) Vec3.x)
               (Receive.axis (Receive.gyroscope b) Vec3.y)
               (Receive.axis (Receive.gyroscope b) Vec3.z));
     SensorData.location :=
       if JS.truthy_opt (Receive.latitude b)
          && JS.truthy_opt (Receive.longitude b)
       then Some {| Location.latitude :=
                      option_map JS.parseFloat (Receive.latitude b);
                    Location.longitude :=
                      option_map JS.parseFloat (Receive.longitude b);
                    Location.accuracy := Some 10%float |}
       else None;
     SensorData.heartRate := JS.if_truthy JS.parseInt (Receive.heartRate b);
     SensorData.temperature :=
       JS.if_truthy JS.parseFloat (Receive.temperature b);
     SensorData.batteryLevel :=
       JS.if_truthy JS.parseInt (Receive.batteryLevel b);
     SensorData.emergencyTriggered := false;
     SensorData.fallDetected := false;
     SensorData.timestamp := Receive.sample_time env b;
     SensorData.createdAt := now env |}.

(** The empty JSON body [{}]. *)
Definition body_empty : Receive.body :=
  {| Receive.accelerometer := None; Receive.gyroscope := None;
     Receive.latitude := None; Receive.longitude := None;
     Receive.timestamp := None; Receive.heartRate := None;
     Receive.temperature := None; Receive.batteryLevel := None |}.


(** The user POST /api/sensor/data resolves for body [b]: by [userId] when
    given, else by the device id taken as a phone number. *)
Definition resolved_user (b : SensorIngest.body) (w : World)
  : option User.t :=
  match SensorIngest.userId b with
  | Some id => find (fun u => Nat.eqb (User._id u) id) (users w)
  | None =>
    find (fun u => String.eqb (User.phone u)
                     (default "" (SensorIngest.deviceId b))) (users w)
  end.


(** The readings of [b] pass the validators of [sensorDataSchema]. *)
Definition readings_in_range (b : SensorIngest.body) : bool :=
  SensorData.in_range 0 300 (SensorIngest.heartRate b)
  && SensorData.in_range (-50) 100 (SensorIngest.temperature b)
  && SensorData.in_range 0 100 (SensorIngest.batteryLevel b).

(** The names POST /api/sensor/data can report, in the order of its
    rules. *)
Definition signal_names : list string :=
  ["emergency_triggered"; "fall_detected"; "abnormal_vitals";
   "abnormal_temperature"; "low_battery"].

(** A sample of device "band-7" with a temperature and a battery level. *)
Definition body_readings (t l : number) : SensorIngest.body :=
  {| SensorIngest.deviceId := Some "band-7";
     SensorIngest.userId := None;
     SensorIngest.heartRate := None;
     SensorIngest.temperature := Some t;
     SensorIngest.accelerometer := None;
     SensorIngest.gyroscope := None;
     SensorIngest.location := None;
     SensorIngest.batteryLevel := Some l;
     SensorIngest.emergencyTriggered := None;
     SensorIngest.fallDetected := None;
     SensorIngest.timestamp := None |}.

(** A sample of device [device] on which the emergency button was
    pressed. *)
Definition body_button (device : option string) : SensorIngest.body :=
  {| SensorIngest.deviceId := device;
     SensorIngest.userId := None;
     SensorIngest.heartRate := None;
     SensorIngest.temperature := None;
     SensorIngest.accelerometer := None;
     SensorIngest.gyroscope := None;
     SensorIngest.location := None;
     SensorIngest.batteryLevel := None;
     SensorIngest.emergencyTriggered := Some true;
     SensorIngest.fallDetected := None;
     SensorIngest.timestamp := None |}.

(** The sample POST /api/sensor/data builds from body [b] for [owner]. *)
Definition ingest_sample (env : Env) (b : SensorIngest.body)
    (owner id : ObjectId) : SensorData.t :=
  {| SensorData._id := id;
     SensorData.userId := owner;
     SensorData.deviceId := default "" (SensorIngest.deviceId b);
     SensorData.heartRate := SensorIngest.heartRate b;
     SensorData.temperature := SensorIngest.temperature b;
     SensorData.accelerometer := SensorIngest.accelerometer b;
     SensorData.gyroscope := SensorIngest.gyroscope b;
     SensorData.location := SensorIngest.location b;
     SensorData.batteryLevel := SensorIngest.batteryLevel b;
     SensorData.emergencyTriggered :=
       default false (SensorIngest.emergencyTriggered b);
     SensorData.fallDetected := default false (SensorIngest.fallDetected b);
     SensorData.timestamp :=
       match SensorIngest.timestamp b with
       | Some t => if JS.truthy_ms (Some t) then t else now env
       | None => now env
       end;
     SensorData.createdAt := now env |}.

(** The samples of user [uid]. *)
Definition samples_of (uid : ObjectId) (w : World) : list SensorData.t :=
  List.filter (fun d => Nat.eqb (SensorData.userId d) uid) (sensorData w).

(** The history query for a page of [limit] samples after [skip], between
    the dates [startDate] and [endDate]. *)
Definition history_query (limit skip : nat) (startDate endDate : option Z)
  : History.query :=
  {| History.limit := Some limit; History.skip := Some skip;
     History.startDate := startDate; History.endDate := endDate |}.

(** The activities of user [uid]. *)
Definition activities_of (uid : ObjectId) (w : World) : list Activity.t :=
  List.filter (Stats.of_user uid) (activities w).

(** The query string [?type=...] of GET /api/activities. *)
Definition by_type (type : option string) : ActivityList.query :=
  {| ActivityList.type := type; ActivityList.limit := None;
     ActivityList.skip := None |}.

(** The body [{ type, message }] of POST /api/activities. *)
Definition body_event (type message : option string) : ActivityCreate.body :=
  {| ActivityCreate.type := type; ActivityCreate.message := message;
     ActivityCreate.status := None; ActivityCreate.metadata := None |}.

(** The statistics map of a response, empty on failure. *)
Definition stats_of (r : Outcome Stats.response) : gmap string nat :=
  match r with
  | Returned (Stats.Status200 m) => m
  | _ => ∅
  end.

(** [c] leaves the samples and the users as they are, whatever it returns
    or throws. *)
Definition keeps_samples {A} (c : M A) : Prop :=
  forall w r w',
    c w = (r, w') -> sensorData w' = sensorData w /\ users w' = users w.



(** The messages [client] accepts among those to [contacts], in the order
    of the contacts: number and message id. *)
Definition deliveries (client : string -> SmsResult)
    (contacts : list Contact) : list (string * string) :=
  omap (fun c =>
          let to := ShareLocation.format_phone (contact_phone c) in
          match client to with
          | Sms_sid sid => Some (to, sid)
          | Sms_rejected => None
          end) contacts.

(** The console lines for the messages [client] rejects. *)
Definition rejections (client : string -> SmsResult)
    (contacts : list Contact) : list (string * option Exn) :=
  omap (fun c =>
          let to := ShareLocation.format_phone (contact_phone c) in
          match client to with
          | Sms_sid _ => None
          | Sms_rejected => Some ("Failed to send SMS", Some (SmsError to))
          end) contacts.

(** The newest sample of user [uid]. *)
Definition newest_sample (uid : ObjectId) (w : World)
  : option SensorData.t :=
  head (merge_sort newer_first (samples_of uid w)).

(** A store with samples of two users and no demo user. *)
Definition shared_world : World :=
  with_sensorData
    [ sample_at 1%nat (now quiet_env - minutes 3);
      ingest_sample quiet_env (body_button (Some "band-9")) 9%nat 2%nat ]
    asha_world.

(** A socket that accepts location pins and rejects texts. *)
Definition pins_only (jid : string) (p : WhatsApp.payload)
  : option (string * Z) :=
  match p with
  | WhatsApp.LocationPin _ _ => Some ("3EB0", 1700000000)
  | WhatsApp.Text _ => None
  end.

(** A connected service. *)
Definition online : WhatsApp.service :=
  WhatsApp.run 401
    [WhatsApp.Initialize true;
     WhatsApp.ConnectionUpdate
       {| WhatsApp.u_connection := Some WhatsApp.open;
          WhatsApp.u_lastDisconnect := None; WhatsApp.u_qr := None |}].

(** * Properties *)

(** ** Runs of the monad *)

Section Runs.

Context {A B : Type}.
Implicit Types (c : M A) (k : A -> M B) (w : World).

Lemma bind_inv c k w r w' :
  bind c k w = (r, w') ->
  (exists a w1, c w = (Returned a, w1) /\ k a w1 = (r, w'))
  \/ (exists e, c w = (Thrown e, w') /\ r = Thrown e).
Proof.
  unfold bind. destruct (c w) as [[a|e] w1]; intros H.
  - left. eauto.
  - right. inversion H. eauto.
Qed.

Lemma bind_returned c k w b w' :
  bind c k w = (Returned b, w') ->
  exists a w1, c w = (Returned a, w1) /\ k a w1 = (Returned b, w').
Proof.
  intros H. apply bind_inv in H as [H | (e & _ & H)]; [exact H | discriminate].
Qed.

Lemma try_catch_inv c (h : Exn -> M A) w r w' :
  try_catch c h w = (r, w') ->
  (exists a, c w = (Returned a, w') /\ r = Returned a)
  \/ (exists e w1, c w = (Thrown e, w1) /\ h e w1 = (r, w')).
Proof.
  unfold try_catch. destruct (c w) as [[a|e] w1]; intros H.
  - left. inversion H. eauto.
  - right. eauto.
Qed.

Lemma db_call_inv env call c w r w' :
  db_call env call c w = (r, w') ->
  (faults env call = false /\ c w = (r, w'))
  \/ (faults env call = true /\ r = Thrown (DbError call) /\ w' = w).
Proof.
  unfold db_call, throw. destruct (faults env call); intros H.
  - right. inversion H. auto.
  - left. auto.
Qed.

End Runs.

Lemma Activity_save_inv env call a w r w' :
  Activity_save env call a w = (r, w') ->
  (faults env call = false /\ r = Returned tt
   /\ w' = with_activities (activities w ++ [a]) w)
  \/ (faults env call = true /\ r = Thrown (DbError call) /\ w' = w).
Proof.
  intros H. apply db_call_inv in H as [[Hf H] | H]; [left | right; exact H].
  inversion H. auto.
Qed.

Lemma SensorData_save_activities env call d w r w' :
  SensorData_save env call d w = (r, w') -> activities w' = activities w.
Proof.
  unfold SensorData_save. destruct (SensorData.validate d).
  - intros H. inversion H. reflexivity.
  - intros H. apply db_call_inv in H as [[_ H] | (_ & _ & ->)]; [|reflexivity].
    inversion H. reflexivity.
Qed.

Lemma SensorData_save_returned env call d w d' w' :
  SensorData_save env call d w = (Returned d', w') ->
  d' = d /\ SensorData.validate d = None /\ faults env call = false
  /\ activities w' = activities w.
Proof.
  intros H. pose proof (SensorData_save_activities _ _ _ _ _ _ H) as Ha.
  unfold SensorData_save in H. destruct (SensorData.validate d); [discriminate|].
  apply db_call_inv in H as [[Hf H] | (_ & H & _)]; [|discriminate].
  inversion H. auto.
Qed.

(** ** The rules of [writes] *)

Section Writes.

Context (P : Activity.t -> Prop).

Lemma writes_ret {A} (a : A) : writes P (ret a).
Proof.
  intros w r w' H. inversion H. exists []. by rewrite app_nil_r.
Qed.

Lemma writes_throw {A} e : writes P (@throw A e).
Proof.
  intros w r w' H. inversion H. exists []. by rewrite app_nil_r.
Qed.

Lemma writes_bind {A B} (c : M A) (k : A -> M B) :
  writes P c -> (forall a, writes P (k a)) -> writes P (bind c k).
Proof.
  intros Hc Hk w r w' H.
  apply bind_inv in H as [(a & w1 & H1 & H2) | (e & H1 & _)].
  - destruct (Hc _ _ _ H1) as (l1 & E1 & F1).
    destruct (Hk a _ _ _ H2) as (l2 & E2 & F2).
    exists (l1 ++ l2). rewrite E2, E1, app_assoc.
    split; [reflexivity | by apply Forall_app].
  - exact (Hc _ _ _ H1).
Qed.

Lemma writes_try_catch {A} (c : M A) h :
  writes P c -> (forall e, writes P (h e)) -> writes P (try_catch c h).
Proof.
  intros Hc Hh w r w' H.
  apply try_catch_inv in H as [(a & H1 & _) | (e & w1 & H1 & H2)].
  - exact (Hc _ _ _ H1).
  - destruct (Hc _ _ _ H1) as (l1 & E1 & F1).
    destruct (Hh e _ _ _ H2) as (l2 & E2 & F2).
    exists (l1 ++ l2). rewrite E2, E1, app_assoc.
    split; [reflexivity | by apply Forall_app].
Qed.

Lemma writes_db_call {A} env call (c : M A) :
  writes P c -> writes P (db_call env call c).
Proof.
  intros Hc w r w' H.
  apply db_call_inv in H as [[_ H] | (_ & _ & ->)]; [exact (Hc _ _ _ H)|].
  exists []. by rewrite app_nil_r.
Qed.

(** A step that leaves the activities alone. *)
Lemma writes_none {A} (c : M A) :
  (forall w r w', c w = (r, w') -> activities w' = activities w) ->
  writes P c.
Proof.
  intros Hc w r w' H. exists []. rewrite app_nil_r. split; [eauto | constructor].
Qed.

Lemma writes_Activity_save env call a :
  P a -> writes P (Activity_save env call a).
Proof.
  intros Ha w r w' H.
  apply Activity_save_inv in H as [(_ & _ & ->) | (_ & _ & ->)].
  - exists [a]. split; [reflexivity | by constructor].
  - exists []. by rewrite app_nil_r.
Qed.

Lemma writes_console_error label e : writes P (console_error label e).
Proof. apply writes_none. intros w r w' H. inversion H. reflexivity. Qed.

Lemma writes_new_ObjectId : writes P new_ObjectId.
Proof. apply writes_none. intros w r w' H. inversion H. reflexivity. Qed.

Lemma writes_User_findOne env call p : writes P (User_findOne env call p).
Proof.
  apply writes_db_call, writes_none. intros w r w' H. inversion H. reflexivity.
Qed.

Lemma writes_User_findById env call id : writes P (User_findById env call id).
Proof. apply writes_User_findOne. Qed.

Lemma writes_User_save env call u : writes P (User_save env call u).
Proof.
  apply writes_db_call, writes_none. intros w r w' H. inversion H. reflexivity.
Qed.

Lemma writes_SensorData_save env call d :
  writes P (SensorData_save env call d).
Proof. apply writes_none. intros w r w'. apply SensorData_save_activities. Qed.

End Writes.

Create HintDb writes.

#[local] Hint Resolve writes_ret writes_throw writes_console_error
  writes_new_ObjectId writes_User_findOne writes_User_findById writes_User_save
  writes_SensorData_save : writes.

(** Decompose [writes] along the structure of a handler. *)
Ltac writes_step :=
  first
    [ solve [auto with writes]
    | apply writes_bind; [| intros ?]
    | apply writes_try_catch; [| intros ?]
    | apply writes_Activity_save
    | match goal with
      | |- writes _ (match ?x with _ => _ end) => destruct x eqn:?
      | |- writes _ (if ?x then _ else _) => destruct x eqn:?
      end ].

(** ** POST /receive: what a successful request has done *)


Lemma receive_success env b w id an ts w' :
  Receive.handler env b w = (Returned (Receive.Status200 id an ts), w') ->
  let t := acceleration_of b in
  let r := rotation_of b in
  Receive.totalAcceleration an = t
  /\ Receive.totalRotation an = r
  /\ Receive.fallDetected an = ((15 <? t)%float || (t <? 2)%float)
  /\ Receive.emergencyTriggered an = (200 <? r)%float
  /\ faults env "sensorData.save" = false
  /\ (Receive.fallDetected an = true -> faults env "fallActivity.save" = false)
  /\ (Receive.emergencyTriggered an = true ->
      faults env "emergencyActivity.save" = false)
  /\ exists written,
       activities w' = activities w ++ written
       /\ headline <$> written =
            (if Receive.fallDetected an
             then [(Ty_emergency, St_warning, Msg_potential_fall t)] else [])
            ++ (if Receive.emergencyTriggered an
                then [(Ty_emergency, St_error, Msg_rapid_movement r)] else [])
            ++ (if faults env "syncActivity.save" then []
                else [(Ty_sync, St_success, Msg_esp32_received)]).
Proof.
  intros H t r. unfold Receive.handler in H.
  apply try_catch_inv in H as [(a & H & Ha) | (e & w1 & _ & H)]; cycle 1.
  { apply bind_returned in H as (? & ? & _ & H). inversion H. }
  inversion Ha; subst a; clear Ha.
  fold (acceleration_of b) (rotation_of b) in H. fold t r in H.
  (* the demo user *)
  apply bind_returned in H as (found & w1 & Hfind & H).
  assert (activities w1 = activities w) as E1.
  { apply db_call_inv in Hfind as [[_ Hf] | (_ & ? & _)]; [|discriminate].
    inversion Hf. reflexivity. }
  apply bind_returned in H as (user & w2 & Huser & H).
  assert (activities w2 = activities w) as E2.
  { rewrite <- E1. destruct found.
    - inversion Huser. reflexivity.
    - apply bind_returned in Huser as (i & w1' & Hid & Huser).
      inversion Hid; subst; clear Hid.
      apply bind_returned in Huser as ([] & w1'' & Hsave & Huser).
      inversion Huser; subst; clear Huser.
      apply db_call_inv in Hsave as [[_ Hs] | (_ & ? & _)]; [|discriminate].
      inversion Hs. reflexivity. }
  (* the sample *)
  apply bind_returned in H as (i & w3 & Hid & H).
  inversion Hid; subst i w3; clear Hid.
  apply bind_returned in H as (saved & w4 & Hsave & H).
  assert (activities w4 = activities w
          /\ faults env "sensorData.save" = false) as (E4 & F4).
  { rewrite <- E2.
    apply try_catch_inv in Hsave as [(d & Hs & Hd) | (e & wx & _ & Hs)].
    - inversion Hd; subst d.
      apply SensorData_save_returned in Hs as (_ & _ & Hf & Hs). auto.
    - apply bind_returned in Hs as (? & ? & _ & Hs). inversion Hs. }
  (* fall detection *)
  apply bind_returned in H as (fall & w5 & Hfall & H).
  assert (fall = ((15 <? t)%float || (t <? 2)%float)
          /\ (fall = true -> faults env "fallActivity.save" = false)
          /\ exists l, activities w5 = activities w4 ++ l
             /\ headline <$> l =
                  if fall then [(Ty_emergency, St_warning, Msg_potential_fall t)]
                  else []) as (Efall & F5 & l5 & E5 & L5).
  { destruct ((15 <? t)%float || (t <? 2)%float).
    - apply bind_returned in Hfall as ([] & wx & Hs & Hr).
      inversion Hr; subst; clear Hr.
      apply Activity_save_inv in Hs as [(Hf & _ & ->) | (_ & ? & _)]; [|discriminate].
      split; [reflexivity|]. split; [auto|]. eexists. split; reflexivity.
    - inversion Hfall; subst. split; [reflexivity|]. split; [discriminate|].
      exists []. by rewrite app_nil_r. }
  (* rapid rotation *)
  apply bind_returned in H as (rapid & w6 & Hrapid & H).
  assert (rapid = (200 <? r)%float
          /\ (rapid = true -> faults env "emergencyActivity.save" = false)
          /\ exists l, activities w6 = activities w5 ++ l
             /\ headline <$> l =
                  if rapid then [(Ty_emergency, St_error, Msg_rapid_movement r)]
                  else []) as (Erapid & F6 & l6 & E6 & L6).
  { destruct (200 <? r)%float.
    - apply bind_returned in Hrapid as ([] & wx & Hs & Hr).
      inversion Hr; subst; clear Hr.
      apply Activity_save_inv in Hs as [(Hf & _ & ->) | (_ & ? & _)]; [|discriminate].
      split; [reflexivity|]. split; [auto|]. eexists. split; reflexivity.
    - inversion Hrapid; subst. split; [reflexivity|]. split; [discriminate|].
      exists []. by rewrite app_nil_r. }
  (* sync activity, guarded *)
  apply bind_returned in H as ([] & w7 & Hsync & H).
  assert (exists l, activities w7 = activities w6 ++ l
          /\ headline <$> l =
               if faults env "syncActivity.save" then []
               else [(Ty_sync, St_success, Msg_esp32_received)]) as (l7 & E7 & L7).
  { apply try_catch_inv in Hsync as [(? & Hs & _) | (e & wx & Hs & Hlog)].
    - apply Activity_save_inv in Hs as [(-> & _ & ->) | (_ & ? & _)]; [|discriminate].
      eexists. split; reflexivity.
    - apply Activity_save_inv in Hs as [(_ & ? & _) | (-> & _ & ->)]; [discriminate|].
      inversion Hlog; subst. exists []. by rewrite app_nil_r. }
  inversion H; subst; clear H. cbn [Receive.totalAcceleration
    Receive.totalRotation Receive.fallDetected Receive.emergencyTriggered].
  do 4 (split; [reflexivity|]). do 3 (split; [assumption|]).
  exists (l5 ++ l6 ++ l7). split.
  - rewrite E7, E6, E5, E4. by rewrite <- !app_assoc.
  - rewrite !fmap_app, L5, L6, L7. reflexivity.
Qed.

(** With no rejected call and a sample within the schema's ranges, POST
    /receive answers 200. *)
Lemma receive_succeeds env b w :
  (forall call, faults env call = false) ->
  SensorData.in_range 0 300 (JS.if_truthy JS.parseInt (Receive.heartRate b))
  = true ->
  SensorData.in_range (-50) 100
    (JS.if_truthy JS.parseFloat (Receive.temperature b)) = true ->
  SensorData.in_range 0 100
    (JS.if_truthy JS.parseInt (Receive.batteryLevel b)) = true ->
  exists id an ts w',
    Receive.handler env b w = (Returned (Receive.Status200 id an ts), w').
Proof.
  intros Hf Hh Ht Hb.
  unfold Receive.handler, try_catch, bind, ret, User_findOne, User_save,
    SensorData_save, Activity_save, db_call, new_ObjectId,
    SensorData.validate.
  rewrite !Hf. destruct (find _ (users w)); simpl;
    rewrite ?Hf, Hh, Ht, Hb; simpl; rewrite ?Hf;
    destruct (_ || _); simpl; rewrite ?Hf;
    destruct (200 <? _)%float; simpl; rewrite ?Hf; simpl; eauto.
Qed.

(** ** POST /api/sensor/data: the records of a request *)


(** One rule of the handler on a successful run: [acc] names pushed and [l]
    records written so far, extended by the rule's entry when it fires. *)
Lemma sensor_rule_returned env call (fires : bool) a name
    (acc acc' : list string) w w' :
  (if fires
   then bind (Activity_save env call a) (fun _ => ret (acc ++ [name]))
   else ret acc) w = (Returned acc', w') ->
  acc' = acc ++ (if fires then [name] else [])
  /\ activities w' = activities w ++ (if fires then [a] else []).
Proof.
  destruct fires; intros H.
  - apply bind_returned in H as ([] & w1 & Hs & Hr). inversion Hr; subst.
    apply Activity_save_inv in Hs as [(_ & _ & ->) | (_ & ? & _)];
      [auto | discriminate].
  - inversion H; subst. by rewrite !app_nil_r.
Qed.

Lemma sensor_guarded_rule_returned env call v p (mk : number -> Activity.t)
    name (acc acc' : list string) w w' :
  match SensorIngest.guard v p with
  | Some n => bind (Activity_save env call (mk n)) (fun _ => ret (acc ++ [name]))
  | None => ret acc
  end w = (Returned acc', w') ->
  acc' = acc ++ match SensorIngest.guard v p with
                | Some _ => [name] | None => [] end
  /\ activities w' =
       activities w ++ match SensorIngest.guard v p with
                       | Some n => [mk n] | None => [] end.
Proof.
  destruct (SensorIngest.guard v p) as [n|]; intros H.
  - apply (sensor_rule_returned env call true (mk n) name) in H. exact H.
  - apply (sensor_rule_returned env call false (mk 0%float) name) in H. exact H.
Qed.

Lemma sensor_ingest_success env b w id sigs ts w' :
  SensorIngest.handler env b w
  = (Returned (SensorIngest.Status201 id sigs ts), w') ->
  sigs = (triggered b).*1
  /\ exists written,
       activities w' = activities w ++ written
       /\ headline <$> written = (triggered b).*2.
Proof.
  intros H. unfold SensorIngest.handler in H.
  apply try_catch_inv in H as [(a & H & Ha) | (e & w1 & _ & H)]; cycle 1.
  { apply bind_returned in H as (? & ? & _ & H). inversion H. }
  inversion Ha; subst a; clear Ha.
  destruct (negb (JS.truthy_str (SensorIngest.deviceId b))); [inversion H|].
  apply bind_returned in H as (user & w1 & Huser & H).
  assert (activities w1 = activities w) as E1.
  { destruct (SensorIngest.userId b);
      apply db_call_inv in Huser as [[_ Hf] | (_ & ? & _)];
      try discriminate; inversion Hf; reflexivity. }
  destruct user as [user|]; [|inversion H].
  apply bind_returned in H as (i & w2 & Hid & H).
  inversion Hid; subst i w2; clear Hid.
  apply bind_returned in H as (saved & w3 & Hsave & H).
  apply SensorData_save_activities in Hsave. simpl in Hsave.
  apply bind_returned in H as (acc1 & w4 & H1 & H).
  apply sensor_rule_returned in H1 as (-> & E4).
  apply bind_returned in H as (acc2 & w5 & H2 & H).
  apply sensor_rule_returned in H2 as (-> & E5).
  apply bind_returned in H as (acc3 & w6 & H3 & H).
  apply (sensor_guarded_rule_returned env "vitalActivity.save") in H3 as (-> & E6).
  apply bind_returned in H as (acc4 & w7 & H4 & H).
  apply (sensor_guarded_rule_returned env "tempActivity.save") in H4 as (-> & E7).
  apply bind_returned in H as (acc5 & w8 & H5 & H).
  apply (sensor_guarded_rule_returned env "batteryActivity.save") in H5 as (-> & E8).
  inversion H; subst; clear H.
  unfold triggered. split.
  - rewrite !fmap_app. simpl. rewrite <- !app_assoc.
    repeat f_equal;
      repeat match goal with |- context [match ?c with _ => _ end] =>
                               destruct c end; reflexivity.
  - eexists. split.
    + rewrite E8, E7, E6, E5, E4, Hsave, E1. rewrite <- !app_assoc. reflexivity.
    + rewrite !fmap_app.
      repeat f_equal;
      repeat match goal with |- context [match ?c with _ => _ end] =>
                               destruct c end; reflexivity.
Qed.

(** With a device id, a resolved user, no rejected call and readings
    within the schema's ranges, POST /api/sensor/data answers 201. *)
Lemma sensor_ingest_succeeds env b w user :
  (forall call, faults env call = false) ->
  JS.truthy_str (SensorIngest.deviceId b) = true ->
  match SensorIngest.userId b with
  | Some id => find (fun u => Nat.eqb (User._id u) id) (users w)
  | None =>
    find (fun u => String.eqb (User.phone u)
                     (default "" (SensorIngest.deviceId b))) (users w)
  end = Some user ->
  SensorData.in_range 0 300 (SensorIngest.heartRate b) = true ->
  SensorData.in_range (-50) 100 (SensorIngest.temperature b) = true ->
  SensorData.in_range 0 100 (SensorIngest.batteryLevel b) = true ->
  exists id signals ts w',
    SensorIngest.handler env b w
    = (Returned (SensorIngest.Status201 id signals ts), w').
Proof.
  intros Hf Hd Hu Hh Ht Hb.
  unfold SensorIngest.handler, try_catch, bind, ret, User_findById,
    User_findOne, SensorData_save, Activity_save, db_call, new_ObjectId,
    SensorData.validate.
  rewrite Hd. simpl.
  destruct (SensorIngest.userId b); rewrite Hf, Hu; simpl;
    rewrite Hh, Ht, Hb; simpl; rewrite ?Hf;
    destruct (JS.truthy_bool (SensorIngest.emergencyTriggered b)); simpl;
    rewrite ?Hf;
    destruct (JS.truthy_bool (SensorIngest.fallDetected b)); simpl;
    rewrite ?Hf;
    destruct (SensorIngest.guard (SensorIngest.heartRate b) _); simpl;
    rewrite ?Hf;
    destruct (SensorIngest.guard (SensorIngest.temperature b) _); simpl;
    rewrite ?Hf;
    destruct (SensorIngest.guard (SensorIngest.batteryLevel b) _); simpl;
    rewrite ?Hf; eauto.
Qed.

(** On every path, what POST /api/sensor/data writes is one of the records
    of [triggered]. *)
Lemma sensor_ingest_writes env b :
  writes (fun a => headline a ∈ (triggered b).*2) (SensorIngest.handler env b).
Proof.
  unfold SensorIngest.handler.
  repeat writes_step.
  all: unfold triggered; rewrite !fmap_app, !elem_of_app.
  all: repeat match goal with H : _ = _ |- _ => rewrite H end; simpl.
  - left. by left.
  - right. left. by left.
  - right. right. left. by left.
  - do 3 right. left. by left.
  - do 4 right. by left.
Qed.

(** ** Claims on POST /receive *)

Ltac absent_record H :=
  repeat (apply elem_of_cons in H as [H|H]; [discriminate H|]);
  apply elem_of_nil in H; destruct H.

Lemma count_status_headline s (l : list Activity.t) :
  count_status s l
  = length (List.filter (fun h => status_eqb h.1.2 s) (headline <$> l)).
Proof.
  unfold count_status. induction l as [|a l IH]; [reflexivity|].
  rewrite fmap_cons. cbn [List.filter headline fst snd].
  destruct (status_eqb (Activity.status a) s); simpl; congruence.
Qed.

Lemma count_type_headline t (l : list Activity.t) :
  count_type t l
  = length (List.filter (fun h => type_eqb h.1.1 t) (headline <$> l)).
Proof.
  unfold count_type. induction l as [|a l IH]; [reflexivity|].
  rewrite fmap_cons. cbn [List.filter headline fst snd].
  destruct (type_eqb (Activity.type a) t); simpl; congruence.
Qed.

Lemma count_type_app t (l1 l2 : list Activity.t) :
  count_type t (l1 ++ l2) = (count_type t l1 + count_type t l2)%nat.
Proof. unfold count_type. by rewrite List.filter_app, length_app. Qed.

(** An axis that is absent, or whose vector is absent, counts as 0. *)
Lemma receive_axis_absent (proj : Vec3.t -> option number) :
  Receive.axis None proj = 0%float
  /\ forall v, proj v = None -> Receive.axis (Some v) proj = 0%float.
Proof.
  split; [reflexivity|]. intros v H. unfold Receive.axis. simpl. by rewrite H.
Qed.

(** C1: for every payload ingested by POST /receive, with [x], [y], [z] the
    accelerometer axes (0 when absent) and [total = sqrt(x*x + y*y + z*z)],
    the fall rule fires if and only if [total > 15] or [total < 2]: the
    response's [fallDetected] is true exactly then, the fall record is
    written exactly then, and the number of records of status warning
    written is 1 when it fires and 0 when it does not. *)
Theorem receive_fall_rule env b w id an ts w' :
  Receive.handler env b w = (Returned (Receive.Status200 id an ts), w') ->
  let x := Receive.axis (Receive.accelerometer b) Vec3.x in
  let y := Receive.axis (Receive.accelerometer b) Vec3.y in
  let z := Receive.axis (Receive.accelerometer b) Vec3.z in
  let total := PrimFloat.sqrt (x * x + y * y + z * z)%float in
  (Receive.fallDetected an = true
   <-> (15 <? total)%float = true \/ (total <? 2)%float = true)
  /\ exists written,
       activities w' = activities w ++ written
       /\ ((Ty_emergency, St_warning, Msg_potential_fall total)
           ∈ headline <$> written
           <-> Receive.fallDetected an = true)
       /\ (Receive.fallDetected an = true ->
           count_status St_warning written = 1%nat)
       /\ (Receive.fallDetected an = false ->
           count_status St_warning written = 0%nat).
Proof.
  intros H x y z total.
  apply receive_success in H
    as (_ & _ & Hfall & Hrapid & _ & _ & _ & written & E & L).
  change (acceleration_of b) with total in *.
  split.
  - rewrite Hfall, orb_true_iff. reflexivity.
  - exists written. split; [exact E|].
    rewrite count_status_headline, L. clear Hfall Hrapid.
    destruct (Receive.fallDetected an), (Receive.emergencyTriggered an),
      (faults env "syncActivity.save"); simpl;
      (split; [split; intros H; first [ reflexivity | discriminate H
                                      | by apply list_elem_of_here
                                      | absent_record H ]
              | split; intros H; first [reflexivity | discriminate H]]).
Qed.

Lemma receive_fall_rule_witness :
  exists id an ts w',
    Receive.handler quiet_env body_z20 empty_world
    = (Returned (Receive.Status200 id an ts), w')
    /\ Receive.totalAcceleration an = 20%float
    /\ Receive.fallDetected an = true
    /\ count_status St_warning (activities w') = 1%nat.
Proof.
  pose (run := Receive.handler quiet_env body_z20 empty_world).
  pose (an := {| Receive.totalAcceleration := 20; Receive.totalRotation := 0;
                 Receive.fallDetected := true;
                 Receive.emergencyTriggered := false;
                 Receive.a_location := None; Receive.a_heartRate := None;
                 Receive.a_temperature := None;
                 Receive.a_batteryLevel := None |}).
  assert (run = (Returned (Receive.Status200 1%nat an 1700000000000), run.2))
    as Hrun by (vm_compute; reflexivity).
  exists 1%nat, an, 1700000000000, run.2.
  split; [exact Hrun|]. split; [reflexivity|].
  destruct (receive_fall_rule _ _ _ _ _ _ _ Hrun) as (_ & written & E & _ & C & _).
  split; [reflexivity|]. rewrite E. exact (C eq_refl).
Defined.

Lemma count_type_absent t (l : list Activity.t) :
  Forall (fun a => Activity.type a <> t) l -> count_type t l = 0%nat.
Proof.
  unfold count_type. induction 1 as [|a l Ha _ IH]; [reflexivity|].
  simpl. destruct (type_eqb (Activity.type a) t) eqn:E; [|exact IH].
  destruct (Activity.type a), t; simpl in E; congruence.
Qed.

(** POST /api/sensor/data saves no sync record, whatever the path taken. *)
Lemma sensor_ingest_writes_no_sync env b :
  writes (fun a => Activity.type a <> Ty_sync) (SensorIngest.handler env b).
Proof. unfold SensorIngest.handler. repeat writes_step; discriminate. Qed.

(** C2, as amended: a successful POST /receive writes exactly one sync
    record when its [syncActivity.save()] succeeds and none when that save
    rejects (the request still answers 200), whether or not the fall or
    rapid-movement rules fired; POST /api/sensor/data never writes a sync
    record. *)
Theorem sync_record_per_ingest :
  (forall env b w id an ts w',
      Receive.handler env b w = (Returned (Receive.Status200 id an ts), w') ->
      count_type Ty_sync (activities w')
      = (count_type Ty_sync (activities w)
         + if faults env "syncActivity.save" then 0 else 1)%nat)
  /\ (forall env b w r w',
         SensorIngest.handler env b w = (r, w') ->
         count_type Ty_sync (activities w')
         = count_type Ty_sync (activities w)).
Proof.
  split.
  - intros env b w id an ts w' H.
    apply receive_success in H as (_ & _ & _ & _ & _ & _ & _ & written & E & L).
    rewrite E, count_type_app. f_equal.
    rewrite count_type_headline, L.
    destruct (Receive.fallDetected an), (Receive.emergencyTriggered an),
      (faults env "syncActivity.save"); reflexivity.
  - intros env b w r w' H.
    destruct (sensor_ingest_writes_no_sync env b _ _ _ H) as (written & E & F).
    rewrite E, count_type_app, (count_type_absent _ _ F). lia.
Qed.

Lemma sync_record_per_ingest_witness :
  one_sync_written empty_world
    (Receive.handler quiet_env body_z20 empty_world).2
  /\ count_type Ty_sync
       (activities
          (SensorIngest.handler quiet_env (body_heartRate 130) asha_world).2)
     = 0%nat.
Proof.
  split.
  - unfold one_sync_written.
    set (run := Receive.handler quiet_env body_z20 empty_world).
    assert (exists id an ts, run = (Returned (Receive.Status200 id an ts), run.2))
      as (id & an & ts & Hrun) by (do 3 eexists; vm_compute; reflexivity).
    rewrite (proj1 sync_record_per_ingest _ _ _ _ _ _ _ Hrun). reflexivity.
  - rewrite (proj2 sync_record_per_ingest quiet_env (body_heartRate 130)
               asha_world _ _ (surjective_pairing _)).
    reflexivity.
Defined.

(** C2, as stated, fails on POST /api/sensor/data: the sample of device
    "band-7" with heart rate 130 is ingested (201) and no sync record is
    written. *)
Lemma sensor_ingest_without_sync :
  let run := SensorIngest.handler quiet_env (body_heartRate 130) asha_world in
  run.1 = Returned (SensorIngest.Status201 100%nat ["abnormal_vitals"]
                      1700000000000)
  /\ ~ one_sync_written asha_world run.2.
Proof.
  split; [vm_compute; reflexivity|].
  unfold one_sync_written. vm_compute. discriminate.
Qed.

(** C5: a failing [fallActivity.save()] or [emergencyActivity.save()]
    fails the whole request.  The sample is stored, the triggered record is
    rejected, and POST /receive answers 500; a failing
    [syncActivity.save()] on the same payload is logged and the request
    answers 200. *)
Theorem receive_fall_write_failure :
  let fall_fails :=
    Receive.handler (failing "fallActivity.save") body_z20 empty_world in
  let rapid_fails :=
    Receive.handler (failing "emergencyActivity.save") body_spin
      empty_world in
  let sync_fails :=
    Receive.handler (failing "syncActivity.save") body_z20 empty_world in
  fall_fails.1 = Returned (Receive.Status500 (DbError "fallActivity.save"))
  /\ length (sensorData fall_fails.2) = 1%nat
  /\ activities fall_fails.2 = []
  /\ rapid_fails.1
     = Returned (Receive.Status500 (DbError "emergencyActivity.save"))
  /\ length (sensorData rapid_fails.2) = 1%nat
  /\ activities rapid_fails.2 = []
  /\ (exists id an ts,
         sync_fails.1 = Returned (Receive.Status200 id an ts))
  /\ console sync_fails.2
     = [("Error creating activity record",
         Some (DbError "syncActivity.save"))].
Proof.
  repeat split; try (vm_compute; reflexivity).
  do 3 eexists. vm_compute. reflexivity.
Qed.

(** The defect in general: when the fall rule fires and its save rejects,
    no run of POST /receive answers 200. *)
Lemma receive_unguarded_fall_save env b w r w' :
  Receive.handler env b w = (r, w') ->
  faults env "fallActivity.save" = true ->
  let t := acceleration_of b in
  (15 <? t)%float || (t <? 2)%float = true ->
  forall id an ts, r <> Returned (Receive.Status200 id an ts).
Proof.
  intros H Hf t Hfires id an ts ->.
  apply receive_success in H as (_ & _ & Hfall & _ & _ & Hok & _).
  fold t in Hfall. rewrite Hfires in Hfall. apply Hok in Hfall. congruence.
Qed.

(** ** Claims on POST /api/sensor/data *)

Lemma guard_Some v p n :
  SensorIngest.guard v p = Some n ->
  v = Some n /\ JS.truthy n = true /\ p n = true.
Proof.
  unfold SensorIngest.guard. destruct v as [x|]; [|discriminate].
  destruct (JS.truthy x) eqn:Ht, (p x) eqn:Hp; simpl; try discriminate.
  intros H. inversion H; subst. auto.
Qed.

Lemma guard_truthy n p :
  JS.truthy n = true ->
  SensorIngest.guard (Some n) p = if p n then Some n else None.
Proof. intros H. unfold SensorIngest.guard. by rewrite H. Qed.

Lemma guard_zero p : SensorIngest.guard (Some 0%float) p = None.
Proof. reflexivity. Qed.

Lemma triggered_records b :
  Forall
    (fun e => e.2.1.1 = record_type e.1
              /\ Some e.2.1.2 = spec_severity b e.1)
    (triggered b).
Proof.
  unfold triggered. repeat apply Forall_app_2.
  - destruct (JS.truthy_bool _); repeat constructor.
  - destruct (JS.truthy_bool _); repeat constructor.
  - destruct (SensorIngest.guard (SensorIngest.heartRate b) _) eqn:E;
      [|constructor].
    apply guard_Some in E as (E & _). repeat constructor.
    unfold spec_severity. simpl. by rewrite E.
  - destruct (SensorIngest.guard (SensorIngest.temperature b) _);
      repeat constructor.
  - destruct (SensorIngest.guard (SensorIngest.batteryLevel b) _) eqn:E;
      [|constructor].
    apply guard_Some in E as (E & _). repeat constructor.
    unfold spec_severity. simpl. by rewrite E.
Qed.

Lemma records_of_entries ty b
    (entries : list (string * (ActivityType * ActivityStatus * Message)))
    (written : list Activity.t) :
  Forall (fun e => e.2.1.1 = ty e.1 /\ Some e.2.1.2 = spec_severity b e.1)
    entries ->
  headline <$> written = entries.*2 ->
  one_record_per_signal ty b entries.*1 written.
Proof.
  unfold one_record_per_signal. intros F. revert written.
  induction F as [|e entries [Ht Hs] _ IH]; intros [|a written] H;
    try discriminate; [constructor|].
  rewrite !fmap_cons in H. injection H as Ha H.
  rewrite fmap_cons. constructor; [|by apply IH].
  rewrite <- Ha in Ht, Hs. exact (conj Ht Hs).
Qed.

(** C3, as amended: for every sample ingested by POST /api/sensor/data,
    each signal reported in [activitiesTriggered] has exactly one record,
    in the same order, whose status is the signal's severity and whose
    type is 'emergency' for the emergency button and the device-asserted
    fall, and 'system' for abnormal vitals, abnormal temperature and low
    battery. *)
Theorem sensor_ingest_records env b w id signals ts w' :
  SensorIngest.handler env b w
  = (Returned (SensorIngest.Status201 id signals ts), w') ->
  exists written,
    activities w' = activities w ++ written
    /\ one_record_per_signal record_type b signals written.
Proof.
  intros H. apply sensor_ingest_success in H as (-> & written & E & L).
  exists written. split; [exact E|].
  apply records_of_entries; [apply triggered_records | exact L].
Qed.

Lemma sensor_ingest_records_witness :
  exists written,
    activities (SensorIngest.handler quiet_env (body_heartRate 130)
                  asha_world).2
    = [] ++ written
    /\ one_record_per_signal record_type (body_heartRate 130)
         ["abnormal_vitals"] written.
Proof.
  apply (sensor_ingest_records quiet_env (body_heartRate 130) asha_world
           100%nat ["abnormal_vitals"] 1700000000000).
  vm_compute. reflexivity.
Defined.

(** C3, as stated, fails: the ingested sample with heart rate 130 raises
    abnormal-vitals, and the one record written has type 'system', not
    'emergency'. *)
Lemma vitals_record_is_not_emergency :
  let run := SensorIngest.handler quiet_env (body_heartRate 130) asha_world in
  run.1 = Returned (SensorIngest.Status201 100%nat ["abnormal_vitals"]
                      1700000000000)
  /\ headline <$> activities run.2
     = [(Ty_system, St_warning, Msg_heart_rate 130)]
  /\ ~ one_record_per_signal (fun _ => Ty_emergency) (body_heartRate 130)
         ["abnormal_vitals"] (activities run.2).
Proof.
  split; [vm_compute; reflexivity|]. split; [vm_compute; reflexivity|].
  unfold one_record_per_signal. intros H.
  apply Forall2_cons_inv_l in H as (a & l & [Ht _] & _ & E).
  assert (headline <$> a :: l = [(Ty_system, St_warning, Msg_heart_rate 130)])
    as Hh by (rewrite <- E; vm_compute; reflexivity).
  rewrite fmap_cons in Hh. injection Hh as Hh _. unfold headline in Hh.
  rewrite Ht in Hh. discriminate.
Qed.

(** What [triggered] holds for each of the three scalar rules. *)
Ltac absent_name H :=
  repeat (apply elem_of_cons in H as [H|H]; [discriminate H|]);
  apply elem_of_nil in H; destruct H.

Ltac triggered_cases b :=
  unfold triggered;
  destruct (JS.truthy_bool (SensorIngest.emergencyTriggered b)),
    (JS.truthy_bool (SensorIngest.fallDetected b)),
    (SensorIngest.guard (SensorIngest.heartRate b) _),
    (SensorIngest.guard (SensorIngest.temperature b) _),
    (SensorIngest.guard (SensorIngest.batteryLevel b) _);
  (split; [| reflexivity]);
  simpl;
  let H := fresh "H" in
  (split; intros H);
  first [ by eauto
        | by destruct H
        | absent_name H
        | repeat first [ by apply list_elem_of_here
                       | apply list_elem_of_further ] ].

Lemma triggered_vitals b :
  let g := SensorIngest.guard (SensorIngest.heartRate b)
             (fun h => (120 <? h)%float || (h <? 50)%float) in
  ("abnormal_vitals" ∈ (triggered b).*1 <-> is_Some g)
  /\ List.filter is_heart_rate_record (triggered b).*2
     = match g with
       | Some h =>
         [(Ty_system, if (150 <? h)%float then St_error else St_warning,
           Msg_heart_rate h)]
       | None => []
       end.
Proof. intros g. subst g. triggered_cases b. Qed.

Lemma triggered_temperature b :
  let g := SensorIngest.guard (SensorIngest.temperature b)
             (fun t => (38 <? t)%float || (t <? 35)%float) in
  ("abnormal_temperature" ∈ (triggered b).*1 <-> is_Some g)
  /\ List.filter is_temperature_record (triggered b).*2
     = match g with
       | Some t => [(Ty_system, St_warning, Msg_temperature t)]
       | None => []
       end.
Proof. intros g. subst g. triggered_cases b. Qed.

Lemma triggered_battery b :
  let g := SensorIngest.guard (SensorIngest.batteryLevel b)
             (fun l => (l <? 20)%float) in
  ("low_battery" ∈ (triggered b).*1 <-> is_Some g)
  /\ List.filter is_battery_record (triggered b).*2
     = match g with
       | Some l =>
         [(Ty_system, if (l <? 10)%float then St_error else St_warning,
           Msg_low_battery l)]
       | None => []
       end.
Proof. intros g. subst g. triggered_cases b. Qed.

Lemma filter_headline_absent (p : ActivityType * ActivityStatus * Message -> bool)
    (pool : list (ActivityType * ActivityStatus * Message))
    (written : list Activity.t) :
  List.filter p pool = [] ->
  Forall (fun a => headline a ∈ pool) written ->
  List.filter p (headline <$> written) = [].
Proof.
  intros Hp. induction 1 as [|a l Ha _ IH]; [reflexivity|].
  rewrite fmap_cons. simpl. rewrite IH.
  destruct (p (headline a)) eqn:E; [|reflexivity].
  assert (In (headline a) (List.filter p pool)) as Hin.
  { apply List.filter_In. split; [by apply list_elem_of_In | exact E]. }
  rewrite Hp in Hin. destruct Hin.
Qed.

(** The abnormal-vitals rule on an ingested sample whose heart rate [h] is
    present and truthy. *)
Lemma sensor_ingest_vitals env b w id signals ts w' h :
  SensorIngest.handler env b w
  = (Returned (SensorIngest.Status201 id signals ts), w') ->
  SensorIngest.heartRate b = Some h ->
  JS.truthy h = true ->
  let fires := (120 <? h)%float || (h <? 50)%float in
  ("abnormal_vitals" ∈ signals <-> fires = true)
  /\ exists written,
       activities w' = activities w ++ written
       /\ List.filter is_heart_rate_record (headline <$> written)
          = if fires
            then [(Ty_system,
                   if (150 <? h)%float then St_error else St_warning,
                   Msg_heart_rate h)]
            else [].
Proof.
  intros H Hh Ht fires.
  apply sensor_ingest_success in H as (-> & written & E & L).
  destruct (triggered_vitals b) as (Hin & Hrec).
  rewrite Hh, (guard_truthy _ _ Ht) in Hin, Hrec. fold fires in Hin, Hrec.
  split.
  - rewrite Hin. destruct fires; split; intros H;
      eauto; try discriminate. by destruct H.
  - exists written. split; [exact E|]. rewrite L, Hrec. by destruct fires.
Qed.

(** C4, as amended: for every sample ingested by POST /api/sensor/data whose
    heartRate is present and truthy (not 0), abnormal-vitals fires if and
    only if [heartRate > 120] or [heartRate < 50], and its record has status
    error when [heartRate > 150] and warning otherwise; heart rate 155
    gives status error and heart rate 130 gives status warning. *)
Theorem abnormal_vitals_rule :
  (forall env b w id signals ts w' h,
      SensorIngest.handler env b w
      = (Returned (SensorIngest.Status201 id signals ts), w') ->
      SensorIngest.heartRate b = Some h ->
      JS.truthy h = true ->
      let fires := (120 <? h)%float || (h <? 50)%float in
      ("abnormal_vitals" ∈ signals <-> fires = true)
      /\ exists written,
           activities w' = activities w ++ written
           /\ List.filter is_heart_rate_record (headline <$> written)
              = if fires
                then [(Ty_system,
                       if (150 <? h)%float then St_error else St_warning,
                       Msg_heart_rate h)]
                else [])
  /\ (forall env b w id signals ts w',
         SensorIngest.handler env b w
         = (Returned (SensorIngest.Status201 id signals ts), w') ->
         SensorIngest.heartRate b = Some 155%float ->
         "abnormal_vitals" ∈ signals
         /\ exists written,
              activities w' = activities w ++ written
              /\ List.filter is_heart_rate_record (headline <$> written)
                 = [(Ty_system, St_error, Msg_heart_rate 155)])
  /\ (forall env b w id signals ts w',
         SensorIngest.handler env b w
         = (Returned (SensorIngest.Status201 id signals ts), w') ->
         SensorIngest.heartRate b = Some 130%float ->
         "abnormal_vitals" ∈ signals
         /\ exists written,
              activities w' = activities w ++ written
              /\ List.filter is_heart_rate_record (headline <$> written)
                 = [(Ty_system, St_warning, Msg_heart_rate 130)]).
Proof.
  split; [exact sensor_ingest_vitals|].
  split; intros env b w id signals ts w' H Hh;
    destruct (sensor_ingest_vitals _ _ _ _ _ _ _ _ H Hh eq_refl) as (Hin & Hw);
    (split; [by apply Hin | exact Hw]).
Qed.

Lemma abnormal_vitals_rule_witness :
  let run h := SensorIngest.handler quiet_env (body_heartRate h) asha_world in
  (exists written,
      activities (run 155%float).2 = [] ++ written
      /\ List.filter is_heart_rate_record (headline <$> written)
         = [(Ty_system, St_error, Msg_heart_rate 155)])
  /\ (exists written,
         activities (run 130%float).2 = [] ++ written
         /\ List.filter is_heart_rate_record (headline <$> written)
            = [(Ty_system, St_warning, Msg_heart_rate 130)])
  /\ ("abnormal_vitals" ∈ @nil string <-> (120 <? 72)%float || (72 <? 50)%float = true).
Proof.
  intros run.
  destruct abnormal_vitals_rule as (Hgen & H155 & H130).
  split; [|split].
  - refine (proj2 (H155 quiet_env (body_heartRate 155) asha_world 100%nat
                     ["abnormal_vitals"] 1700000000000 _ _ eq_refl)).
    vm_compute. reflexivity.
  - refine (proj2 (H130 quiet_env (body_heartRate 130) asha_world 100%nat
                     ["abnormal_vitals"] 1700000000000 _ _ eq_refl)).
    vm_compute. reflexivity.
  - refine (proj1 (Hgen quiet_env (body_heartRate 72) asha_world 100%nat
                     [] 1700000000000 _ 72%float _ eq_refl eq_refl)).
    vm_compute. reflexivity.
Defined.

(** C4, as stated, fails at heart rate 0: the field is present and
    [0 < 50], yet the ingested sample raises no abnormal-vitals signal. *)
Lemma heart_rate_zero_raises_nothing :
  let b := body_heartRate 0 in
  let run := SensorIngest.handler quiet_env b asha_world in
  SensorIngest.heartRate b = Some 0%float
  /\ run.1 = Returned (SensorIngest.Status201 100%nat [] 1700000000000)
  /\ activities run.2 = []
  /\ ~ ("abnormal_vitals" ∈ @nil string
        <-> (120 <? 0)%float = true \/ (0 <? 50)%float = true).
Proof.
  split; [reflexivity|]. split; [vm_compute; reflexivity|].
  split; [vm_compute; reflexivity|].
  intros [_ H]. apply elem_of_nil in H; [exact H|]. right. reflexivity.
Qed.

(** C10: POST /api/sensor/data treats a scalar reading that is exactly 0 as
    absent.  On every run, with heartRate 0 no heart-rate record is written
    and abnormal_vitals is not reported, although [0 < 50]; likewise
    temperature 0 (although [0 < 35]) and batteryLevel 0 (although
    [0 < 20]); 0 is falsy for the handler's presence tests. *)
Theorem zero_reading_is_absent env b w r w' :
  SensorIngest.handler env b w = (r, w') ->
  exists written,
    activities w' = activities w ++ written
    /\ (SensorIngest.heartRate b = Some 0%float ->
        List.filter is_heart_rate_record (headline <$> written) = []
        /\ forall id signals ts,
             r = Returned (SensorIngest.Status201 id signals ts) ->
             "abnormal_vitals" ∉ signals)
    /\ (SensorIngest.temperature b = Some 0%float ->
        List.filter is_temperature_record (headline <$> written) = []
        /\ forall id signals ts,
             r = Returned (SensorIngest.Status201 id signals ts) ->
             "abnormal_temperature" ∉ signals)
    /\ (SensorIngest.batteryLevel b = Some 0%float ->
        List.filter is_battery_record (headline <$> written) = []
        /\ forall id signals ts,
             r = Returned (SensorIngest.Status201 id signals ts) ->
             "low_battery" ∉ signals)
    /\ JS.truthy 0 = false
    /\ (0 <? 50)%float = true /\ (0 <? 35)%float = true
    /\ (0 <? 20)%float = true.
Proof.
  intros H.
  destruct (sensor_ingest_writes env b _ _ _ H) as (written & E & F).
  exists written. split; [exact E|].
  split; [|split; [|split; [|by repeat split]]]; intros Hz.
  - destruct (triggered_vitals b) as (Hin & Hrec).
    rewrite Hz, guard_zero in Hin, Hrec. split.
    + by apply (filter_headline_absent _ _ _ Hrec).
    + intros id signals ts ->.
      apply sensor_ingest_success in H as (-> & _).
      rewrite Hin. by intros [? ?].
  - destruct (triggered_temperature b) as (Hin & Hrec).
    rewrite Hz, guard_zero in Hin, Hrec. split.
    + by apply (filter_headline_absent _ _ _ Hrec).
    + intros id signals ts ->.
      apply sensor_ingest_success in H as (-> & _).
      rewrite Hin. by intros [? ?].
  - destruct (triggered_battery b) as (Hin & Hrec).
    rewrite Hz, guard_zero in Hin, Hrec. split.
    + by apply (filter_headline_absent _ _ _ Hrec).
    + intros id signals ts ->.
      apply sensor_ingest_success in H as (-> & _).
      rewrite Hin. by intros [? ?].
Qed.

Lemma zero_reading_is_absent_witness :
  let run := SensorIngest.handler quiet_env body_all_zero asha_world in
  run.1 = Returned (SensorIngest.Status201 100%nat [] 1700000000000)
  /\ exists written,
       activities run.2 = [] ++ written
       /\ List.filter is_heart_rate_record (headline <$> written) = []
       /\ List.filter is_temperature_record (headline <$> written) = []
       /\ List.filter is_battery_record (headline <$> written) = [].
Proof.
  intros run. split; [vm_compute; reflexivity|].
  destruct (zero_reading_is_absent quiet_env body_all_zero asha_world
              run.1 run.2 (surjective_pairing _))
    as (written & E & Hh & Ht & Hb & _).
  exists written. split; [exact E|].
  split; [exact (proj1 (Hh eq_refl))|].
  split; [exact (proj1 (Ht eq_refl)) | exact (proj1 (Hb eq_refl))].
Defined.

(** ** Retention *)

Lemma cleanup_run env w :
  cleanupOldSensorData env w
  = if faults env "SensorData.deleteMany"
    then (Returned tt,
          (console_error "Error cleaning up sensor data"
             (Some (DbError "SensorData.deleteMany")) w).2)
    else (Returned tt,
          with_sensorData
            (List.filter
               (fun d => negb (SensorData.createdAt d
                               <? now env - 30 * 60 * 1000))
               (sensorData w)) w).
Proof.
  unfold cleanupOldSensorData, try_catch, bind, SensorData_deleteMany, db_call.
  destruct (faults env "SensorData.deleteMany"); reflexivity.
Qed.

(** C6: a sweep whose [deleteMany] succeeds keeps exactly the samples that
    are not older than 30 minutes at sweep time and deletes the others (a
    sample created 31 minutes before is deleted, one created 29 minutes
    before is kept); the timer runs the sweep every 5 minutes. *)
Theorem retention_sweep :
  (forall env w,
      faults env "SensorData.deleteMany" = false ->
      let w' := (cleanupOldSensorData env w).2 in
      let cutoff := now env - 30 * 60 * 1000 in
      sensorData w'
      = List.filter (fun d => negb (SensorData.createdAt d <? cutoff))
          (sensorData w)
      /\ (forall d, d ∈ sensorData w' <->
                    d ∈ sensorData w /\ ~ SensorData.createdAt d < cutoff)
      /\ (forall d, d ∈ sensorData w ->
                    SensorData.createdAt d = now env - 31 * 60 * 1000 ->
                    d ∉ sensorData w')
      /\ (forall d, d ∈ sensorData w ->
                    SensorData.createdAt d = now env - 29 * 60 * 1000 ->
                    d ∈ sensorData w'))
  /\ cleanup_interval = 5 * 60 * 1000
  /\ (forall start k env w,
         sweep start k env w
         = cleanupOldSensorData
             {| now := start + (Z.of_nat k + 1) * cleanup_interval;
                faults := faults env; twilioClient := twilioClient env |} w)
  /\ (forall start k,
         setInterval_tick start cleanup_interval (S k)
         - setInterval_tick start cleanup_interval k
         = 5 * 60 * 1000).
Proof.
  split; [|split; [reflexivity | split; [reflexivity|]]].
  - intros env w Hf w' cutoff. subst w'. rewrite cleanup_run, Hf. simpl.
    fold cutoff.
    assert (forall d,
               d ∈ List.filter
                     (fun d => negb (SensorData.createdAt d <? cutoff))
                     (sensorData w)
               <-> d ∈ sensorData w /\ ~ SensorData.createdAt d < cutoff)
      as Hmem.
    { intros d. rewrite !list_elem_of_In, List.filter_In, negb_true_iff.
      rewrite Z.ltb_ge. split; intros [Hd Hc]; (split; [exact Hd | lia]). }
    split; [reflexivity|]. split; [exact Hmem|]. split.
    + intros d Hd Ht. rewrite Hmem. unfold cutoff. lia.
    + intros d Hd Ht. rewrite Hmem. unfold cutoff. split; [exact Hd | lia].
  - intros start k. unfold setInterval_tick, cleanup_interval. lia.
Qed.

Lemma retention_sweep_witness :
  sensorData (cleanupOldSensorData quiet_env two_samples_world).2
  = [sample_at 2%nat (now quiet_env - minutes 29)].
Proof.
  rewrite (proj1 (proj1 retention_sweep quiet_env two_samples_world eq_refl)).
  vm_compute. reflexivity.
Defined.

(** A sweep whose [deleteMany] rejects deletes nothing and logs the error. *)
Lemma cleanup_failure_is_logged env w :
  faults env "SensorData.deleteMany" = true ->
  let run := cleanupOldSensorData env w in
  run.1 = Returned tt
  /\ sensorData run.2 = sensorData w
  /\ console run.2
     = console w
       ++ [("Error cleaning up sensor data",
            Some (DbError "SensorData.deleteMany"))].
Proof. intros Hf. rewrite cleanup_run, Hf. by repeat split. Qed.

(** ** History *)

#[local] Instance newer_first_total : Total newer_first.
Proof. intros a b. unfold newer_first. lia. Qed.

#[local] Instance newer_first_trans : Transitive newer_first.
Proof. intros a b c. unfold newer_first. lia. Qed.

Lemma find_sort_limit_skip_sorted q n k docs :
  StronglySorted newer_first (find_sort_limit_skip q n k docs).
Proof.
  unfold find_sort_limit_skip.
  pose proof (StronglySorted_merge_sort newer_first (List.filter q docs)) as S.
  set (sorted := merge_sort newer_first (List.filter q docs)) in *.
  assert (StronglySorted newer_first (drop k sorted)) as Sd.
  { rewrite <- (take_drop k sorted) in S.
    by apply StronglySorted_app_1_r in S. }
  destruct (Nat.eqb n 0); [exact Sd|].
  rewrite <- (take_drop n (drop k sorted)) in Sd.
  by apply StronglySorted_app_1_l in Sd.
Qed.

Lemma find_sort_limit_skip_length q n k docs :
  length (find_sort_limit_skip q n k docs)
  = let rest := (length (List.filter q docs) - k)%nat in
    if Nat.eqb n 0 then rest else Nat.min n rest.
Proof.
  unfold find_sort_limit_skip.
  pose proof (Permutation_length
                (merge_sort_Permutation newer_first (List.filter q docs))) as L.
  destruct (Nat.eqb n 0); simpl.
  - by rewrite length_drop, L.
  - by rewrite length_take, length_drop, L.
Qed.

Lemma find_sort_limit_skip_subset q n k docs d :
  d ∈ find_sort_limit_skip q n k docs -> d ∈ docs /\ q d = true.
Proof.
  unfold find_sort_limit_skip. intros H.
  assert (d ∈ merge_sort newer_first (List.filter q docs)) as Hd.
  { destruct (Nat.eqb n 0).
    - eapply subseteq_drop, H.
    - eapply subseteq_drop, subseteq_take, H. }
  rewrite merge_sort_Permutation in Hd.
  apply list_elem_of_In, List.filter_In in Hd.
  by rewrite list_elem_of_In.
Qed.

Lemma history_success env uid q w data total hasMore w' :
  History.handler env uid q w
  = (Returned (History.Status200 data total hasMore), w') ->
  let limit := default 50%nat (History.limit q) in
  let skip := default 0%nat (History.skip q) in
  data = find_sort_limit_skip (History.mongo_query uid q) limit skip
           (sensorData w)
  /\ total = length (List.filter (History.mongo_query uid q) (sensorData w))
  /\ hasMore = (skip + limit <? total)%nat.
Proof.
  intros H limit skip. unfold History.handler in H.
  apply try_catch_inv in H as [(a & H & Ha) | (e & w1 & _ & H)]; cycle 1.
  { apply bind_returned in H as (? & ? & _ & H). inversion H. }
  inversion Ha; subst a; clear Ha.
  apply bind_returned in H as (found & w1 & Hfind & H).
  apply db_call_inv in Hfind as [[_ Hfind] | (_ & ? & _)]; [|discriminate].
  inversion Hfind; subst found w1; clear Hfind.
  apply bind_returned in H as (n & w2 & Hcount & H).
  apply db_call_inv in Hcount as [[_ Hcount] | (_ & ? & _)]; [|discriminate].
  inversion Hcount; subst n w2; clear Hcount.
  inversion H; subst. by repeat split.
Qed.

(** C8: the page returned by GET /api/sensor/history is ordered by creation
    time, newest first, and [hasMore] is [skip + limit < total], with
    [total] the number of samples matching the query; a non-zero limit
    returns [min limit (total - skip)] samples.  With 25 matching samples,
    limit 10 and skip 20 give 5 samples and [hasMore = false]; limit 10 and
    skip 0 give [hasMore = true]. *)
Theorem history_page :
  (forall env uid q w data total hasMore w',
      History.handler env uid q w
      = (Returned (History.Status200 data total hasMore), w') ->
      let limit := default 50%nat (History.limit q) in
      let skip := default 0%nat (History.skip q) in
      StronglySorted
        (fun a b => SensorData.createdAt b <= SensorData.createdAt a) data
      /\ total
         = length (List.filter (History.mongo_query uid q) (sensorData w))
      /\ hasMore = (skip + limit <? total)%nat
      /\ (forall d, d ∈ data ->
                    d ∈ sensorData w /\ History.mongo_query uid q d = true)
      /\ (limit <> 0%nat -> length data = Nat.min limit (total - skip)))
  /\ (forall env uid w data hasMore w',
         History.handler env uid (page 10 20) w
         = (Returned (History.Status200 data 25 hasMore), w') ->
         length data = 5%nat /\ hasMore = false)
  /\ (forall env uid w data hasMore w',
         History.handler env uid (page 10 0) w
         = (Returned (History.Status200 data 25 hasMore), w') ->
         length data = 10%nat /\ hasMore = true).
Proof.
  assert (forall env uid q w data total hasMore w',
             History.handler env uid q w
             = (Returned (History.Status200 data total hasMore), w') ->
             let limit := default 50%nat (History.limit q) in
             let skip := default 0%nat (History.skip q) in
             hasMore = (skip + limit <? total)%nat
             /\ (limit <> 0%nat -> length data = Nat.min limit (total - skip)))
    as Hpage.
  { intros env uid q w data total hasMore w' H limit skip.
    apply history_success in H as (-> & -> & ->). split; [reflexivity|].
    intros Hl. rewrite find_sort_limit_skip_length. simpl.
    fold limit. by apply Nat.eqb_neq in Hl as ->. }
  split; [|split].
  - intros env uid q w data total hasMore w' H limit skip.
    destruct (Hpage _ _ _ _ _ _ _ _ H) as (Hmore & Hlen).
    apply history_success in H as (-> & -> & _).
    split; [apply find_sort_limit_skip_sorted|].
    split; [reflexivity|]. split; [exact Hmore|].
    split; [intros d; apply find_sort_limit_skip_subset | exact Hlen].
  - intros env uid w data hasMore w' H.
    destruct (Hpage _ _ _ _ _ _ _ _ H) as (-> & Hlen).
    split; [by apply Hlen | reflexivity].
  - intros env uid w data hasMore w' H.
    destruct (Hpage _ _ _ _ _ _ _ _ H) as (-> & Hlen).
    split; [by apply Hlen | reflexivity].
Qed.

Lemma history_page_witness :
  let run limit skip :=
    (History.handler quiet_env 7%nat (page limit skip) history_world).1 in
  (exists data, run 10%nat 20%nat = Returned (History.Status200 data 25 false)
                /\ length data = 5%nat)
  /\ (exists data, run 10%nat 0%nat = Returned (History.Status200 data 25 true)
                   /\ length data = 10%nat).
Proof.
  intros run. destruct history_page as (_ & H20 & H0). split.
  - assert (exists data w',
               History.handler quiet_env 7%nat (page 10 20) history_world
               = (Returned (History.Status200 data 25 false), w'))
      as (data & w' & Hrun) by (do 2 eexists; vm_compute; reflexivity).
    exists data. subst run. cbv beta. rewrite Hrun.
    split; [reflexivity | exact (proj1 (H20 _ _ _ _ _ _ Hrun))].
  - assert (exists data w',
               History.handler quiet_env 7%nat (page 10 0) history_world
               = (Returned (History.Status200 data 25 true), w'))
      as (data & w' & Hrun) by (do 2 eexists; vm_compute; reflexivity).
    exists data. subst run. cbv beta. rewrite Hrun.
    split; [reflexivity | exact (proj1 (H0 _ _ _ _ _ _ Hrun))].
Defined.

(** ** Statistics *)

Lemma type_eqb_eq a b : type_eqb a b = true <-> a = b.
Proof. by destruct a, b. Qed.

Lemma type_eqb_refl a : type_eqb a a = true.
Proof. by destruct a. Qed.

Lemma type_name_inj a b : type_name a = type_name b -> a = b.
Proof. by destruct a, b. Qed.

Lemma type_name_not_all t : type_name t <> "all".
Proof. by destruct t. Qed.

Lemma group_count_bump t t' groups :
  group_count t (Stats.bump t' groups)
  = (group_count t groups + if type_eqb t t' then 1 else 0)%nat.
Proof.
  induction groups as [|[t0 n] groups IH]; simpl.
  - destruct (type_eqb t t'); reflexivity.
  - destruct (type_eqb t' t0) eqn:E0; simpl.
    + apply type_eqb_eq in E0 as ->.
      destruct (type_eqb t t0); lia.
    + destruct (type_eqb t t0) eqn:E1; [|exact IH].
      apply type_eqb_eq in E1 as ->.
      destruct (type_eqb t0 t') eqn:E2; [|lia].
      apply type_eqb_eq in E2 as ->. by rewrite type_eqb_refl in E0.
Qed.

Lemma bump_keys t' groups :
  NoDup groups.*1 ->
  NoDup (Stats.bump t' groups).*1
  /\ forall t, t ∈ (Stats.bump t' groups).*1 <-> t = t' \/ t ∈ groups.*1.
Proof.
  induction groups as [|[t0 n] groups IH]; simpl; intros ND.
  - split; [apply NoDup_singleton|]. intros t. rewrite list_elem_of_singleton.
    split; [auto | intros [?|H]; [done | by apply elem_of_nil in H]].
  - apply NoDup_cons in ND as (Hnotin & ND).
    destruct (IH ND) as (IHnd & IHin).
    destruct (type_eqb t' t0) eqn:E0; simpl.
    + apply type_eqb_eq in E0 as ->. split.
      * apply NoDup_cons. auto.
      * intros t. rewrite elem_of_cons. tauto.
    + split.
      * apply NoDup_cons. split; [|exact IHnd].
        rewrite IHin. intros [->|H]; [|done].
        by rewrite type_eqb_refl in E0.
      * intros t. rewrite !elem_of_cons, IHin. tauto.
Qed.

Lemma group_by_type_spec docs :
  NoDup (Stats.group_by_type docs).*1
  /\ forall t, group_count t (Stats.group_by_type docs) = count_type t docs.
Proof.
  unfold Stats.group_by_type.
  induction docs as [|a docs IH] using rev_ind.
  - split; [constructor | reflexivity].
  - destruct IH as (ND & IH). rewrite foldl_app. simpl. split.
    + by apply bump_keys.
    + intros t. rewrite group_count_bump, IH, count_type_app.
      f_equal. unfold count_type. simpl.
      destruct (Activity.type a), t; reflexivity.
Qed.

Lemma group_count_absent t groups :
  t ∉ groups.*1 -> group_count t groups = 0%nat.
Proof.
  induction groups as [|[t0 n] groups IH]; [reflexivity|].
  simpl. rewrite not_elem_of_cons. intros [Hne Hnotin].
  destruct (type_eqb t t0) eqn:E; [|by apply IH].
  by apply type_eqb_eq in E.
Qed.

(** [stats.forEach(stat => { formattedStats[stat._id] = stat.count })] *)
Lemma forEach_stat_lookup (groups : list (ActivityType * nat))
    (m : gmap string nat) :
  NoDup groups.*1 ->
  let m' := foldl (fun m stat => <[type_name stat.1 := stat.2]> m) m groups in
  (forall t, m' !! type_name t
             = if bool_decide (t ∈ groups.*1)
               then Some (group_count t groups)
               else m !! type_name t)
  /\ m' !! "all" = m !! "all"
  /\ (forall k, is_Some (m' !! k) ->
                is_Some (m !! k) \/ exists t, k = type_name t).
Proof.
  revert m. induction groups as [|[t0 n] groups IH]; intros m ND; simpl.
  - split; [|split]; auto.
  - simpl in ND. apply NoDup_cons in ND as (Hnotin & ND).
    destruct (IH (<[type_name t0 := n]> m) ND) as (IHt & IHall & IHdom).
    split; [|split].
    + intros t. rewrite IHt.
      destruct (type_eqb t t0) eqn:E.
      * apply type_eqb_eq in E as ->.
        rewrite (bool_decide_eq_false_2 _ Hnotin).
        rewrite bool_decide_eq_true_2 by apply list_elem_of_here.
        by rewrite lookup_insert_eq.
      * assert (t <> t0) as Hne by (intros ->; by rewrite type_eqb_refl in E).
        rewrite lookup_insert_ne by (intros Hn; by apply type_name_inj in Hn).
        destruct (bool_decide (t ∈ groups.*1)) eqn:Hin.
        -- apply bool_decide_eq_true_1 in Hin.
           rewrite bool_decide_eq_true_2; [done|]. by apply list_elem_of_further.
        -- apply bool_decide_eq_false_1 in Hin.
           rewrite bool_decide_eq_false_2; [done|].
           rewrite not_elem_of_cons. done.
    + rewrite IHall. apply lookup_insert_ne. apply type_name_not_all.
    + intros k Hk. destruct (IHdom k Hk) as [Hm | Ht]; [|by right].
      destruct (decide (type_name t0 = k)) as [<-|Hne]; [right; eauto|].
      left. by rewrite lookup_insert_ne in Hm.
Qed.

Lemma stats_success env uid w m w' :
  Stats.handler env uid w = (Returned (Stats.Status200 m), w') ->
  let mine := List.filter (Stats.of_user uid) (activities w) in
  m !! "all" = Some (length mine)
  /\ (forall t, m !! type_name t = Some (count_type t mine))
  /\ forall k, is_Some (m !! k) -> k = "all" \/ exists t, k = type_name t.
Proof.
  intros H mine. unfold Stats.handler in H.
  apply try_catch_inv in H as [(a & H & Ha) | (e & w1 & _ & H)]; cycle 1.
  { apply bind_returned in H as (? & ? & _ & H). inversion H. }
  inversion Ha; subst a; clear Ha.
  apply bind_returned in H as (stats & w1 & Hagg & H).
  apply db_call_inv in Hagg as [[_ Hagg] | (_ & ? & _)]; [|discriminate].
  inversion Hagg; subst stats w1; clear Hagg.
  apply bind_returned in H as (all & w2 & Hcount & H).
  apply db_call_inv in Hcount as [[_ Hcount] | (_ & ? & _)]; [|discriminate].
  inversion Hcount; subst all w2; clear Hcount.
  inversion H; subst; clear H. fold mine.
  destruct (group_by_type_spec mine) as (ND & Hcount).
  destruct (forEach_stat_lookup (Stats.group_by_type mine)
              (<["all" := length mine]> (<["sync" := 0%nat]>
                 (<["location" := 0%nat]> (<["emergency" := 0%nat]>
                    (<["system" := 0%nat]> ∅))))) ND) as (Ht & Hall & Hdom).
  split; [|split].
  - rewrite Hall. apply lookup_insert_eq.
  - intros t. rewrite Ht, <- Hcount.
    destruct (bool_decide (t ∈ (Stats.group_by_type mine).*1)) eqn:E;
      [reflexivity|].
    apply bool_decide_eq_false_1 in E.
    rewrite (group_count_absent _ _ E). by destruct t.
  - intros k Hk. destruct (Hdom k Hk) as [Hm | Ht']; [|by right].
    destruct (decide (k = "all")) as [->|H1]; [by left|]. right.
    destruct (decide (k = "sync")) as [->|H2]; [by exists Ty_sync|].
    destruct (decide (k = "location")) as [->|H3]; [by exists Ty_location|].
    destruct (decide (k = "emergency")) as [->|H4]; [by exists Ty_emergency|].
    destruct (decide (k = "system")) as [->|H5]; [by exists Ty_system|].
    exfalso. rewrite !lookup_insert_ne in Hm by done.
    rewrite lookup_empty in Hm. by destruct Hm.
Qed.

Lemma length_by_type (l : list Activity.t) :
  length l
  = (count_type Ty_sync l + count_type Ty_location l
     + count_type Ty_emergency l + count_type Ty_system l)%nat.
Proof.
  unfold count_type. induction l as [|a l IH]; [reflexivity|].
  simpl. destruct (Activity.type a); simpl; lia.
Qed.

(** C9: the statistics of GET /api/activities/stats always hold the keys
    all, sync, location, emergency and system and no other; each type key
    maps to the number of the user's records of that type, 0 when there is
    none, and all to their total.  For a user with 3 sync and 2 emergency
    records the result is {all: 5, sync: 3, location: 0, emergency: 2,
    system: 0}. *)
Theorem stats_counts_every_type :
  (forall env uid w m w',
      Stats.handler env uid w = (Returned (Stats.Status200 m), w') ->
      let mine := List.filter (Stats.of_user uid) (activities w) in
      m !! "all" = Some (length mine)
      /\ m !! "sync" = Some (count_type Ty_sync mine)
      /\ m !! "location" = Some (count_type Ty_location mine)
      /\ m !! "emergency" = Some (count_type Ty_emergency mine)
      /\ m !! "system" = Some (count_type Ty_system mine)
      /\ (forall k, is_Some (m !! k) <->
                    k ∈ ["all"; "sync"; "location"; "emergency"; "system"]))
  /\ (forall env uid w m w',
         Stats.handler env uid w = (Returned (Stats.Status200 m), w') ->
         let mine := List.filter (Stats.of_user uid) (activities w) in
         count_type Ty_sync mine = 3%nat ->
         count_type Ty_emergency mine = 2%nat ->
         length mine = 5%nat ->
         m = <["all" := 5%nat]> (<["sync" := 3%nat]> (<["location" := 0%nat]>
               (<["emergency" := 2%nat]> (<["system" := 0%nat]> ∅))))).
Proof.
  assert (forall env uid w m w',
             Stats.handler env uid w = (Returned (Stats.Status200 m), w') ->
             let mine := List.filter (Stats.of_user uid) (activities w) in
             m !! "all" = Some (length mine)
             /\ m !! "sync" = Some (count_type Ty_sync mine)
             /\ m !! "location" = Some (count_type Ty_location mine)
             /\ m !! "emergency" = Some (count_type Ty_emergency mine)
             /\ m !! "system" = Some (count_type Ty_system mine)
             /\ (forall k, is_Some (m !! k) <->
                           k ∈ ["all"; "sync"; "location"; "emergency";
                                "system"])) as Hgen.
  { intros env uid w m w' H mine.
    apply stats_success in H as (Hall & Ht & Hdom). fold mine in Hall, Ht.
    split; [exact Hall|].
    split; [exact (Ht Ty_sync)|]. split; [exact (Ht Ty_location)|].
    split; [exact (Ht Ty_emergency)|]. split; [exact (Ht Ty_system)|].
    intros k. split.
    - intros Hk. destruct (Hdom k Hk) as [->|[t ->]];
        [|destruct t]; simpl;
        repeat first [ by apply list_elem_of_here
                     | apply list_elem_of_further ].
    - intros Hk.
      apply elem_of_cons in Hk as [->|Hk]; [rewrite Hall; eauto|].
      apply elem_of_cons in Hk as [->|Hk];
        [change "sync" with (type_name Ty_sync); rewrite Ht; eauto|].
      apply elem_of_cons in Hk as [->|Hk];
        [change "location" with (type_name Ty_location); rewrite Ht; eauto|].
      apply elem_of_cons in Hk as [->|Hk];
        [change "emergency" with (type_name Ty_emergency); rewrite Ht; eauto|].
      apply elem_of_cons in Hk as [->|Hk];
        [change "system" with (type_name Ty_system); rewrite Ht; eauto|].
      by apply elem_of_nil in Hk. }
  split; [exact Hgen|].
  intros env uid w m w' H mine Hs He Hlen.
  destruct (Hgen _ _ _ _ _ H) as (Hall & Hsync & Hloc & Hem & Hsys & Hdom).
  fold mine in Hall, Hsync, Hloc, Hem, Hsys.
  pose proof (length_by_type mine) as Hsum.
  rewrite Hlen in Hall. rewrite Hs in Hsync. rewrite He in Hem.
  assert (count_type Ty_location mine = 0%nat) as Hl0 by lia.
  assert (count_type Ty_system mine = 0%nat) as Hs0 by lia.
  rewrite Hl0 in Hloc. rewrite Hs0 in Hsys.
  apply map_eq. intros k.
  destruct (decide (k = "all")) as [->|H1]; [by rewrite Hall|].
  destruct (decide (k = "sync")) as [->|H2]; [by rewrite Hsync|].
  destruct (decide (k = "location")) as [->|H3]; [by rewrite Hloc|].
  destruct (decide (k = "emergency")) as [->|H4]; [by rewrite Hem|].
  destruct (decide (k = "system")) as [->|H5]; [by rewrite Hsys|].
  rewrite !lookup_insert_ne by done. rewrite lookup_empty.
  apply eq_None_not_Some. rewrite Hdom.
  intros Hk.
  repeat (apply elem_of_cons in Hk as [->|Hk]; [done|]).
  by apply elem_of_nil in Hk.
Qed.

Lemma stats_counts_every_type_witness :
  (Stats.handler quiet_env 7%nat stats_world).1
  = Returned
      (Stats.Status200
         (<["all" := 5%nat]> (<["sync" := 3%nat]> (<["location" := 0%nat]>
            (<["emergency" := 2%nat]> (<["system" := 0%nat]> ∅)))))).
Proof.
  assert (exists m w',
             Stats.handler quiet_env 7%nat stats_world
             = (Returned (Stats.Status200 m), w'))
    as (m & w' & Hrun) by (do 2 eexists; vm_compute; reflexivity).
  rewrite Hrun. simpl. do 2 f_equal.
  exact (proj2 stats_counts_every_type _ _ _ _ _ Hrun eq_refl eq_refl eq_refl).
Defined.

(** ** Location sharing *)

(** The fan-out goes through every contact: each one ends in [results] or
    in [errors], and nothing is thrown. *)
Lemma send_all_total client contacts results errors w :
  exists results' errors' w',
    ShareLocation.send_all client contacts results errors w
    = (Returned (results', errors'), w')
    /\ (length results' + length errors'
        = length results + length errors + length contacts)%nat
    /\ activities w' = activities w.
Proof.
  revert results errors w.
  induction contacts as [|contact rest IH]; intros results errors w.
  - exists results, errors, w. simpl. split; [reflexivity | split; [lia | done]].
  - simpl. unfold bind at 1, try_catch, bind, ShareLocation.messages_create.
    destruct (client (ShareLocation.format_phone (contact_phone contact)));
      simpl.
    + match goal with
      | |- context [ShareLocation.send_all client rest ?r ?e ?w0] =>
        destruct (IH r e w0) as (r' & e' & w' & -> & Hlen & Hact)
      end.
      exists r', e', w'. split; [reflexivity|].
      rewrite length_app in Hlen. simpl in *. split; [lia | exact Hact].
    + match goal with
      | |- context [ShareLocation.send_all client rest ?r ?e ?w0] =>
        destruct (IH r e w0) as (r' & e' & w' & -> & Hlen & Hact)
      end.
      exists r', e', w'. split; [reflexivity|].
      rewrite length_app in Hlen. simpl in *. split; [lia | exact Hact].
Qed.

(** No run of the handler reaches its 200 response or writes an activity:
    [new SyncActivity] throws first. *)
Lemma share_location_never_succeeds env uid w r w' :
  ShareLocation.handler env uid w = (r, w') ->
  activities w' = activities w
  /\ forall location results errors s,
       r <> Returned (ShareLocation.Status200 location results errors s).
Proof.
  unfold ShareLocation.handler, try_catch, bind, User_findById, User_findOne,
    SensorData_findOne_latest, db_call, ShareLocation.new_SyncActivity,
    throw, ret, console_error.
  destruct (twilioClient env) as [client|]; [|intros H; by inversion H].
  destruct (faults env "User.findById"); [intros H; by inversion H|].
  destruct (find _ (users w)) as [user|]; [|intros H; by inversion H].
  destruct (faults env "SensorData.findOne"); [intros H; by inversion H|].
  destruct (_ ≫= SensorData.location) as [location|];
    [|intros H; by inversion H].
  destruct (send_all_total client (User.emergencyContacts user) [] [] w)
    as (results & errors & w1 & -> & _ & Hact).
  intros H. inversion H; subst. simpl. by split.
Qed.

(** C7: the code at three contacts with a failing second delivery.  The
    two other contacts are messaged, so the failure does not abort the
    fan-out; then [new SyncActivity] throws a ReferenceError, the request
    answers 500 without the per-contact outcomes, and no ActivityRecord is
    written. *)
Theorem share_location_fails_after_fan_out :
  let run := ShareLocation.handler second_contact_fails 7%nat located_world in
  run.1 = Returned (ShareLocation.Status500 (ReferenceError "SyncActivity"))
  /\ sms_sent run.2
     = [("+919876543210", "SM+919876543210");
        ("+91-9123456780", "SM+91-9123456780")]
  /\ activities run.2 = []
  /\ console run.2
     = [("Failed to send SMS", Some (SmsError "+91 98765 00000"));
        ("Emergency SMS error", Some (ReferenceError "SyncActivity"))].
Proof. repeat split; vm_compute; reflexivity. Qed.

(** * Further properties *)

(** ** POST /receive *)

Lemma receive_success_store env b w id an ts w' :
  Receive.handler env b w = (Returned (Receive.Status200 id an ts), w') ->
  exists owner,
    sensorData w' = sensorData w ++ [receive_sample env b (User._id owner) id]
    /\ match find is_demo_user (users w) with
       | Some u => owner = u /\ users w' = users w /\ id = next_id w
       | None =>
         owner = Receive.demo_user (next_id w)
         /\ users w' = users w ++ [owner] /\ id = S (next_id w)
       end.
Proof.
  intros H. unfold Receive.handler in H.
  apply try_catch_inv in H as [(a & H & Ha) | (e & w1 & _ & H)]; cycle 1.
  { apply bind_returned in H as (? & ? & _ & H). inversion H. }
  inversion Ha; subst a; clear Ha.
  apply bind_returned in H as (found & w1 & Hfind & H).
  apply db_call_inv in Hfind as [[_ Hf] | (_ & ? & _)]; [|discriminate].
  inversion Hf; subst found w1; clear Hf.
  fold is_demo_user in H.
  apply bind_returned in H as (user & w2 & Huser & H).
  assert (sensorData w2 = sensorData w
          /\ match find is_demo_user (users w) with
             | Some u => user = u /\ users w2 = users w /\ next_id w2 = next_id w
             | None =>
               user = Receive.demo_user (next_id w)
               /\ users w2 = users w ++ [user]
               /\ next_id w2 = S (next_id w)
             end) as (S2 & U2).
  { destruct (find is_demo_user (users w)).
    - inversion Huser. auto.
    - apply bind_returned in Huser as (i & w1' & Hid & Huser).
      inversion Hid; subst i w1'; clear Hid.
      apply bind_returned in Huser as ([] & w1'' & Hsave & Huser).
      inversion Huser; subst; clear Huser.
      apply db_call_inv in Hsave as [[_ Hs] | (_ & ? & _)]; [|discriminate].
      inversion Hs. auto. }
  apply bind_returned in H as (i & w3 & Hid & H).
  inversion Hid; subst i w3; clear Hid.
  apply bind_returned in H as (saved & w4 & Hsave & H).
  apply try_catch_inv in Hsave as [(d & Hs & Hd) | (e & wx & _ & Hs)]; cycle 1.
  { apply bind_returned in Hs as (? & ? & _ & Hs). inversion Hs. }
  inversion Hd; subst d; clear Hd.
  unfold SensorData_save in Hs.
  destruct (SensorData.validate _); [discriminate|].
  apply db_call_inv in Hs as [[_ Hs] | (_ & ? & _)]; [|discriminate].
  inversion Hs; subst saved w4; clear Hs.
  apply bind_returned in H as (fall & w5 & Hfall & H).
  assert (sensorData w5 = sensorData w2 ++ [receive_sample env b (User._id user) (next_id w2)]
          /\ users w5 = users w2) as (S5 & U5).
  { destruct (_ || _).
    - apply bind_returned in Hfall as ([] & wx & Hs & Hr).
      inversion Hr; subst; clear Hr.
      apply Activity_save_inv in Hs as [(_ & _ & ->) | (_ & ? & _)];
        [by split | discriminate].
    - inversion Hfall; subst. by split. }
  apply bind_returned in H as (rapid & w6 & Hrapid & H).
  assert (sensorData w6 = sensorData w5 /\ users w6 = users w5) as (S6 & U6).
  { destruct (200 <? _)%float.
    - apply bind_returned in Hrapid as ([] & wx & Hs & Hr).
      inversion Hr; subst; clear Hr.
      apply Activity_save_inv in Hs as [(_ & _ & ->) | (_ & ? & _)];
        [by split | discriminate].
    - inversion Hrapid; subst. by split. }
  apply bind_returned in H as ([] & w7 & Hsync & H).
  assert (sensorData w7 = sensorData w6 /\ users w7 = users w6) as (S7 & U7).
  { apply try_catch_inv in Hsync as [(? & Hs & _) | (e & wx & Hs & Hlog)].
    - apply Activity_save_inv in Hs as [(_ & _ & ->) | (_ & ? & _)];
        [by split | discriminate].
    - apply Activity_save_inv in Hs as [(_ & ? & _) | (_ & _ & ->)];
        [discriminate|].
      inversion Hlog; subst. by split. }
  inversion H; subst; clear H. simpl.
  exists user. rewrite S7, S6, S5, S2, U7, U6, U5.
  destruct (find is_demo_user (users w)).
  - destruct U2 as (-> & -> & ->). auto.
  - destruct U2 as (-> & -> & ->). auto.
Qed.

(** X1: for every payload ingested by POST /receive, with [total] the
    magnitude of the gyroscope axes (0 when absent), [emergencyTriggered]
    is true if and only if [total > 200]; the rapid-movement record, of
    type emergency and status error, is written exactly then, and it is
    the only record of status error. *)
Theorem receive_rapid_motion_rule env b w id an ts w' :
  Receive.handler env b w = (Returned (Receive.Status200 id an ts), w') ->
  let x := Receive.axis (Receive.gyroscope b) Vec3.x in
  let y := Receive.axis (Receive.gyroscope b) Vec3.y in
  let z := Receive.axis (Receive.gyroscope b) Vec3.z in
  let total := PrimFloat.sqrt (x * x + y * y + z * z)%float in
  (Receive.emergencyTriggered an = true <-> (200 <? total)%float = true)
  /\ exists written,
       activities w' = activities w ++ written
       /\ ((Ty_emergency, St_error, Msg_rapid_movement total)
           ∈ headline <$> written
           <-> Receive.emergencyTriggered an = true)
       /\ count_status St_error written
          = (if Receive.emergencyTriggered an then 1 else 0)%nat.
Proof.
  intros H x y z total.
  apply receive_success in H
    as (_ & _ & Hfall & Hrapid & _ & _ & _ & written & E & L).
  change (rotation_of b) with total in *.
  split; [by rewrite Hrapid|].
  exists written. split; [exact E|].
  rewrite count_status_headline, L. clear Hfall Hrapid.
  destruct (Receive.fallDetected an), (Receive.emergencyTriggered an),
    (faults env "syncActivity.save"); simpl;
    (split; [split; intros H; first [ reflexivity | discriminate H
                                    | by apply list_elem_of_here
                                    | by apply list_elem_of_further,
                                           list_elem_of_here
                                    | absent_record H ]
            | reflexivity]).
Qed.

Lemma receive_rapid_motion_rule_witness :
  let run := Receive.handler quiet_env body_spin empty_world in
  exists id an ts,
    run.1 = Returned (Receive.Status200 id an ts)
    /\ Receive.emergencyTriggered an = true
    /\ count_status St_error (activities run.2) = 1%nat.
Proof.
  intros run.
  assert (exists id an ts, run = (Returned (Receive.Status200 id an ts), run.2))
    as (id & an & ts & Hrun) by (do 3 eexists; vm_compute; reflexivity).
  exists id, an, ts.
  destruct (receive_rapid_motion_rule _ _ _ _ _ _ _ Hrun)
    as (Hiff & written & E & _ & C).
  split; [by rewrite Hrun|].
  assert (Receive.emergencyTriggered an = true) as Han.
  { apply Hiff. apply receive_success in Hrun as (_ & _ & _ & Hr & _).
    vm_compute. reflexivity. }
  split; [exact Han|]. rewrite E, Han in *. exact C.
Defined.

(** X2: a payload without an accelerometer reading is always reported as a
    fall: its total acceleration is 0, below the threshold of 2, so every
    such ingestion answers [fallDetected = true] and files the fall
    warning. *)
Theorem receive_without_accelerometer_reports_fall env b w id an ts w' :
  Receive.handler env b w = (Returned (Receive.Status200 id an ts), w') ->
  Receive.accelerometer b = None ->
  Receive.totalAcceleration an = 0%float
  /\ Receive.fallDetected an = true
  /\ exists written,
       activities w' = activities w ++ written
       /\ (Ty_emergency, St_warning, Msg_potential_fall 0)
          ∈ headline <$> written.
Proof.
  intros H Hacc.
  apply receive_success in H
    as (Ht & _ & Hfall & _ & _ & _ & _ & written & E & L).
  assert (acceleration_of b = 0%float) as Hzero.
  { unfold acceleration_of. rewrite Hacc. reflexivity. }
  rewrite Hzero in *. split; [exact Ht|].
  split; [exact Hfall|]. exists written. split; [exact E|].
  rewrite L, Hfall. apply elem_of_app. left. apply list_elem_of_here.
Qed.

Lemma receive_without_accelerometer_reports_fall_witness :
  let run := Receive.handler quiet_env body_empty empty_world in
  exists id an ts,
    run.1 = Returned (Receive.Status200 id an ts)
    /\ Receive.fallDetected an = true.
Proof.
  intros run.
  assert (exists id an ts, run = (Returned (Receive.Status200 id an ts), run.2))
    as (id & an & ts & Hrun) by (do 3 eexists; vm_compute; reflexivity).
  exists id, an, ts. split; [by rewrite Hrun|].
  exact (proj1 (proj2 (receive_without_accelerometer_reports_fall
                         _ _ _ _ _ _ _ Hrun eq_refl))).
Defined.



(** X4: the analysis of POST /receive is never stored: whatever
    [fallDetected] and [emergencyTriggered] the response reports, the
    sample it stores has both flags false, and its accelerometer and
    gyroscope hold the defaulted axes. *)
Theorem receive_never_persists_flags env b w id an ts w' :
  Receive.handler env b w = (Returned (Receive.Status200 id an ts), w') ->
  exists d,
    last (sensorData w') = Some d
    /\ SensorData.fallDetected d = false
    /\ SensorData.emergencyTriggered d = false
    /\ SensorData.accelerometer d
       = Some (Receive.full_vec
                 (Receive.axis (Receive.accelerometer b) Vec3.x)
                 (Receive.axis (Receive.accelerometer b) Vec3.y)
                 (Receive.axis (Receive.accelerometer b) Vec3.z))
    /\ SensorData.gyroscope d
       = Some (Receive.full_vec
                 (Receive.axis (Receive.gyroscope b) Vec3.x)
                 (Receive.axis (Receive.gyroscope b) Vec3.y)
                 (Receive.axis (Receive.gyroscope b) Vec3.z)).
Proof.
  intros H. apply receive_success_store in H as (owner & E & _).
  eexists. rewrite E, last_snoc. by repeat split.
Qed.

Lemma receive_never_persists_flags_witness :
  let run := Receive.handler quiet_env body_z20 empty_world in
  exists id an ts d,
    run.1 = Returned (Receive.Status200 id an ts)
    /\ Receive.fallDetected an = true
    /\ last (sensorData run.2) = Some d
    /\ SensorData.fallDetected d = false.
Proof.
  intros run.
  assert (exists id an ts,
             run = (Returned (Receive.Status200 id an ts), run.2)
             /\ Receive.fallDetected an = true)
    as (id & an & ts & Hrun & Hfall)
    by (do 3 eexists; split; vm_compute; reflexivity).
  destruct (receive_never_persists_flags _ _ _ _ _ _ _ Hrun)
    as (d & Hl & Hf & _).
  exists id, an, ts, d. by rewrite Hrun.
Defined.

(** X5: POST /receive finds or creates the demo user.  After a successful
    request the stored sample belongs to a user with the demo e-mail; when
    one existed it is reused and the user collection is unchanged,
    otherwise exactly one user, the demo user, has been added. *)
Theorem receive_demo_user env b w id an ts w' :
  Receive.handler env b w = (Returned (Receive.Status200 id an ts), w') ->
  exists owner d,
    last (sensorData w') = Some d
    /\ SensorData.userId d = User._id owner
    /\ User.email owner = Receive.demo_email
    /\ owner ∈ users w'
    /\ match find is_demo_user (users w) with
       | Some u => owner = u /\ users w' = users w
       | None => users w' = users w ++ [owner]
       end.
Proof.
  intros H. apply receive_success_store in H as (owner & E & U).
  exists owner. eexists. rewrite E, last_snoc. split; [reflexivity|].
  split; [reflexivity|].
  destruct (find is_demo_user (users w)) as [u|] eqn:Hfind.
  - destruct U as (-> & -> & _).
    apply find_some in Hfind as (Hin & Hmail).
    apply String.eqb_eq in Hmail.
    split; [exact Hmail|]. split; [by apply list_elem_of_In | auto].
  - destruct U as (-> & -> & _).
    split; [reflexivity|]. split; [|reflexivity].
    apply elem_of_app. right. apply list_elem_of_here.
Qed.

Lemma receive_demo_user_witness :
  let once := (Receive.handler quiet_env body_z20 empty_world).2 in
  let twice := (Receive.handler quiet_env body_z20 once).2 in
  users once = [Receive.demo_user 0%nat] /\ users twice = users once.
Proof.
  intros once twice.
  assert (exists id an ts,
             Receive.handler quiet_env body_z20 empty_world
             = (Returned (Receive.Status200 id an ts), once))
    as (id & an & ts & H1) by (do 3 eexists; vm_compute; reflexivity).
  assert (exists id an ts,
             Receive.handler quiet_env body_z20 once
             = (Returned (Receive.Status200 id an ts), twice))
    as (id2 & an2 & ts2 & H2) by (do 3 eexists; vm_compute; reflexivity).
  destruct (receive_demo_user _ _ _ _ _ _ _ H2) as (o & d & _ & _ & _ & _ & U).
  split; [vm_compute; reflexivity|].
  assert (find is_demo_user (users once) = Some (Receive.demo_user 0%nat))
    as Hf by (vm_compute; reflexivity).
  rewrite Hf in U. exact (proj2 U).
Defined.



(** ** POST /api/sensor/data *)

Lemma sensor_ingest_response env b w r w' :
  SensorIngest.handler env b w = (r, w') ->
  (r = Returned SensorIngest.Status400
   /\ JS.truthy_str (SensorIngest.deviceId b) = false /\ w' = w)
  \/ (r = Returned SensorIngest.Status404
      /\ JS.truthy_str (SensorIngest.deviceId b) = true
      /\ resolved_user b w = None /\ w' = w)
  \/ (JS.truthy_str (SensorIngest.deviceId b) = true
      /\ exists id signals ts,
           r = Returned (SensorIngest.Status201 id signals ts))
  \/ (JS.truthy_str (SensorIngest.deviceId b) = true
      /\ r = Returned SensorIngest.Status500).
Proof.
  intros H. unfold SensorIngest.handler in H.
  destruct (JS.truthy_str (SensorIngest.deviceId b)) eqn:Hdev; simpl in H.
  2: { inversion H. left. auto. }
  apply try_catch_inv in H as [(a & H & ->) | (e & w1 & _ & H)]; cycle 1.
  { inversion H. by do 3 right. }
  apply bind_returned in H as (user & w1 & Huser & H).
  assert (w1 = w /\ user = resolved_user b w) as (-> & ->).
  { unfold resolved_user. destruct (SensorIngest.userId b);
      apply db_call_inv in Huser as [[_ Hf] | (_ & ? & _)];
      try discriminate; inversion Hf; auto. }
  destruct (resolved_user b w) as [user|] eqn:Hres.
  2: { inversion H. right. left. auto. }
  right. right. left. split; [reflexivity|].
  repeat (apply bind_returned in H as (? & ? & _ & H)).
  inversion H. eauto.
Qed.

(** X7: POST /api/sensor/data answers 400 exactly when the device id is
    missing or empty, before any database call, and answers 404 only when
    no user is resolved; neither response changes anything: no sample, no
    activity, no log line. *)
Theorem sensor_ingest_rejections env b w r w' :
  SensorIngest.handler env b w = (r, w') ->
  (r = Returned SensorIngest.Status400
   <-> JS.truthy_str (SensorIngest.deviceId b) = false)
  /\ (r = Returned SensorIngest.Status404 -> resolved_user b w = None)
  /\ (r = Returned SensorIngest.Status400
      \/ r = Returned SensorIngest.Status404 -> w' = w).
Proof.
  intros H.
  destruct (sensor_ingest_response _ _ _ _ _ H)
    as [(-> & Hd & ->) | [(-> & Hd & Hu & ->)
                         | [(Hd & id & s & ts & ->) | (Hd & ->)]]];
    rewrite Hd; (split; [split; intros; done || discriminate|]);
    (split; [intros; done || discriminate|]);
    intros [?|?]; done || discriminate.
Qed.

Lemma sensor_ingest_rejections_witness :
  SensorIngest.handler (failing "User.findOne") (body_button (Some ""))
    asha_world
  = (Returned SensorIngest.Status400, asha_world)
  /\ (SensorIngest.handler quiet_env (body_button (Some "band-0"))
        asha_world).2
     = asha_world.
Proof.
  split.
  - vm_compute. reflexivity.
  - apply (proj2 (proj2 (sensor_ingest_rejections quiet_env
                           (body_button (Some "band-0")) asha_world _ _
                           (surjective_pairing _)))).
    right. vm_compute. reflexivity.
Defined.

(** X8: a reading outside the schema's range (heart rate outside 0..300,
    temperature outside -50..100, battery level outside 0..100) is never
    ingested by POST /api/sensor/data: the request does not answer 201 and
    leaves the users, the samples and the activities as they were. *)
Theorem sensor_ingest_rejects_out_of_range env b w r w' :
  SensorIngest.handler env b w = (r, w') ->
  readings_in_range b = false ->
  (forall id signals ts,
      r <> Returned (SensorIngest.Status201 id signals ts))
  /\ users w' = users w
  /\ sensorData w' = sensorData w
  /\ activities w' = activities w.
Proof.
  intros H Hrange. revert H.
  unfold SensorIngest.handler, try_catch, bind, ret, throw, User_findById,
    User_findOne, SensorData_save, db_call, new_ObjectId, console_error,
    SensorData.validate.
  destruct (negb (JS.truthy_str (SensorIngest.deviceId b)));
    [intros H; by inversion H|].
  unfold readings_in_range in Hrange. cbn [SensorData.heartRate
    SensorData.temperature SensorData.batteryLevel].
  destruct (SensorIngest.userId b);
    (match goal with |- context [faults env ?c] =>
       destruct (faults env c) end; [intros H; by inversion H|]);
    (destruct (find _ (users w)); [|intros H; by inversion H]);
    destruct (SensorData.in_range 0 300 _);
    destruct (SensorData.in_range (-50) 100 _);
    destruct (SensorData.in_range 0 100 _);
    try discriminate Hrange; simpl; intros H; by inversion H.
Qed.

Lemma sensor_ingest_rejects_out_of_range_witness :
  let run := SensorIngest.handler quiet_env (body_heartRate 301) asha_world in
  run.1 = Returned SensorIngest.Status500
  /\ sensorData run.2 = [] /\ activities run.2 = [].
Proof.
  intros run.
  destruct (sensor_ingest_rejects_out_of_range quiet_env (body_heartRate 301)
              asha_world run.1 run.2 (surjective_pairing _) eq_refl)
    as (_ & _ & Hs & Ha).
  split; [vm_compute; reflexivity | by split].
Defined.

(** X9: for every sample ingested by POST /api/sensor/data whose
    temperature is present and truthy, abnormal_temperature is reported if
    and only if [temperature > 38] or [temperature < 35]; its record is of
    type system and always of status warning. *)
Theorem abnormal_temperature_rule env b w id signals ts w' t :
  SensorIngest.handler env b w
  = (Returned (SensorIngest.Status201 id signals ts), w') ->
  SensorIngest.temperature b = Some t ->
  JS.truthy t = true ->
  let fires := (38 <? t)%float || (t <? 35)%float in
  ("abnormal_temperature" ∈ signals <-> fires = true)
  /\ exists written,
       activities w' = activities w ++ written
       /\ List.filter is_temperature_record (headline <$> written)
          = if fires then [(Ty_system, St_warning, Msg_temperature t)]
            else [].
Proof.
  intros H Hh Ht fires.
  apply sensor_ingest_success in H as (-> & written & E & L).
  destruct (triggered_temperature b) as (Hin & Hrec).
  rewrite Hh, (guard_truthy _ _ Ht) in Hin, Hrec. fold fires in Hin, Hrec.
  split.
  - rewrite Hin. destruct fires; split; intros H;
      eauto; try discriminate. by destruct H.
  - exists written. split; [exact E|]. rewrite L, Hrec. by destruct fires.
Qed.

Lemma abnormal_temperature_rule_witness :
  let run := SensorIngest.handler quiet_env (body_readings 39 80) asha_world in
  exists written,
    activities run.2 = [] ++ written
    /\ List.filter is_temperature_record (headline <$> written)
       = [(Ty_system, St_warning, Msg_temperature 39)].
Proof.
  intros run.
  refine (proj2 (abnormal_temperature_rule quiet_env (body_readings 39 80)
                   asha_world 100%nat ["abnormal_temperature"]
                   1700000000000 _ 39%float _ eq_refl eq_refl)).
  vm_compute. reflexivity.
Defined.

(** X10: for every sample ingested by POST /api/sensor/data whose battery
    level is present and truthy, low_battery is reported if and only if
    [batteryLevel < 20]; its record is of type system, of status error
    when [batteryLevel < 10] and warning otherwise. *)
Theorem low_battery_rule env b w id signals ts w' l :
  SensorIngest.handler env b w
  = (Returned (SensorIngest.Status201 id signals ts), w') ->
  SensorIngest.batteryLevel b = Some l ->
  JS.truthy l = true ->
  let fires := (l <? 20)%float in
  ("low_battery" ∈ signals <-> fires = true)
  /\ exists written,
       activities w' = activities w ++ written
       /\ List.filter is_battery_record (headline <$> written)
          = if fires
            then [(Ty_system,
                   if (l <? 10)%float then St_error else St_warning,
                   Msg_low_battery l)]
            else [].
Proof.
  intros H Hh Ht fires.
  apply sensor_ingest_success in H as (-> & written & E & L).
  destruct (triggered_battery b) as (Hin & Hrec).
  rewrite Hh, (guard_truthy _ _ Ht) in Hin, Hrec. fold fires in Hin, Hrec.
  split.
  - rewrite Hin. destruct fires; split; intros H;
      eauto; try discriminate. by destruct H.
  - exists written. split; [exact E|]. rewrite L, Hrec. by destruct fires.
Qed.

Lemma low_battery_rule_witness :
  let run l := SensorIngest.handler quiet_env (body_readings 37 l) asha_world in
  (exists written,
      activities (run 5%float).2 = [] ++ written
      /\ List.filter is_battery_record (headline <$> written)
         = [(Ty_system, St_error, Msg_low_battery 5)])
  /\ (exists written,
         activities (run 15%float).2 = [] ++ written
         /\ List.filter is_battery_record (headline <$> written)
            = [(Ty_system, St_warning, Msg_low_battery 15)]).
Proof.
  intros run. split.
  - refine (proj2 (low_battery_rule quiet_env (body_readings 37 5)
                     asha_world 100%nat ["low_battery"]
                     1700000000000 _ 5%float _ eq_refl eq_refl)).
    vm_compute. reflexivity.
  - refine (proj2 (low_battery_rule quiet_env (body_readings 37 15)
                     asha_world 100%nat ["low_battery"]
                     1700000000000 _ 15%float _ eq_refl eq_refl)).
    vm_compute. reflexivity.
Defined.

Lemma triggered_names_in_order b :
  (triggered b).*1 `sublist_of` signal_names.
Proof.
  unfold triggered, signal_names.
  destruct (JS.truthy_bool (SensorIngest.emergencyTriggered b)),
    (JS.truthy_bool (SensorIngest.fallDetected b)),
    (SensorIngest.guard (SensorIngest.heartRate b) _),
    (SensorIngest.guard (SensorIngest.temperature b) _),
    (SensorIngest.guard (SensorIngest.batteryLevel b) _);
    simpl;
    repeat first [ apply sublist_nil | apply sublist_skip
                 | apply sublist_cons ].
Qed.

(** X11: the [activitiesTriggered] of a 201 response lists each signal at
    most once, in the fixed order emergency_triggered, fall_detected,
    abnormal_vitals, abnormal_temperature, low_battery, and the request
    has written exactly as many activity records as it reports signals (at
    most five). *)
Theorem sensor_ingest_signal_order env b w id signals ts w' :
  SensorIngest.handler env b w
  = (Returned (SensorIngest.Status201 id signals ts), w') ->
  signals `sublist_of` signal_names
  /\ NoDup signals
  /\ exists written,
       activities w' = activities w ++ written
       /\ length written = length signals
       /\ (length written <= 5)%nat.
Proof.
  intros H. apply sensor_ingest_success in H as (-> & written & E & L).
  pose proof (triggered_names_in_order b) as Hsub.
  split; [exact Hsub|]. split.
  - eapply sublist_NoDup; [|exact Hsub].
    unfold signal_names. repeat (apply NoDup_cons; split;
      [intros Hin; absent_name Hin|]). apply NoDup_nil_2.
  - exists written. split; [exact E|].
    assert (length written = length (triggered b).*1) as Hlen.
    { rewrite length_fmap, <- (length_fmap snd), <- L. by rewrite length_fmap. }
    split; [exact Hlen|]. rewrite Hlen.
    apply sublist_length in Hsub. exact Hsub.
Qed.

Lemma sensor_ingest_signal_order_witness :
  exists written,
    activities
      (SensorIngest.handler quiet_env (body_readings 39 5) asha_world).2
    = [] ++ written
    /\ length written = 2%nat.
Proof.
  destruct (sensor_ingest_signal_order quiet_env (body_readings 39 5)
              asha_world 100%nat ["abnormal_temperature"; "low_battery"]
              1700000000000 _ ltac:(vm_compute; reflexivity))
    as (_ & _ & written & E & Hlen & _).
  exists written. by split.
Defined.




Lemma keeps_console_error label e : keeps_samples (console_error label e).
Proof. intros w r w' H. by inversion H. Qed.






Lemma sensor_rule_keeps_store env call (fires : bool) a name
    (acc acc' : list string) w w' :
  (if fires
   then bind (Activity_save env call a) (fun _ => ret (acc ++ [name]))
   else ret acc) w = (Returned acc', w') ->
  sensorData w' = sensorData w /\ users w' = users w.
Proof.
  destruct fires; intros H.
  - apply bind_returned in H as ([] & w1 & Hs & Hr). inversion Hr; subst.
    apply Activity_save_inv in Hs as [(_ & _ & ->) | (_ & ? & _)];
      [auto | discriminate].
  - inversion H; subst. auto.
Qed.

Lemma sensor_guarded_rule_keeps_store env call v p
    (mk : number -> Activity.t) name (acc acc' : list string) w w' :
  match SensorIngest.guard v p with
  | Some n => bind (Activity_save env call (mk n)) (fun _ => ret (acc ++ [name]))
  | None => ret acc
  end w = (Returned acc', w') ->
  sensorData w' = sensorData w /\ users w' = users w.
Proof.
  destruct (SensorIngest.guard v p) as [n|]; intros H.
  - exact (sensor_rule_keeps_store env call true (mk n) name _ _ _ _ H).
  - exact (sensor_rule_keeps_store env call false (mk 0%float) name _ _ _ _ H).
Qed.

Lemma sensor_ingest_success_store env b w id signals ts w' :
  SensorIngest.handler env b w
  = (Returned (SensorIngest.Status201 id signals ts), w') ->
  exists user,
    resolved_user b w = Some user
    /\ id = next_id w
    /\ sensorData w' = sensorData w ++ [ingest_sample env b (User._id user) id]
    /\ users w' = users w
    /\ ts = SensorData.timestamp (ingest_sample env b (User._id user) id).
Proof.
  intros H.
  destruct (sensor_ingest_response _ _ _ _ _ H)
    as [(? & _) | [(? & _) | [(Hdev & _) | (_ & ?)]]]; try discriminate.
  unfold SensorIngest.handler in H. rewrite Hdev in H. cbn [negb] in H.
  apply try_catch_inv in H as [(a & H & Ha) | (e & w1 & _ & H)]; cycle 1.
  { inversion H. }
  inversion Ha; subst a; clear Ha.
  apply bind_returned in H as (user & w1 & Huser & H).
  assert (w1 = w /\ user = resolved_user b w) as (-> & ->).
  { unfold resolved_user. destruct (SensorIngest.userId b);
      apply db_call_inv in Huser as [[_ Hf] | (_ & ? & _)];
      try discriminate; inversion Hf; auto. }
  destruct (resolved_user b w) as [user|] eqn:Hres; [|inversion H].
  exists user. split; [reflexivity|].
  apply bind_returned in H as (i & w2 & Hid & H).
  inversion Hid; subst i w2; clear Hid.
  apply bind_returned in H as (saved & w3 & Hsave & H).
  unfold SensorData_save in Hsave.
  destruct (SensorData.validate _); [discriminate|].
  apply db_call_inv in Hsave as [[_ Hs] | (_ & ? & _)]; [|discriminate].
  inversion Hs; subst saved w3; clear Hs.
  apply bind_returned in H as (acc1 & w4 & H1 & H).
  apply sensor_rule_keeps_store in H1 as (S4 & U4).
  apply bind_returned in H as (acc2 & w5 & H2 & H).
  apply sensor_rule_keeps_store in H2 as (S5 & U5).
  apply bind_returned in H as (acc3 & w6 & H3 & H).
  apply (sensor_guarded_rule_keeps_store env "vitalActivity.save") in H3
    as (S6 & U6).
  apply bind_returned in H as (acc4 & w7 & H4 & H).
  apply (sensor_guarded_rule_keeps_store env "tempActivity.save") in H4
    as (S7 & U7).
  apply bind_returned in H as (acc5 & w8 & H5 & H).
  apply (sensor_guarded_rule_keeps_store env "batteryActivity.save") in H5
    as (S8 & U8).
  inversion H; subst; clear H.
  rewrite S8, S7, S6, S5, S4, U8, U7, U6, U5, U4. by repeat split.
Qed.

(** X13: a sample ingested by POST /api/sensor/data is stored as sent: the
    one sample appended has the response's [dataId], belongs to the
    resolved user, and carries the payload's device id, readings, vectors
    and location unchanged; its flags are the device's ([false] when
    absent) and its timestamp, also returned in the response, is the
    payload's when given and not 0, else the time of receipt. *)
Theorem sensor_ingest_stores_payload env b w id signals ts w' :
  SensorIngest.handler env b w
  = (Returned (SensorIngest.Status201 id signals ts), w') ->
  exists user d,
    resolved_user b w = Some user
    /\ sensorData w' = sensorData w ++ [d]
    /\ SensorData._id d = id
    /\ SensorData.userId d = User._id user
    /\ Some (SensorData.deviceId d) = SensorIngest.deviceId b
    /\ SensorData.heartRate d = SensorIngest.heartRate b
    /\ SensorData.temperature d = SensorIngest.temperature b
    /\ SensorData.batteryLevel d = SensorIngest.batteryLevel b
    /\ SensorData.accelerometer d = SensorIngest.accelerometer b
    /\ SensorData.gyroscope d = SensorIngest.gyroscope b
    /\ SensorData.location d = SensorIngest.location b
    /\ SensorData.emergencyTriggered d
       = JS.truthy_bool (SensorIngest.emergencyTriggered b)
    /\ SensorData.fallDetected d = JS.truthy_bool (SensorIngest.fallDetected b)
    /\ SensorData.timestamp d = ts
    /\ ts = match SensorIngest.timestamp b with
            | Some t => if t =? 0 then now env else t
            | None => now env
            end
    /\ SensorData.createdAt d = now env.
Proof.
  intros H.
  destruct (sensor_ingest_response _ _ _ _ _ H)
    as [(? & _) | [(? & _) | [(Hdev & _) | (_ & ?)]]]; try discriminate.
  apply sensor_ingest_success_store in H as (user & Hres & -> & E & _ & ->).
  exists user. eexists. split; [exact Hres|]. split; [exact E|].
  simpl. repeat split.
  - destruct (SensorIngest.deviceId b); [reflexivity | discriminate Hdev].
  - destruct (SensorIngest.timestamp b) as [t|]; [|reflexivity].
    simpl. by destruct (t =? 0).
Qed.

Lemma sensor_ingest_stores_payload_witness :
  exists d,
    sensorData
      (SensorIngest.handler quiet_env (body_readings 39 5) asha_world).2
    = [] ++ [d]
    /\ SensorData.temperature d = Some 39%float
    /\ SensorData.batteryLevel d = Some 5%float.
Proof.
  destruct (sensor_ingest_stores_payload quiet_env (body_readings 39 5)
              asha_world 100%nat ["abnormal_temperature"; "low_battery"]
              1700000000000 _ ltac:(vm_compute; reflexivity))
    as (user & d & _ & E & _ & _ & _ & _ & Ht & Hb & _).
  exists d. by repeat split.
Defined.

(** ** GET /api/sensor/latest *)

Lemma newest_first_head q (docs : list SensorData.t) :
  match head (merge_sort newer_first (List.filter q docs)) with
  | None => forall d, d ∈ docs -> q d = false
  | Some d =>
    d ∈ docs /\ q d = true
    /\ forall d', d' ∈ docs -> q d' = true ->
                  SensorData.createdAt d' <= SensorData.createdAt d
  end.
Proof.
  pose proof (StronglySorted_merge_sort newer_first (List.filter q docs)) as S.
  pose proof (merge_sort_Permutation newer_first (List.filter q docs)) as P.
  assert (forall d, d ∈ merge_sort newer_first (List.filter q docs)
                    <-> d ∈ docs /\ q d = true) as Hmem.
  { intros d. rewrite P, !list_elem_of_In. apply List.filter_In. }
  destruct (merge_sort newer_first (List.filter q docs)) as [|d l]; simpl.
  - intros d Hd. destruct (q d) eqn:Hq; [|reflexivity].
    exfalso. eapply elem_of_nil, Hmem. eauto.
  - destruct (proj1 (Hmem d) (list_elem_of_here _ _)) as (Hd & Hq).
    split; [exact Hd|]. split; [exact Hq|].
    intros d' Hd' Hq'.
    apply StronglySorted_inv in S as (_ & Hall).
    assert (d' ∈ d :: l) as Hin by (apply Hmem; auto).
    apply elem_of_cons in Hin as [->|Hin]; [lia|].
    rewrite Forall_forall in Hall. exact (Hall d' Hin).
Qed.

Lemma newest_sample_spec uid w :
  match newest_sample uid w with
  | None => samples_of uid w = []
  | Some d =>
    d ∈ samples_of uid w
    /\ forall d', d' ∈ samples_of uid w ->
                  SensorData.createdAt d' <= SensorData.createdAt d
  end.
Proof.
  pose proof (newest_first_head (fun d => Nat.eqb (SensorData.userId d) uid)
                (sensorData w)) as Hhead.
  assert (forall d, d ∈ samples_of uid w
                    <-> d ∈ sensorData w
                        /\ Nat.eqb (SensorData.userId d) uid = true) as Hmem.
  { intros d. unfold samples_of. rewrite !list_elem_of_In.
    apply List.filter_In. }
  unfold newest_sample. unfold samples_of at 1.
  destruct (head _) as [d|].
  - destruct Hhead as (Hd & Hq & Hmax). split; [by apply Hmem|].
    intros d' Hd'. apply Hmem in Hd' as (Hd' & Hq'). by apply Hmax.
  - destruct (samples_of uid w) as [|d l] eqn:E; [reflexivity|].
    exfalso. destruct (proj1 (Hmem d) (list_elem_of_here _ _)) as (Hd & Hq).
    rewrite (Hhead d Hd) in Hq. discriminate.
Qed.

Lemma latest_run env uid w :
  faults env "SensorData.findOne" = false ->
  Latest.handler env uid w
  = (Returned match newest_sample uid w with
              | Some d => Latest.Status200 d
              | None => Latest.Status404
              end, w).
Proof.
  intros Hf.
  unfold Latest.handler, try_catch, bind, ret, SensorData_findOne_latest,
    db_call, newest_sample, samples_of.
  rewrite Hf. by destruct (head _).
Qed.

(** X14: GET /api/sensor/latest changes nothing and, when the look-up is
    not rejected, answers 404 exactly when the user has no sample;
    otherwise it returns one of the user's samples, and no sample of the
    user has a later creation time. *)
Theorem latest_is_newest env uid w r w' :
  Latest.handler env uid w = (r, w') ->
  faults env "SensorData.findOne" = false ->
  w' = w
  /\ (r = Returned Latest.Status404 <-> samples_of uid w = [])
  /\ (forall d, r = Returned (Latest.Status200 d) ->
                d ∈ samples_of uid w
                /\ forall d', d' ∈ samples_of uid w ->
                     SensorData.createdAt d' <= SensorData.createdAt d)
  /\ r <> Returned Latest.Status500.
Proof.
  intros H Hf. rewrite (latest_run _ _ _ Hf) in H.
  pose proof (newest_sample_spec uid w) as Hnew.
  destruct (newest_sample uid w) as [d|]; injection H as <- <-.
  - destruct Hnew as (Hd & Hmax).
    split; [reflexivity|]. split; [|split; [|discriminate]].
    + split; [discriminate|]. intros Hnil.
      rewrite Hnil in Hd. by apply elem_of_nil in Hd.
    + intros d0 Hd0. by inversion Hd0; subst d0.
  - split; [reflexivity|]. by split; [|split; [discriminate|discriminate]].
Qed.

Lemma latest_is_newest_witness :
  (Latest.handler quiet_env 7%nat history_world).1
  = Returned (Latest.Status200 (sample_at 0%nat (now quiet_env)))
  /\ (Latest.handler quiet_env 8%nat history_world).1
     = Returned Latest.Status404.
Proof.
  split.
  - vm_compute. reflexivity.
  - apply (proj1 (proj2 (latest_is_newest quiet_env 8%nat history_world _ _
                           (surjective_pairing _) eq_refl))).
    vm_compute. reflexivity.
Defined.

(** X15: ingest, then read back.  After POST /api/sensor/data has
    ingested a sample at a time later than the creation of every sample
    the user already had, GET /api/sensor/latest returns exactly that
    sample, with the [dataId] and the readings of the ingestion. *)
Theorem ingest_then_latest env b w id signals ts w1 env' r w2 :
  SensorIngest.handler env b w
  = (Returned (SensorIngest.Status201 id signals ts), w1) ->
  forall user,
    resolved_user b w = Some user ->
    (forall d, d ∈ samples_of (User._id user) w ->
               SensorData.createdAt d < now env) ->
    faults env' "SensorData.findOne" = false ->
    Latest.handler env' (User._id user) w1 = (r, w2) ->
    r = Returned (Latest.Status200 (ingest_sample env b (User._id user) id)).
Proof.
  intros Hingest user Hres Hold Hf Hlatest.
  apply sensor_ingest_success_store in Hingest
    as (user' & Hres' & _ & E & _ & _).
  rewrite Hres in Hres'. inversion Hres'; subst user'; clear Hres'.
  set (new := ingest_sample env b (User._id user) id) in *.
  assert (forall d, d ∈ samples_of (User._id user) w1
                    <-> d ∈ samples_of (User._id user) w \/ d = new) as Hmem.
  { intros d. unfold samples_of. rewrite E, List.filter_app, elem_of_app.
    simpl. rewrite Nat.eqb_refl. by rewrite list_elem_of_singleton. }
  rewrite (latest_run _ _ _ Hf) in Hlatest.
  pose proof (newest_sample_spec (User._id user) w1) as Hnewest.
  assert (new ∈ samples_of (User._id user) w1) as Hnew
    by (apply Hmem; by right).
  destruct (newest_sample (User._id user) w1) as [d|];
    injection Hlatest as <- <-.
  - destruct Hnewest as (Hd & Hmax).
    apply Hmem in Hd as [Hd | ->]; [|reflexivity].
    exfalso. specialize (Hold d Hd). specialize (Hmax new Hnew).
    simpl in Hmax. lia.
  - exfalso. rewrite Hnewest in Hnew. by apply elem_of_nil in Hnew.
Qed.

Lemma ingest_then_latest_witness :
  let w1 :=
    (SensorIngest.handler quiet_env (body_readings 39 5) asha_world).2 in
  (Latest.handler quiet_env 7%nat w1).1
  = Returned
      (Latest.Status200
         (ingest_sample quiet_env (body_readings 39 5) 7%nat 100%nat)).
Proof.
  intros w1.
  apply (ingest_then_latest quiet_env (body_readings 39 5) asha_world
           100%nat ["abnormal_temperature"; "low_battery"] 1700000000000
           w1 quiet_env _ (Latest.handler quiet_env 7%nat w1).2
           ltac:(vm_compute; reflexivity) asha eq_refl).
  - intros d Hd. vm_compute in Hd. by apply elem_of_nil in Hd.
  - reflexivity.
  - apply surjective_pairing.
Defined.

(** ** GET /api/sensor/history *)

(** X16: GET /api/sensor/history changes nothing and only returns samples
    of the requesting user created inside the requested dates (both ends
    included; a missing end is open); [total] counts exactly those samples
    of the collection, so a range whose start is after its end gives an
    empty page and [total = 0] rather than an error. *)
Theorem history_date_range env uid q w data total hasMore w' :
  History.handler env uid q w
  = (Returned (History.Status200 data total hasMore), w') ->
  let in_range d :=
    Nat.eqb (SensorData.userId d) uid
    && match History.startDate q with
       | Some s => s <=? SensorData.createdAt d | None => true end
    && match History.endDate q with
       | Some e => SensorData.createdAt d <=? e | None => true end in
  w' = w
  /\ (forall d, d ∈ data -> d ∈ sensorData w /\ in_range d = true)
  /\ total = length (List.filter in_range (sensorData w))
  /\ (forall s e, History.startDate q = Some s -> History.endDate q = Some e ->
                  e < s -> data = [] /\ total = 0%nat).
Proof.
  intros H in_range.
  assert (forall d, History.mongo_query uid q d = in_range d) as Hq.
  { intros d. unfold History.mongo_query, in_range, History.is_set.
    destruct (History.startDate q), (History.endDate q); simpl;
      rewrite ?andb_true_r, ?andb_assoc; reflexivity. }
  assert (w' = w) as ->.
  { revert H. unfold History.handler, try_catch, bind, ret, SensorData_find,
      SensorData_countDocuments, db_call, throw, console_error.
    destruct (faults env "SensorData.find"); [intros H; inversion H|].
    destruct (faults env "SensorData.countDocuments");
      intros H; by inversion H. }
  apply history_success in H as (Hdata & Htotal & _).
  assert (List.filter (History.mongo_query uid q) (sensorData w)
          = List.filter in_range (sensorData w)) as Hfilter.
  { apply List.filter_ext. exact Hq. }
  split; [reflexivity|]. split; [|split].
  - intros d Hd. rewrite Hdata in Hd.
    apply find_sort_limit_skip_subset in Hd as (Hd & Hm).
    rewrite Hq in Hm. auto.
  - by rewrite Htotal, Hfilter.
  - intros s e Hs He Hlt.
    assert (forall l, List.filter in_range l = []) as Hnone.
    { induction l as [|d l IH]; [reflexivity|].
      simpl. rewrite IH.
      assert (in_range d = false) as Hd; [|by rewrite Hd].
      unfold in_range. rewrite Hs, He.
      destruct (s <=? SensorData.createdAt d) eqn:E1;
        [|by rewrite andb_false_r].
      destruct (SensorData.createdAt d <=? e) eqn:E2;
        [|by rewrite andb_false_r].
      apply Z.leb_le in E1, E2. lia. }
    rewrite Htotal, Hdata, Hfilter. unfold find_sort_limit_skip.
    rewrite Hfilter, Hnone. split; [|reflexivity].
    cbn. rewrite drop_nil. destruct (Nat.eqb _ 0); [reflexivity|].
    apply take_nil.
Qed.

Lemma history_date_range_witness :
  let t := now quiet_env in
  let run s e :=
    (History.handler quiet_env 7%nat
       (history_query 50 0 (Some s) (Some e)) history_world).1 in
  (exists data, run (t - minutes 3) (t - minutes 1)
                = Returned (History.Status200 data 3 false)
                /\ length data = 3%nat)
  /\ run (t - minutes 1) (t - minutes 3)
     = Returned (History.Status200 [] 0 false).
Proof.
  intros t.
  assert (exists data w',
             History.handler quiet_env 7%nat
               (history_query 50 0 (Some (t - minutes 3))
                  (Some (t - minutes 1))) history_world
             = (Returned (History.Status200 data 3 false), w'))
    as (data1 & w1 & Hrun1) by (do 2 eexists; vm_compute; reflexivity).
  assert (exists data total w',
             History.handler quiet_env 7%nat
               (history_query 50 0 (Some (t - minutes 1))
                  (Some (t - minutes 3))) history_world
             = (Returned (History.Status200 data total false), w'))
    as (data2 & total2 & w2 & Hrun2)
    by (do 3 eexists; vm_compute; reflexivity).
  assert (t - minutes 3 < t - minutes 1) as Hlt by (vm_compute; reflexivity).
  intros run. subst run. cbv beta. rewrite Hrun1, Hrun2. split.
  - exists data1. split; [reflexivity|].
    apply history_success in Hrun1 as (-> & _). vm_compute. reflexivity.
  - destruct (proj2 (proj2 (proj2
                (history_date_range _ _ _ _ _ _ _ _ Hrun2)))
                (t - minutes 1) (t - minutes 3) eq_refl eq_refl Hlt)
      as (-> & ->).
    reflexivity.
Defined.

(** X17: consecutive pages join.  On the same collection and with the same
    dates, the page of [n] samples after [k] followed by the page of [m]
    samples after [k + n] is the page of [n + m] samples after [k]
    ([n], [m] not 0): paging neither repeats nor skips a sample.  Samples
    with the same creation time are taken in the order of
    [find_sort_limit_skip], the same in every query. *)
Theorem history_pages_join env uid w s e n m k
    data1 total1 more1 w1 data2 total2 more2 w2 data3 total3 more3 w3 :
  n <> 0%nat -> m <> 0%nat ->
  History.handler env uid (history_query n k s e) w
  = (Returned (History.Status200 data1 total1 more1), w1) ->
  History.handler env uid (history_query m (k + n) s e) w
  = (Returned (History.Status200 data2 total2 more2), w2) ->
  History.handler env uid (history_query (n + m) k s e) w
  = (Returned (History.Status200 data3 total3 more3), w3) ->
  data1 ++ data2 = data3 /\ total1 = total3 /\ total2 = total3.
Proof.
  intros Hn Hm H1 H2 H3.
  apply history_success in H1 as (-> & -> & _).
  apply history_success in H2 as (-> & -> & _).
  apply history_success in H3 as (-> & -> & _).
  split; [|by split]. simpl.
  assert (forall q, History.mongo_query uid (history_query n k s e) q
                    = History.mongo_query uid (history_query m (k + n) s e) q)
    as E1 by reflexivity.
  unfold find_sort_limit_skip.
  change (List.filter (History.mongo_query uid (history_query m (k + n) s e)))
    with (List.filter (History.mongo_query uid (history_query n k s e))).
  change (List.filter (History.mongo_query uid (history_query (n + m) k s e)))
    with (List.filter (History.mongo_query uid (history_query n k s e))).
  apply Nat.eqb_neq in Hn as Hn'. apply Nat.eqb_neq in Hm as Hm'.
  assert (Nat.eqb (n + m) 0 = false) as Hnm by (apply Nat.eqb_neq; lia).
  rewrite Hn', Hm', Hnm.
  rewrite <- drop_drop. apply take_take_drop.
Qed.

Lemma history_pages_join_witness :
  let page n k :=
    match (History.handler quiet_env 7%nat (history_query n k None None)
             history_world).1 with
    | Returned (History.Status200 data _ _) => data
    | _ => []
    end in
  page 10%nat 0%nat ++ page 10%nat 10%nat = page 20%nat 0%nat.
Proof.
  intros page.
  assert (forall n k, exists total more w',
             History.handler quiet_env 7%nat (history_query n k None None)
               history_world
             = (Returned (History.Status200 (page n k) total more), w'))
    as Hrun.
  { intros n k. subst page. cbv beta.
    unfold History.handler, try_catch, bind, ret, SensorData_find,
      SensorData_countDocuments, db_call. simpl. eauto. }
  destruct (Hrun 10%nat 0%nat) as (t1 & m1 & w1 & H1).
  destruct (Hrun 10%nat 10%nat) as (t2 & m2 & w2 & H2).
  destruct (Hrun 20%nat 0%nat) as (t3 & m3 & w3 & H3).
  exact (proj1 (history_pages_join quiet_env 7%nat history_world None None
                  10 10 0 _ _ _ _ _ _ _ _ _ _ _ _
                  ltac:(discriminate) ltac:(discriminate) H1 H2 H3)).
Defined.

(** X18: [hasMore] tells the truth for a limit that is not 0: it is true
    exactly when matching samples remain after the page.  With limit 0
    the page holds every matching sample after [skip], yet [hasMore] is
    true whenever [skip < total]. *)
Theorem history_hasMore_meaning env uid q w data total hasMore w' :
  History.handler env uid q w
  = (Returned (History.Status200 data total hasMore), w') ->
  let limit := default 50%nat (History.limit q) in
  let skip := default 0%nat (History.skip q) in
  (limit <> 0%nat -> (hasMore = true <-> (skip + length data < total)%nat))
  /\ (limit = 0%nat ->
      length data = (total - skip)%nat
      /\ (hasMore = true <-> (skip < total)%nat)).
Proof.
  intros H limit skip.
  apply history_success in H as (-> & -> & ->). fold limit skip.
  rewrite find_sort_limit_skip_length. cbv zeta.
  set (total := length (List.filter _ _)).
  split.
  - intros Hl. apply Nat.eqb_neq in Hl as ->.
    rewrite Nat.ltb_lt. lia.
  - intros ->. simpl. rewrite Nat.ltb_lt. split; [reflexivity | lia].
Qed.

Lemma history_hasMore_meaning_witness :
  exists data,
    (History.handler quiet_env 7%nat (page 0 5) history_world).1
    = Returned (History.Status200 data 25 true)
    /\ length data = 20%nat.
Proof.
  assert (exists data w',
             History.handler quiet_env 7%nat (page 0 5) history_world
             = (Returned (History.Status200 data 25 true), w'))
    as (data & w' & Hrun) by (do 2 eexists; vm_compute; reflexivity).
  exists data. rewrite Hrun. split; [reflexivity|].
  exact (proj1 (proj2 (history_hasMore_meaning _ _ _ _ _ _ _ _ Hrun)
                  eq_refl)).
Defined.

(** ** GET /api/activities, POST /api/activities and the statistics *)

#[local] Instance newer_activity_first_total : Total newer_activity_first.
Proof. intros a b. unfold newer_activity_first. lia. Qed.

#[local] Instance newer_activity_first_trans : Transitive newer_activity_first.
Proof. intros a b c. unfold newer_activity_first. lia. Qed.

Lemma Activity_find_sorted q n k docs :
  StronglySorted newer_activity_first
    (Activity_find_sort_limit_skip q n k docs).
Proof.
  unfold Activity_find_sort_limit_skip.
  pose proof (StronglySorted_merge_sort newer_activity_first
                (List.filter q docs)) as S.
  set (sorted := merge_sort newer_activity_first (List.filter q docs)) in *.
  assert (StronglySorted newer_activity_first (drop k sorted)) as Sd.
  { rewrite <- (take_drop k sorted) in S.
    by apply StronglySorted_app_1_r in S. }
  destruct (Nat.eqb n 0); [exact Sd|].
  rewrite <- (take_drop n (drop k sorted)) in Sd.
  by apply StronglySorted_app_1_l in Sd.
Qed.

Lemma Activity_find_subset q n k docs a :
  a ∈ Activity_find_sort_limit_skip q n k docs -> a ∈ docs /\ q a = true.
Proof.
  unfold Activity_find_sort_limit_skip. intros H.
  assert (a ∈ merge_sort newer_activity_first (List.filter q docs)) as Ha.
  { destruct (Nat.eqb n 0).
    - eapply subseteq_drop, H.
    - eapply subseteq_drop, subseteq_take, H. }
  rewrite merge_sort_Permutation in Ha.
  apply list_elem_of_In, List.filter_In in Ha.
  by rewrite list_elem_of_In.
Qed.

Lemma activities_success env uid q w acts total hasMore w' :
  ActivityList.handler env uid q w
  = (Returned (ActivityList.Status200 acts total hasMore), w') ->
  let limit := default 20%nat (ActivityList.limit q) in
  let skip := default 0%nat (ActivityList.skip q) in
  acts = Activity_find_sort_limit_skip (ActivityList.mongo_query uid q)
           limit skip (activities w)
  /\ total
     = length (List.filter (ActivityList.mongo_query uid q) (activities w))
  /\ hasMore = (skip + limit <? total)%nat
  /\ w' = w.
Proof.
  intros H limit skip. unfold ActivityList.handler in H.
  apply try_catch_inv in H as [(a & H & Ha) | (e & w1 & _ & H)]; cycle 1.
  { apply bind_returned in H as (? & ? & _ & H). inversion H. }
  inversion Ha; subst a; clear Ha.
  apply bind_returned in H as (found & w1 & Hfind & H).
  apply db_call_inv in Hfind as [[_ Hfind] | (_ & ? & _)]; [|discriminate].
  inversion Hfind; subst found w1; clear Hfind.
  apply bind_returned in H as (n & w2 & Hcount & H).
  apply db_call_inv in Hcount as [[_ Hcount] | (_ & ? & _)]; [|discriminate].
  inversion Hcount; subst n w2; clear Hcount.
  inversion H; subst. by repeat split.
Qed.

Lemma filter_length_ext {A} (f g : A -> bool) (l : list A) :
  (forall a, f a = g a) ->
  length (List.filter f l) = length (List.filter g l).
Proof. intros E. by rewrite (List.filter_ext f g E). Qed.

Lemma count_type_filter t (p : Activity.t -> bool) l :
  count_type t (List.filter p l)
  = length (List.filter
              (fun a => p a && type_eqb (Activity.type a) t) l).
Proof.
  unfold count_type. induction l as [|a l IH]; [reflexivity|].
  simpl. destruct (p a); simpl; [|exact IH].
  destruct (type_eqb (Activity.type a) t); simpl; by rewrite IH.
Qed.

Lemma type_name_eqb a t :
  String.eqb (type_name a) (type_name t) = type_eqb a t.
Proof. by destruct a, t. Qed.

(** X19: GET /api/activities changes nothing and returns, newest first,
    only activities of the requesting user.  Without a type, or with the
    type "all" or the empty string, [total] counts all of the user's
    activities; with the name of a type it counts the user's activities of
    that type, so it agrees with the statistics of that type; any other
    type gives an empty list and [total = 0]. *)
Theorem activities_listing env uid q w acts total hasMore w' :
  ActivityList.handler env uid q w
  = (Returned (ActivityList.Status200 acts total hasMore), w') ->
  w' = w
  /\ StronglySorted
       (fun a b => Activity.createdAt b <= Activity.createdAt a) acts
  /\ (forall a, a ∈ acts -> a ∈ activities w /\ Activity.userId a = uid)
  /\ (ActivityList.type q = None \/ ActivityList.type q = Some ""
      \/ ActivityList.type q = Some "all" ->
      total = length (activities_of uid w))
  /\ (forall t, ActivityList.type q = Some (type_name t) ->
                total = count_type t (activities_of uid w)
                /\ forall a, a ∈ acts -> Activity.type a = t)
  /\ (forall s, ActivityList.type q = Some s ->
                s <> "" -> s <> "all" -> (forall t, s <> type_name t) ->
                acts = [] /\ total = 0%nat).
Proof.
  intros H. apply activities_success in H as (Hacts & Htotal & _ & ->).
  split; [reflexivity|]. split; [|split; [|split; [|split]]].
  - rewrite Hacts. apply Activity_find_sorted.
  - intros a Ha. rewrite Hacts in Ha.
    apply Activity_find_subset in Ha as (Ha & Hq). split; [exact Ha|].
    unfold ActivityList.mongo_query in Hq.
    apply andb_true_iff in Hq as (Hu & _). by apply Nat.eqb_eq in Hu.
  - intros Hty. rewrite Htotal. unfold activities_of.
    apply filter_length_ext. intros a.
    unfold ActivityList.mongo_query, Stats.of_user.
    destruct Hty as [-> | [-> | ->]]; simpl; by rewrite andb_true_r.
  - intros t Hty.
    assert (forall a, ActivityList.mongo_query uid q a
                      = Stats.of_user uid a
                        && type_eqb (Activity.type a) t) as Hq.
    { intros a. unfold ActivityList.mongo_query, Stats.of_user.
      rewrite Hty.
      assert (JS.truthy_str (Some (type_name t))
              && negb (String.eqb (type_name t) "all") = true) as ->
        by (by destruct t).
      by rewrite type_name_eqb. }
    split.
    + rewrite Htotal. unfold activities_of. rewrite count_type_filter.
      by apply filter_length_ext.
    + intros a Ha. rewrite Hacts in Ha.
      apply Activity_find_subset in Ha as (_ & Ha). rewrite Hq in Ha.
      apply andb_true_iff in Ha as (_ & Ha). by apply type_eqb_eq in Ha.
  - intros s Hty Hne Hall Hname.
    assert (forall l, List.filter (ActivityList.mongo_query uid q) l = [])
      as Hnone.
    { induction l as [|a l IH]; [reflexivity|]. simpl. rewrite IH.
      assert (ActivityList.mongo_query uid q a = false) as Ha; [|by rewrite Ha].
      unfold ActivityList.mongo_query. rewrite Hty. simpl.
      apply String.eqb_neq in Hne as ->. apply String.eqb_neq in Hall as ->.
      simpl.
      assert (String.eqb (type_name (Activity.type a)) s = false) as ->;
        [|by rewrite andb_false_r].
      apply String.eqb_neq. intros E. by apply (Hname (Activity.type a)). }
    rewrite Htotal, Hacts. unfold Activity_find_sort_limit_skip.
    rewrite !Hnone. split; [|reflexivity].
    cbn. rewrite drop_nil. destruct (Nat.eqb _ 0); [reflexivity|].
    apply take_nil.
Qed.

Lemma activities_listing_witness :
  (exists acts,
      (ActivityList.handler quiet_env 7%nat (by_type (Some "emergency"))
         stats_world).1
      = Returned (ActivityList.Status200 acts 2 false)
      /\ forall a, a ∈ acts -> Activity.type a = Ty_emergency)
  /\ (ActivityList.handler quiet_env 7%nat (by_type (Some "alarm"))
        stats_world).1
     = Returned (ActivityList.Status200 [] 0 false).
Proof.
  split.
  - assert (exists acts w',
               ActivityList.handler quiet_env 7%nat
                 (by_type (Some "emergency")) stats_world
               = (Returned (ActivityList.Status200 acts 2 false), w'))
      as (acts & w' & Hrun) by (do 2 eexists; vm_compute; reflexivity).
    exists acts. rewrite Hrun. split; [reflexivity|].
    destruct (activities_listing _ _ _ _ _ _ _ _ Hrun)
      as (_ & _ & _ & _ & Hty & _).
    exact (proj2 (Hty Ty_emergency eq_refl)).
  - assert (exists acts total w',
               ActivityList.handler quiet_env 7%nat
                 (by_type (Some "alarm")) stats_world
               = (Returned (ActivityList.Status200 acts total false), w'))
      as (acts & total & w' & Hrun)
      by (do 3 eexists; vm_compute; reflexivity).
    rewrite Hrun. simpl.
    destruct (activities_listing _ _ _ _ _ _ _ _ Hrun)
      as (_ & _ & _ & _ & _ & Hnone).
    destruct (Hnone "alarm" eq_refl) as (-> & ->);
      [discriminate | discriminate | by intros [] | reflexivity].
Defined.

Lemma activity_create_run env uid b w :
  ActivityCreate.handler env uid b w
  = match ActivityCreate.new_Activity env uid (ActivityCreate.type b)
            (ActivityCreate.message b)
            (default "normal" (ActivityCreate.status b))
            (default (JS.Obj []) (ActivityCreate.metadata b)) with
    | inr path =>
      (Returned ActivityCreate.Status500,
       (console_error "POST /api/activities"
          (Some (ValidationError path)) w).2)
    | inl a =>
      if faults env "activity.save"
      then (Returned ActivityCreate.Status500,
            (console_error "POST /api/activities"
               (Some (DbError "activity.save")) w).2)
      else (Returned (ActivityCreate.Status201 a),
            with_activities (activities w ++ [a]) w)
    end.
Proof.
  unfold ActivityCreate.handler, try_catch.
  destruct (ActivityCreate.new_Activity _ _ _ _ _ _) as [a|path];
    [|reflexivity].
  unfold bind, Activity_save, db_call.
  destruct (faults env "activity.save"); reflexivity.
Qed.

(** X20: POST /api/activities answers 500 and stores nothing when the type
    is missing or not one of sync, location, emergency and system, when the
    message is missing or empty, or when a status is given that is not one
    of success, warning, error and normal; the only trace is a console
    line. *)
Theorem activity_create_rejections env uid b w :
  (forall t, ActivityCreate.type b <> Some (type_name t))
  \/ ActivityCreate.message b = None \/ ActivityCreate.message b = Some ""
  \/ (exists s, ActivityCreate.status b = Some s
                /\ s ∉ ["success"; "warning"; "error"; "normal"]) ->
  let run := ActivityCreate.handler env uid b w in
  run.1 = Returned ActivityCreate.Status500
  /\ activities run.2 = activities w
  /\ users run.2 = users w /\ sensorData run.2 = sensorData w
  /\ length (console run.2) = S (length (console w)).
Proof.
  intros Hbad run. subst run. rewrite activity_create_run.
  destruct (ActivityCreate.new_Activity _ _ _ _ _ _) as [a|path] eqn:E.
  - exfalso. unfold ActivityCreate.new_Activity in E.
    destruct (ActivityCreate.type b ≫= ActivityCreate.type_of_string)
      as [ty|] eqn:Ety; [|discriminate].
    destruct (negb (JS.truthy_str (ActivityCreate.message b))) eqn:Emsg;
      [discriminate|].
    destruct (ActivityCreate.status_of_string _) as [st|] eqn:Est;
      [|discriminate].
    destruct Hbad as [Hty | [Hm | [Hm | (s & Hs & Hnot)]]].
    + destruct (ActivityCreate.type b) as [s|]; [|discriminate].
      simpl in Ety. unfold ActivityCreate.type_of_string in Ety.
      destruct (String.eqb s "sync") eqn:E1;
        [apply String.eqb_eq in E1 as ->; by apply (Hty Ty_sync)|].
      destruct (String.eqb s "location") eqn:E2;
        [apply String.eqb_eq in E2 as ->; by apply (Hty Ty_location)|].
      destruct (String.eqb s "emergency") eqn:E3;
        [apply String.eqb_eq in E3 as ->; by apply (Hty Ty_emergency)|].
      destruct (String.eqb s "system") eqn:E4;
        [apply String.eqb_eq in E4 as ->; by apply (Hty Ty_system)|].
      discriminate.
    + rewrite Hm in Emsg. discriminate.
    + rewrite Hm in Emsg. discriminate.
    + rewrite Hs in Est. simpl in Est.
      unfold ActivityCreate.status_of_string in Est.
      apply Hnot.
      destruct (String.eqb s "success") eqn:E1;
        [apply String.eqb_eq in E1 as ->; set_solver|].
      destruct (String.eqb s "warning") eqn:E2;
        [apply String.eqb_eq in E2 as ->; set_solver|].
      destruct (String.eqb s "error") eqn:E3;
        [apply String.eqb_eq in E3 as ->; set_solver|].
      destruct (String.eqb s "normal") eqn:E4;
        [apply String.eqb_eq in E4 as ->; set_solver|].
      discriminate.
  - simpl. repeat split; try reflexivity. rewrite length_app. simpl. lia.
Qed.

Lemma activity_create_rejections_witness :
  let run :=
    ActivityCreate.handler quiet_env 7%nat
      (body_event (Some "alert") (Some "door open")) stats_world in
  run.1 = Returned ActivityCreate.Status500
  /\ activities run.2 = activities stats_world.
Proof.
  intros run.
  destruct (activity_create_rejections quiet_env 7%nat
              (body_event (Some "alert") (Some "door open")) stats_world)
    as (Hr & Ha & _).
  - left. intros []; discriminate.
  - by split.
Defined.

Lemma stats_run env uid w m w' :
  Stats.handler env uid w = (Returned (Stats.Status200 m), w') -> w' = w.
Proof.
  unfold Stats.handler, try_catch, bind, ret, db_call, throw, console_error.
  destruct (faults env "Activity.aggregate"); [intros H; inversion H|].
  destruct (faults env "Activity.countDocuments"); intros H; by inversion H.
Qed.

(** X21: a created activity shows in the statistics.  After POST
    /api/activities answered 201, the statistics of that user count one
    more activity of the created type and one more under all, and the same
    as before for the other types; the created activity carries the user,
    the message sent and the status "normal" when none was sent. *)
Theorem activity_create_then_stats env uid b w a w1 m0 m1 w0' w1' :
  ActivityCreate.handler env uid b w
  = (Returned (ActivityCreate.Status201 a), w1) ->
  Stats.handler env uid w = (Returned (Stats.Status200 m0), w0') ->
  Stats.handler env uid w1 = (Returned (Stats.Status200 m1), w1') ->
  Activity.userId a = uid
  /\ ActivityCreate.type b = Some (type_name (Activity.type a))
  /\ ActivityCreate.message b
     = match Activity.message a with Msg_text s => Some s | _ => None end
  /\ (ActivityCreate.status b = None -> Activity.status a = St_normal)
  /\ m1 !! "all" = S <$> m0 !! "all"
  /\ m1 !! type_name (Activity.type a)
     = S <$> m0 !! type_name (Activity.type a)
  /\ forall t, t <> Activity.type a -> m1 !! type_name t = m0 !! type_name t.
Proof.
  intros Hc H0 H1. rewrite activity_create_run in Hc.
  destruct (ActivityCreate.new_Activity _ _ _ _ _ _) as [a'|path] eqn:E;
    [|discriminate].
  destruct (faults env "activity.save"); [discriminate|].
  inversion Hc; subst a' w1; clear Hc.
  unfold ActivityCreate.new_Activity in E.
  destruct (ActivityCreate.type b) as [s|] eqn:Ety; [|discriminate].
  simpl in E.
  destruct (ActivityCreate.type_of_string s) as [ty|] eqn:Es; [|discriminate].
  destruct (ActivityCreate.message b) as [msg|] eqn:Emsg; [|discriminate].
  destruct (negb (JS.truthy_str (Some msg))); [discriminate|].
  destruct (ActivityCreate.status_of_string _) as [st|] eqn:Est;
    [|discriminate].
  inversion E; subst a; clear E. simpl.
  apply stats_success in H0 as (Hall0 & Ht0 & _).
  apply stats_success in H1 as (Hall1 & Ht1 & _).
  simpl in Hall1, Ht1.
  assert (List.filter (Stats.of_user uid) (activities w ++
            [{| Activity.userId := uid; Activity.type := ty;
                Activity.message := Msg_text msg; Activity.status := st;
                Activity.metadata :=
                  default (JS.Obj []) (ActivityCreate.metadata b);
                Activity.createdAt := now env |}])
          = List.filter (Stats.of_user uid) (activities w)
            ++ [{| Activity.userId := uid; Activity.type := ty;
                   Activity.message := Msg_text msg; Activity.status := st;
                   Activity.metadata :=
                     default (JS.Obj []) (ActivityCreate.metadata b);
                   Activity.createdAt := now env |}]) as Hmine.
  { rewrite List.filter_app. simpl. unfold Stats.of_user at 2. simpl.
    by rewrite Nat.eqb_refl. }
  rewrite Hmine in Hall1, Ht1.
  split; [reflexivity|]. split.
  { f_equal. unfold ActivityCreate.type_of_string in Es.
    destruct (String.eqb s "sync") eqn:E1;
      [apply String.eqb_eq in E1; by inversion Es|].
    destruct (String.eqb s "location") eqn:E2;
      [apply String.eqb_eq in E2; by inversion Es|].
    destruct (String.eqb s "emergency") eqn:E3;
      [apply String.eqb_eq in E3; by inversion Es|].
    destruct (String.eqb s "system") eqn:E4;
      [apply String.eqb_eq in E4; by inversion Es|].
    discriminate. }
  split; [reflexivity|]. split.
  { intros Hs. rewrite Hs in Est. simpl in Est. by inversion Est. }
  split; [|split].
  - rewrite Hall1, Hall0, length_app. simpl. f_equal. lia.
  - rewrite Ht1, Ht0, count_type_app. simpl. f_equal.
    unfold count_type at 2. simpl. rewrite type_eqb_refl. simpl. lia.
  - intros t Hne. rewrite Ht1, Ht0, count_type_app. f_equal.
    unfold count_type at 2. simpl.
    destruct (type_eqb ty t) eqn:Et;
      [apply type_eqb_eq in Et; congruence | simpl; lia].
Qed.

Lemma activity_create_then_stats_witness :
  let w1 :=
    (ActivityCreate.handler quiet_env 7%nat
       (body_event (Some "location") (Some "left home")) stats_world).2 in
  let m0 := stats_of (Stats.handler quiet_env 7%nat stats_world).1 in
  let m1 := stats_of (Stats.handler quiet_env 7%nat w1).1 in
  m0 !! "location" = Some 0%nat /\ m1 !! "location" = Some 1%nat
  /\ m1 !! "all" = Some 6%nat /\ m1 !! "sync" = m0 !! "sync".
Proof.
  intros w1 m0 m1.
  assert (exists a,
             ActivityCreate.handler quiet_env 7%nat
               (body_event (Some "location") (Some "left home")) stats_world
             = (Returned (ActivityCreate.Status201 a), w1)
             /\ Activity.type a = Ty_location)
    as (a & Hc & Hty) by (eexists; split; vm_compute; reflexivity).
  assert (exists w', Stats.handler quiet_env 7%nat stats_world
                     = (Returned (Stats.Status200 m0), w'))
    as (w0' & H0) by (eexists; vm_compute; reflexivity).
  assert (exists w', Stats.handler quiet_env 7%nat w1
                     = (Returned (Stats.Status200 m1), w'))
    as (w1' & H1) by (eexists; vm_compute; reflexivity).
  destruct (activity_create_then_stats _ _ _ _ _ _ _ _ _ _ Hc H0 H1)
    as (_ & _ & _ & _ & Hall & Hloc & Hother).
  rewrite Hty in Hloc, Hother.
  assert (m0 !! "location" = Some 0%nat) as L0 by (vm_compute; reflexivity).
  assert (m0 !! "all" = Some 5%nat) as A0 by (vm_compute; reflexivity).
  split; [exact L0|]. split; [|split].
  - change "location" with (type_name Ty_location). rewrite Hloc.
    simpl. by rewrite L0.
  - by rewrite Hall, A0.
  - exact (Hother Ty_sync ltac:(discriminate)).
Defined.

(** X22: in the statistics, [all] is the sum of the four type counts, and
    the statistics of a user depend on that user's activities only: two
    stores that hold the same activities of the user give the same
    statistics, whatever else they hold. *)
Theorem stats_all_is_sum env uid w m w' :
  Stats.handler env uid w = (Returned (Stats.Status200 m), w') ->
  (exists s l e y,
      m !! "sync" = Some s /\ m !! "location" = Some l
      /\ m !! "emergency" = Some e /\ m !! "system" = Some y
      /\ m !! "all" = Some (s + l + e + y)%nat)
  /\ forall env2 w2 m2 w2',
       activities_of uid w2 = activities_of uid w ->
       Stats.handler env2 uid w2 = (Returned (Stats.Status200 m2), w2') ->
       m2 = m.
Proof.
  intros H. pose proof H as H'.
  apply stats_success in H as (Hall & Ht & Hdom). split.
  - exists (count_type Ty_sync (activities_of uid w)),
      (count_type Ty_location (activities_of uid w)),
      (count_type Ty_emergency (activities_of uid w)),
      (count_type Ty_system (activities_of uid w)).
    split; [exact (Ht Ty_sync)|]. split; [exact (Ht Ty_location)|].
    split; [exact (Ht Ty_emergency)|]. split; [exact (Ht Ty_system)|].
    rewrite Hall. f_equal. apply length_by_type.
  - intros env2 w2 m2 w2' Hsame H2.
    apply stats_success in H2 as (Hall2 & Ht2 & Hdom2).
    unfold activities_of in Hsame. rewrite Hsame in Hall2, Ht2.
    apply map_eq. intros k.
    destruct (decide (k = "all")) as [->|Hk]; [by rewrite Hall, Hall2|].
    destruct (m !! k) as [n|] eqn:Em.
    + destruct (Hdom k) as [->|[t ->]]; [by rewrite Em | done |].
      rewrite Ht2. by rewrite Ht in Em.
    + destruct (m2 !! k) as [n|] eqn:Em2; [|reflexivity].
      destruct (Hdom2 k) as [->|[t ->]]; [by rewrite Em2 | done |].
      by rewrite Ht in Em.
Qed.

Lemma stats_all_is_sum_witness :
  stats_of (Stats.handler quiet_env 8%nat stats_world).1
  = stats_of (Stats.handler quiet_env 8%nat
                (with_activities [activity_of 8%nat Ty_location]
                   empty_world)).1.
Proof.
  assert (exists m w', Stats.handler quiet_env 8%nat stats_world
                       = (Returned (Stats.Status200 m), w'))
    as (m & w' & H1) by (do 2 eexists; vm_compute; reflexivity).
  assert (exists m w',
             Stats.handler quiet_env 8%nat
               (with_activities [activity_of 8%nat Ty_location] empty_world)
             = (Returned (Stats.Status200 m), w'))
    as (m2 & w2' & H2) by (do 2 eexists; vm_compute; reflexivity).
  rewrite H1, H2. simpl. symmetry.
  exact (proj2 (stats_all_is_sum _ _ _ _ _ H1) quiet_env
           (with_activities [activity_of 8%nat Ty_location] empty_world)
           m2 w2' eq_refl H2).
Defined.

(** ** Retention, continued *)

Lemma filter_filter_implied {A} (p q : A -> bool) (l : list A) :
  (forall a, q a = true -> p a = true) ->
  List.filter q (List.filter p l) = List.filter q l.
Proof.
  intros Hpq. induction l as [|a l IH]; [reflexivity|]. simpl.
  destruct (p a) eqn:Ep; simpl.
  - by rewrite IH.
  - destruct (q a) eqn:Eq; [|exact IH].
    apply Hpq in Eq. congruence.
Qed.

Lemma filter_sublist {A} (p : A -> bool) (l : list A) :
  List.filter p l `sublist_of` l.
Proof.
  induction l as [|a l IH]; [constructor|]. simpl.
  destruct (p a); by constructor.
Qed.

(** X23: a sweep never fails and touches nothing but the samples and the
    console: users, activities and sent messages stay, and the samples left
    are a sub-list of the samples before.  A sweep makes up for the sweeps
    before it: after a sweep at a later time whose [deleteMany] succeeded,
    the samples are the same whether an earlier sweep ran, failed or was
    skipped. *)
Theorem sweeps_compose env1 env2 w :
  now env1 <= now env2 ->
  faults env2 "SensorData.deleteMany" = false ->
  let w1 := (cleanupOldSensorData env1 w).2 in
  let w2 := (cleanupOldSensorData env2 w1).2 in
  (cleanupOldSensorData env1 w).1 = Returned tt
  /\ sensorData w1 `sublist_of` sensorData w
  /\ users w1 = users w /\ activities w1 = activities w
  /\ sms_sent w1 = sms_sent w
  /\ sensorData w2 = sensorData (cleanupOldSensorData env2 w).2.
Proof.
  intros Hle Hf2 w1 w2. subst w2 w1. rewrite !cleanup_run, Hf2.
  destruct (faults env1 "SensorData.deleteMany"); simpl;
    repeat split; try reflexivity.
  - apply filter_sublist.
  - apply filter_filter_implied. intros d.
    rewrite !negb_true_iff, !Z.ltb_ge. lia.
Qed.

Lemma sweeps_compose_witness :
  sensorData
    (sweep (now quiet_env) 1 quiet_env
       (sweep (now quiet_env) 0 (failing "SensorData.deleteMany")
          two_samples_world).2).2
  = sensorData (sweep (now quiet_env) 1 quiet_env two_samples_world).2.
Proof.
  unfold sweep.
  refine (proj2 (proj2 (proj2 (proj2 (proj2
            (sweeps_compose _ _ two_samples_world _ _)))))).
  - vm_compute. discriminate.
  - reflexivity.
Defined.



(** ** Emergency location sharing, continued *)

Lemma startsWith_app s p :
  ShareLocation.startsWith s p = true ->
  s = String.append p (ShareLocation.drop_chars (String.length p) s).
Proof.
  revert s. induction p as [|c p IH]; intros s H; [reflexivity|].
  destruct s as [|d s]; [discriminate|]. simpl in *.
  apply andb_true_iff in H as (Hc & Hp).
  apply Ascii.eqb_eq in Hc as ->.
  change (String d s
          = String d (String.append p
                        (ShareLocation.drop_chars (String.length p) s))).
  f_equal. by apply IH.
Qed.

Lemma startsWith_prefix s p q :
  ShareLocation.startsWith s (String.append p q) = true ->
  ShareLocation.startsWith s p = true.
Proof.
  revert s. induction p as [|c p IH]; intros s H; [by destruct s|].
  destruct s as [|d s]; [discriminate|].
  change (Ascii.eqb c d
          && ShareLocation.startsWith s (String.append p q) = true) in H.
  apply andb_true_iff in H as (Hc & Hp). simpl. rewrite Hc. simpl.
  by apply IH.
Qed.

Lemma startsWith_append p r :
  ShareLocation.startsWith (String.append p r) p = true.
Proof.
  induction p as [|c p IH]; [by destruct r|].
  change (Ascii.eqb c c
          && ShareLocation.startsWith (String.append p r) p = true).
  by rewrite Ascii.eqb_refl.
Qed.

(** X25: the number an emergency SMS goes to always starts with "+", and
    formatting it again changes nothing.  A number that starts with "+" is
    used as it is; one that starts with "91" only gets the "+" in front,
    with its spaces and dashes kept; any other number is reduced to its
    digits behind "+91". *)
Theorem format_phone_normal phone :
  let formatted := ShareLocation.format_phone phone in
  ShareLocation.startsWith formatted "+" = true
  /\ ShareLocation.format_phone formatted = formatted
  /\ (ShareLocation.startsWith phone "+" = true -> formatted = phone)
  /\ (ShareLocation.startsWith phone "+" = false ->
      ShareLocation.startsWith phone "91" = true ->
      formatted = String.append "+" phone)
  /\ (ShareLocation.startsWith phone "+" = false ->
      ShareLocation.startsWith phone "91" = false ->
      formatted = String.append "+91" (ShareLocation.digits_only phone)).
Proof.
  intros formatted.
  assert (ShareLocation.startsWith formatted "+" = true
          /\ (ShareLocation.startsWith phone "+" = true -> formatted = phone)
          /\ (ShareLocation.startsWith phone "+" = false ->
              ShareLocation.startsWith phone "91" = true ->
              formatted = String.append "+" phone)
          /\ (ShareLocation.startsWith phone "+" = false ->
              ShareLocation.startsWith phone "91" = false ->
              formatted
              = String.append "+91" (ShareLocation.digits_only phone)))
    as (Hplus & Hkeep & H91 & Hother).
  { subst formatted. unfold ShareLocation.format_phone.
    destruct (ShareLocation.startsWith phone "+") eqn:Ep; cbn [negb].
    { repeat split; auto; discriminate. }
    unfold ShareLocation.replace_leading_91.
    destruct (ShareLocation.startsWith phone "+91") eqn:Ep91.
    { apply (startsWith_prefix phone "+" "91") in Ep91. congruence. }
    destruct (ShareLocation.startsWith phone "91") eqn:E91.
    - apply startsWith_app in E91.
      rewrite startsWith_append. cbn [negb]. repeat split; try discriminate.
      intros _ _. exact (eq_sym (f_equal (String.append "+") E91)).
    - rewrite Ep91. cbn [negb]. repeat split; discriminate || auto. }
  split; [exact Hplus|]. split; [|by repeat split].
  unfold ShareLocation.format_phone at 1. by rewrite Hplus.
Qed.

Lemma format_phone_normal_witness :
  ShareLocation.format_phone "98765 43210" = "+919876543210"
  /\ ShareLocation.format_phone "91 98765-43210" = "+91 98765-43210"
  /\ ShareLocation.format_phone "+44 20 7946 0018" = "+44 20 7946 0018".
Proof.
  split; [|split].
  - exact (proj2 (proj2 (proj2 (proj2 (format_phone_normal "98765 43210"))))
             eq_refl eq_refl).
  - exact (proj1 (proj2 (proj2 (proj2
             (format_phone_normal "91 98765-43210")))) eq_refl eq_refl).
  - exact (proj1 (proj2 (proj2 (format_phone_normal "+44 20 7946 0018")))
             eq_refl).
Defined.

Lemma send_all_run client contacts results errors w :
  exists results' errors' w',
    ShareLocation.send_all client contacts results errors w
    = (Returned (results', errors'), w')
    /\ sms_sent w' = sms_sent w ++ deliveries client contacts
    /\ console w' = console w ++ rejections client contacts
    /\ users w' = users w /\ activities w' = activities w
    /\ sensorData w' = sensorData w.
Proof.
  revert results errors w.
  induction contacts as [|contact rest IH]; intros results errors w.
  - exists results, errors, w. simpl. by rewrite !app_nil_r.
  - simpl. unfold bind at 1, try_catch, bind, ShareLocation.messages_create.
    unfold deliveries, rejections. simpl.
    destruct (client (ShareLocation.format_phone (contact_phone contact)));
      simpl;
      match goal with
      | |- context [ShareLocation.send_all client rest ?r ?e ?w0] =>
        destruct (IH r e w0) as (r' & e' & w' & -> & Hs & Hc & Hu & Ha & Hd)
      end;
      exists r', e', w'; simpl in *;
      rewrite Hs, Hc, <- ?app_assoc; by repeat split.
Qed.

(** X26: POST /api/emergency/share-location for a user with a located
    newest sample, with Twilio configured and the look-ups accepted.  Every
    contact is tried, in order: each accepted message is sent to the
    formatted number, each rejected one leaves a console line and the loop
    goes on.  Then [new SyncActivity] throws: the answer is always 500 with
    that ReferenceError, and no activity is written.  A request answered
    with 503 or 404 has changed nothing and sent nothing. *)
Theorem share_location_fan_out :
  (forall env uid w client user d location,
      twilioClient env = Some client ->
      faults env "User.findById" = false ->
      faults env "SensorData.findOne" = false ->
      find (fun u => Nat.eqb (User._id u) uid) (users w) = Some user ->
      newest_sample uid w = Some d ->
      SensorData.location d = Some location ->
      let run := ShareLocation.handler env uid w in
      run.1
      = Returned (ShareLocation.Status500 (ReferenceError "SyncActivity"))
      /\ sms_sent run.2
         = sms_sent w ++ deliveries client (User.emergencyContacts user)
      /\ console run.2
         = console w ++ rejections client (User.emergencyContacts user)
           ++ [("Emergency SMS error",
                Some (ReferenceError "SyncActivity"))]
      /\ activities run.2 = activities w)
  /\ (forall env uid w r w',
         ShareLocation.handler env uid w = (r, w') ->
         r = Returned ShareLocation.Status503
         \/ r = Returned ShareLocation.Status404_user
         \/ r = Returned ShareLocation.Status404_location ->
         w' = w).
Proof.
  split.
  - intros env uid w client user d location Hc Hf1 Hf2 Hu Hd Hl run.
    subst run.
    destruct (ShareLocation.handler env uid w) as [r w'] eqn:Hrun.
    revert Hrun.
    unfold ShareLocation.handler, try_catch, bind at 1, User_findById,
      User_findOne, db_call.
    rewrite Hc, Hf1, Hu.
    unfold bind at 1, SensorData_findOne_latest, db_call.
    unfold newest_sample, samples_of in Hd. rewrite Hf2, Hd. simpl.
    rewrite Hl. unfold bind at 1.
    destruct (send_all_run client (User.emergencyContacts user) [] [] w)
      as (results & errors & w1 & -> & Hs & Hcon & _ & Ha & _).
    intros H. inversion H; subst; clear H. simpl.
    rewrite Hs, Hcon, Ha, <- app_assoc. by repeat split.
  - intros env uid w r w'.
    unfold ShareLocation.handler, try_catch, bind at 1, User_findById,
      User_findOne, db_call.
    destruct (twilioClient env) as [client|]; [|intros H; by inversion H].
    destruct (faults env "User.findById").
    { intros H. inversion H; subst. intros [?|[?|?]]; discriminate. }
    destruct (find _ (users w)) as [user|]; [|intros H; by inversion H].
    unfold bind at 1, SensorData_findOne_latest, db_call.
    destruct (faults env "SensorData.findOne").
    { intros H. inversion H; subst. intros [?|[?|?]]; discriminate. }
    destruct (_ ≫= SensorData.location) as [location|];
      [|intros H; by inversion H].
    unfold bind at 1.
    destruct (send_all_run client (User.emergencyContacts user) [] [] w)
      as (results & errors & w1 & -> & _).
    intros H. inversion H; subst. intros [?|[?|?]]; discriminate.
Qed.

Lemma share_location_fan_out_witness :
  let run :=
    ShareLocation.handler second_contact_fails 7%nat located_world in
  sms_sent run.2
  = [("+919876543210", "SM+919876543210");
     ("+91-9123456780", "SM+91-9123456780")]
  /\ activities run.2 = [].
Proof.
  assert (exists client,
             twilioClient second_contact_fails = Some client
             /\ deliveries client (User.emergencyContacts asha)
                = [("+919876543210", "SM+919876543210");
                   ("+91-9123456780", "SM+91-9123456780")])
    as (client & Hc & Hd) by (eexists; split; vm_compute; reflexivity).
  assert (exists d location,
             newest_sample 7%nat located_world = Some d
             /\ SensorData.location d = Some location)
    as (d & location & Hn & Hl) by (do 2 eexists; split; vm_compute; reflexivity).
  intros run.
  destruct (proj1 share_location_fan_out second_contact_fails 7%nat
              located_world client asha d location Hc eq_refl eq_refl
              eq_refl Hn Hl) as (_ & Hs & _ & Ha).
  fold run in Hs, Ha. split; [|exact Ha].
  rewrite Hs, Hd. reflexivity.
Defined.

(** X27: POST /api/emergency/share-location-test fails in the same way as
    the endpoint it imitates.  No run answers 200: once the user and a
    located newest sample are found, [new SyncActivity] throws and the
    answer is 500.  No run sends an SMS or changes users, samples or
    activities, and a 404 leaves everything as it was. *)
Theorem share_location_test_never_succeeds env random uid w r w' :
  ShareLocationTest.handler env random uid w = (r, w') ->
  (forall location results errors s,
      r <> Returned (ShareLocationTest.Status200 location results errors s))
  /\ sms_sent w' = sms_sent w /\ activities w' = activities w
  /\ users w' = users w /\ sensorData w' = sensorData w
  /\ (r = Returned ShareLocationTest.Status404_user
      \/ r = Returned ShareLocationTest.Status404_location -> w' = w)
  /\ (faults env "User.findById" = false ->
      faults env "SensorData.findOne" = false ->
      is_Some (find (fun u => Nat.eqb (User._id u) uid) (users w)) ->
      is_Some (newest_sample uid w ≫= SensorData.location) ->
      r = Returned
            (ShareLocationTest.Status500 (ReferenceError "SyncActivity"))).
Proof.
  unfold ShareLocationTest.handler, try_catch, bind at 1, User_findById,
    User_findOne, db_call, newest_sample, samples_of.
  destruct (faults env "User.findById").
  { intros H. inversion H; subst. simpl.
    repeat split; try discriminate; intros [?|?]; discriminate. }
  destruct (find _ (users w)) as [user|].
  2: { intros H. inversion H; subst.
       repeat split; try discriminate. intros _ _ [? ?]; discriminate. }
  unfold bind at 1, SensorData_findOne_latest, db_call.
  destruct (faults env "SensorData.findOne").
  { intros H. inversion H; subst. simpl.
    repeat split; try discriminate; intros [?|?]; discriminate. }
  destruct (_ ≫= SensorData.location) as [location|].
  2: { intros H. inversion H; subst.
       repeat split; try discriminate. intros _ _ _ [? ?]; discriminate. }
  intros H. inversion H; subst. simpl.
  repeat split; try discriminate; intros [?|?]; discriminate.
Qed.

Lemma share_location_test_never_succeeds_witness :
  let run :=
    ShareLocationTest.handler quiet_env (fun _ => "a1b2c3") 7%nat
      located_world in
  run.1
  = Returned (ShareLocationTest.Status500 (ReferenceError "SyncActivity"))
  /\ sms_sent run.2 = [] /\ activities run.2 = [].
Proof.
  assert (is_Some (find (fun u => Nat.eqb (User._id u) 7%nat)
                     (users located_world))) as Hu by (vm_compute; eauto).
  assert (is_Some (newest_sample 7%nat located_world
                   ≫= SensorData.location)) as Hl by (vm_compute; eauto).
  intros run.
  destruct (share_location_test_never_succeeds quiet_env
              (fun _ => "a1b2c3") 7%nat located_world run.1 run.2
              (surjective_pairing _))
    as (_ & Hs & Ha & _ & _ & _ & Hr).
  split; [exact (Hr eq_refl eq_refl Hu Hl)|]. by split.
Defined.

(** ** seedSensorData and POST /api/sensor/seed *)

Lemma seed_insertMany env call owner id1 id2 :
  Seed.SensorData_insertMany env call (Seed.sampleData env owner id1 id2)
  = db_call env call
      (fun w =>
         (Returned (Seed.sampleData env owner id1 id2),
          with_sensorData
            (sensorData w ++ Seed.sampleData env owner id1 id2) w)).
Proof. reflexivity. Qed.

Lemma deleteMany_all (l : list SensorData.t) :
  List.filter (fun d => negb ((fun _ => true) d)) l = [].
Proof. by induction l. Qed.

(** X28: seeding replaces the telemetry of every user.  When POST
    /api/sensor/seed answers 200, the sample collection holds exactly the
    two seeded samples, 5 and 2 minutes old, of device "ESP32_001" and of a
    user with the demo e-mail who is in the user collection; every sample
    stored before, of any user, is gone; two sync activities with the
    samples' creation times are appended.  The deletion is not undone when
    a later step fails: if [insertMany] rejects the samples, the request
    answers 500 and the sample collection is left empty. *)
Theorem seed_replaces_all_samples env w r w' :
  Seed.handler env w = (r, w') ->
  (forall res,
      r = Returned (Seed.Status200 res) ->
      Seed.count res = 2%nat /\ sensorData w' = Seed.records res
      /\ (exists owner,
             owner ∈ users w' /\ is_demo_user owner = true
             /\ Forall (fun d => SensorData.userId d = User._id owner
                                 /\ SensorData.deviceId d = "ESP32_001")
                  (sensorData w'))
      /\ SensorData.createdAt <$> sensorData w'
         = [now env - 5 * 60 * 1000; now env - 2 * 60 * 1000]
      /\ exists written,
           activities w' = activities w ++ written
           /\ Activity.type <$> written = [Ty_sync; Ty_sync]
           /\ Activity.createdAt <$> written
              = SensorData.createdAt <$> sensorData w')
  /\ (faults env "User.findOne" = false ->
      faults env "user.save" = false ->
      faults env "SensorData.deleteMany" = false ->
      faults env "SensorData.insertMany" = true ->
      r = Returned (Seed.Status500 (DbError "SensorData.insertMany"))
      /\ sensorData w' = [] /\ activities w' = activities w).
Proof.
  unfold Seed.handler, Seed.seedSensorData.
  unfold try_catch at 1 2, bind at 1 2, User_findOne, db_call at 1.
  destruct (faults env "User.findOne") eqn:F1.
  { intros H. inversion H; subst. split; [discriminate | discriminate]. }
  fold is_demo_user.
  destruct (find is_demo_user (users w)) as [u|] eqn:Hfind.
  - unfold bind at 1, ret at 1. unfold bind at 1.
    unfold SensorData_deleteMany, db_call at 1.
    destruct (faults env "SensorData.deleteMany") eqn:F3.
    { intros H. inversion H; subst. split; [discriminate | discriminate]. }
    rewrite deleteMany_all.
    unfold bind at 1, new_ObjectId at 1. unfold bind at 1, new_ObjectId at 1.
    unfold bind at 1. rewrite seed_insertMany. unfold db_call at 1.
    destruct (faults env "SensorData.insertMany") eqn:F4.
    { intros H. inversion H; subst. split; [discriminate|]. by intros. }
    unfold bind at 1, Seed.Activity_insertMany, db_call.
    destruct (faults env "Activity.insertMany") eqn:F5.
    { intros H. inversion H; subst. split; [discriminate | discriminate]. }
    intros H. inversion H; subst; clear H. split; [|discriminate].
    intros res Hres. inversion Hres; subst; clear Hres. simpl.
    split; [reflexivity|]. split; [reflexivity|]. split.
    { exists u. apply find_some in Hfind as (Hin & Hdemo).
      split; [by apply list_elem_of_In|]. split; [exact Hdemo|].
      by repeat constructor. }
    split; [reflexivity|]. eexists. split; [reflexivity|]. by split.
  - unfold bind at 1. unfold bind at 1, new_ObjectId at 1.
    unfold bind at 1, User_save, db_call at 1.
    destruct (faults env "user.save") eqn:F2.
    { intros H. inversion H; subst. split; [discriminate | discriminate]. }
    unfold ret at 1. unfold bind at 1.
    unfold SensorData_deleteMany, db_call at 1.
    destruct (faults env "SensorData.deleteMany") eqn:F3.
    { intros H. inversion H; subst. split; [discriminate | discriminate]. }
    rewrite deleteMany_all.
    unfold bind at 1, new_ObjectId at 1. unfold bind at 1, new_ObjectId at 1.
    unfold bind at 1. rewrite seed_insertMany. unfold db_call at 1.
    destruct (faults env "SensorData.insertMany") eqn:F4.
    { intros H. inversion H; subst. split; [discriminate|]. by intros. }
    unfold bind at 1, Seed.Activity_insertMany, db_call.
    destruct (faults env "Activity.insertMany") eqn:F5.
    { intros H. inversion H; subst. split; [discriminate | discriminate]. }
    intros H. inversion H; subst; clear H. split; [|discriminate].
    intros res Hres. inversion Hres; subst; clear Hres. simpl.
    split; [reflexivity|]. split; [reflexivity|]. split.
    { exists (Receive.demo_user (next_id w)).
      split; [apply elem_of_app; right; apply list_elem_of_here|].
      split; [reflexivity|]. by repeat constructor. }
    split; [reflexivity|]. eexists. split; [reflexivity|]. by split.
Qed.

Lemma seed_replaces_all_samples_witness :
  length (sensorData shared_world) = 2%nat
  /\ (let run := Seed.handler quiet_env shared_world in
      Forall (fun d => SensorData.deviceId d = "ESP32_001")
        (sensorData run.2))
  /\ (let run :=
        Seed.handler (failing "SensorData.insertMany") shared_world in
      sensorData run.2 = []).
Proof.
  assert (exists res w',
             Seed.handler quiet_env shared_world
             = (Returned (Seed.Status200 res), w'))
    as (res & w1 & Hrun) by (do 2 eexists; vm_compute; reflexivity).
  split; [reflexivity|]. split.
  - rewrite Hrun. cbn [snd].
    destruct (proj1 (seed_replaces_all_samples _ _ _ _ Hrun) res eq_refl)
      as (_ & _ & (owner & _ & _ & Hall) & _).
    eapply Forall_impl; [exact Hall|]. by intros d [_ Hd].
  - intros run.
    exact (proj1 (proj2 (proj2 (seed_replaces_all_samples
             (failing "SensorData.insertMany") shared_world run.1 run.2
             (surjective_pairing _)) eq_refl eq_refl eq_refl eq_refl))).
Defined.

(** ** WhatsAppService *)

Lemma digits_only_idempotent s :
  ShareLocation.digits_only (ShareLocation.digits_only s)
  = ShareLocation.digits_only s.
Proof.
  induction s as [|c s IH]; [reflexivity|]. simpl.
  destruct (ShareLocation.is_digit c) eqn:E; [|exact IH].
  simpl. by rewrite E, IH.
Qed.

(** X29: whatever happens to the service, in any order (initialisations
    that succeed or fail, connection updates, disconnects), the status it
    reports is coherent: when the state is "connected" then [isConnected]
    is true and no QR code is kept, and when the state is "disconnected"
    then [isConnected] is false.  The converse fails: after a failed
    initialisation the state is "error" while [isConnected] may still be
    true. *)
Theorem whatsapp_status_coherent loggedOut events :
  let '(isConnected, connectionState, qrCode) :=
    WhatsApp.getConnectionStatus (WhatsApp.run loggedOut events) in
  (connectionState = WhatsApp.connected ->
   isConnected = true /\ qrCode = None)
  /\ (connectionState = WhatsApp.disconnected -> isConnected = false)
  /\ (match last events with
      | Some (WhatsApp.Initialize false) =>
        connectionState = WhatsApp.error
      | _ => True
      end).
Proof.
  unfold WhatsApp.getConnectionStatus, WhatsApp.run.
  induction events as [|e events IH] using rev_ind.
  - simpl. repeat split; discriminate.
  - rewrite foldl_app, last_snoc. simpl.
    destruct IH as (Hc & Hd & _).
    set (s := foldl (WhatsApp.step loggedOut) WhatsApp.constructor events)
      in *.
    destruct e as [[|]|u|ok]; simpl.
    + auto.
    + repeat split; discriminate.
    + unfold WhatsApp.on_connection_update.
      destruct (JS.truthy_str (WhatsApp.u_qr u));
        destruct (WhatsApp.u_connection u) as [[| |]|]; simpl;
        repeat split; discriminate || auto; intros; tauto.
    + unfold WhatsApp.disconnect.
      destruct (WhatsApp.sock s && ok); simpl; [|auto].
      repeat split; discriminate || auto.
Qed.

Lemma whatsapp_status_coherent_witness :
  WhatsApp.getConnectionStatus online = (true, WhatsApp.connected, None)
  /\ WhatsApp.getConnectionStatus
       (WhatsApp.step 401 online (WhatsApp.Initialize false))
     = (true, WhatsApp.error, None).
Proof.
  pose proof (whatsapp_status_coherent 401
                [WhatsApp.Initialize true;
                 WhatsApp.ConnectionUpdate
                   {| WhatsApp.u_connection := Some WhatsApp.open;
                      WhatsApp.u_lastDisconnect := None;
                      WhatsApp.u_qr := None |}]) as H.
  fold online in H.
  destruct (WhatsApp.getConnectionStatus online) as [[c st] qr] eqn:E.
  assert (st = WhatsApp.connected) as -> by (by inversion E).
  destruct (proj1 H eq_refl) as (-> & ->).
  split; reflexivity.
Defined.

(** X30: sending over WhatsApp.  Without a connection or a socket both
    send functions refuse and hand nothing to the socket; after a
    [disconnect()] whose logout went through this is always so.  What is
    handed to the socket is addressed to the number's JID, which depends
    on the digits of the number only.  [sendLocationMessage] sends the pin
    first and the text only when it is not empty; when the text is
    rejected the call fails although the pin has been sent. *)
Theorem whatsapp_send s socket phoneNumber latitude longitude message :
  let text := WhatsApp.sendMessage s socket phoneNumber message in
  let pin :=
    WhatsApp.sendLocationMessage s socket phoneNumber latitude longitude
      message in
  let jid := WhatsApp.jid_of phoneNumber in
  (WhatsApp.isConnected s = false \/ WhatsApp.sock s = false ->
   text = (WhatsApp.NotConnected, []) /\ pin = (WhatsApp.NotConnected, []))
  /\ (forall loggedOut events,
         s = WhatsApp.run loggedOut (events ++ [WhatsApp.Disconnect true]) ->
         text.1 = WhatsApp.NotConnected /\ pin.1 = WhatsApp.NotConnected)
  /\ jid = WhatsApp.jid_of (ShareLocation.digits_only phoneNumber)
  /\ text.2 `sublist_of` [(jid, WhatsApp.Text message)]
  /\ (exists rest,
         pin.2 = [] /\ rest = []
         \/ pin.2 = (jid, WhatsApp.LocationPin latitude longitude) :: rest
            /\ rest `sublist_of` [(jid, WhatsApp.Text message)]
            /\ (message = "" -> rest = []))
  /\ (socket jid (WhatsApp.LocationPin latitude longitude) <> None ->
      socket jid (WhatsApp.Text message) = None ->
      WhatsApp.isConnected s = true -> WhatsApp.sock s = true ->
      message <> "" ->
      pin = (WhatsApp.SendError,
             [(jid, WhatsApp.LocationPin latitude longitude)])).
Proof.
  intros text pin jid. subst text pin jid.
  unfold WhatsApp.sendMessage, WhatsApp.sendLocationMessage.
  split; [|split; [|split; [|split; [|split]]]].
  - intros [-> | ->]; [|rewrite orb_true_r]; by split.
  - intros loggedOut events ->. unfold WhatsApp.run.
    rewrite foldl_app. simpl. unfold WhatsApp.disconnect.
    destruct (WhatsApp.sock _) eqn:Es; simpl.
    + by split.
    + rewrite Es, orb_true_r. by split.
  - unfold WhatsApp.jid_of. by rewrite digits_only_idempotent.
  - destruct (_ || _); [apply sublist_nil_l|].
    destruct (socket _ _) as [[id ts]|]; [reflexivity | apply sublist_nil_l].
  - destruct (_ || _); [exists []; by left|].
    destruct (socket _ (WhatsApp.LocationPin _ _)) as [[id ts]|];
      [|exists []; by left].
    destruct (String.eqb message "") eqn:Em; simpl.
    + exists []. right. split; [reflexivity|].
      split; [apply sublist_nil_l | done].
    + apply String.eqb_neq in Em.
      destruct (socket _ (WhatsApp.Text _)) as [?|].
      * eexists. right. split; [reflexivity|]. split; [reflexivity | done].
      * exists []. right. split; [reflexivity|].
        split; [apply sublist_nil_l | done].
  - intros Hpin Htext -> -> Hmsg. simpl.
    destruct (socket _ (WhatsApp.LocationPin _ _)) as [[id ts]|]; [|done].
    apply String.eqb_neq in Hmsg as ->. simpl. by rewrite Htext.
Qed.

Lemma whatsapp_send_witness :
  WhatsApp.sendLocationMessage online pins_only "98765 43210" 12.5 77.25
    "help"
  = (WhatsApp.SendError,
     [("919876543210@s.whatsapp.net", WhatsApp.LocationPin 12.5 77.25)])
  /\ (WhatsApp.sendMessage
        (WhatsApp.step 401 online (WhatsApp.Disconnect true)) pins_only
        "98765 43210" "help").1
     = WhatsApp.NotConnected.
Proof.
  split.
  - exact (proj2 (proj2 (proj2 (proj2 (proj2
             (whatsapp_send online pins_only "98765 43210" 12.5 77.25
                "help")))))
             ltac:(discriminate) eq_refl eq_refl eq_refl
             ltac:(discriminate)).
  - exact (proj1 (proj1 (proj2
             (whatsapp_send
                (WhatsApp.step 401 online (WhatsApp.Disconnect true))
                pins_only "98765 43210" 12.5 77.25 "help"))
             401
             [WhatsApp.Initialize true;
              WhatsApp.ConnectionUpdate
                {| WhatsApp.u_connection := Some WhatsApp.open;
                   WhatsApp.u_lastDisconnect := None;
                   WhatsApp.u_qr := None |}]
             eq_refl)).
Defined.
